(** * Qualtrics report generator: a shallow embedding and its properties

    The development follows [qualtrics_report_generator.py].  Python
    strings are sequences of Unicode code points ([str := list N]); a
    dictionary is an association list in insertion order; a function that
    can raise returns in [result].

    What the program takes from the Python library and the Unicode
    database, and which is no part of the repository, is gathered in the
    record [pylib]: the character tables above U+00FF, the replacement of
    character references by [html.unescape], the JSON pretty printer,
    the limit of [int] on the digits of a string and the formatting of
    floats.  Below U+0100 the tables are written out.
    Every definition that needs the library takes it as a section
    variable, so that the theorems hold for whatever the library does
    there. *)

From Stdlib Require Import String Ascii DecimalString.
From Stdlib Require Import List Bool Arith NArith ZArith QArith Lia Permutation.
From Stdlib Require Import Sorted.
Import ListNotations.

Set Implicit Arguments.
Local Open Scope string_scope.
Local Open Scope nat_scope.
Local Open Scope list_scope.

(* ================================================================== *)
(** * Python strings *)
(* ================================================================== *)

Definition char := N.
Bind Scope N_scope with char.
Definition str := list char.

(** ** String literals

    A literal is written as in the source and read as UTF-8. *)

Definition cont (b : N) : N := N.land b 63.

Fixpoint utf8_decode (bs : list N) : str :=
  match bs with
  | [] => []
  | b0 :: t0 =>
      if (b0 <? 128)%N then b0 :: utf8_decode t0
      else if (b0 <? 224)%N then
        match t0 with
        | b1 :: t1 =>
            (N.shiftl (N.land b0 31) 6 + cont b1)%N :: utf8_decode t1
        | _ => []
        end
      else if (b0 <? 240)%N then
        match t0 with
        | b1 :: b2 :: t2 =>
            (N.shiftl (N.land b0 15) 12 + N.shiftl (cont b1) 6 + cont b2)%N
              :: utf8_decode t2
        | _ => []
        end
      else
        match t0 with
        | b1 :: b2 :: b3 :: t3 =>
            (N.shiftl (N.land b0 7) 18 + N.shiftl (cont b1) 12
             + N.shiftl (cont b2) 6 + cont b3)%N :: utf8_decode t3
        | _ => []
        end
  end.

Definition py (s : string) : str :=
  utf8_decode (map N_of_ascii (list_ascii_of_string s)).

(** Characters that a Rocq literal cannot hold. *)
Definition dquote : str := [34%N].
Definition newline : str := [10%N].

(** ** Comparison *)

Fixpoint str_eqb (a b : str) : bool :=
  match a, b with
  | [], [] => true
  | x :: a', y :: b' => (x =? y)%N && str_eqb a' b'
  | _, _ => false
  end.

(** [a < b] for [str]: code point order, the shorter a prefix first. *)
Fixpoint str_ltb (a b : str) : bool :=
  match a, b with
  | _, [] => false
  | [], _ :: _ => true
  | x :: a', y :: b' =>
      if (x <? y)%N then true
      else if (x =? y)%N then str_ltb a' b' else false
  end.

Definition str_in (x : str) (l : list str) : bool := existsb (str_eqb x) l.

(** ** Searching and cutting *)

Fixpoint startswith (s p : str) {struct p} : bool :=
  match p, s with
  | [], _ => true
  | x :: p', y :: s' => (x =? y)%N && startswith s' p'
  | _ :: _, [] => false
  end.

Definition endswith (s p : str) : bool := startswith (rev s) (rev p).

(** [sub in s] *)
Fixpoint contains (s sub : str) : bool :=
  startswith s sub
  || match s with
     | [] => false
     | _ :: s' => contains s' sub
     end.

(** [s.split(sep)] for a non-empty separator: [skip] counts the code
    points of a separator that are still to be dropped, [cur] is the
    piece read so far, reversed. *)
Fixpoint split_go (sep : str) (s : str) (skip : nat) (cur : str)
  : list str :=
  match s with
  | [] => [rev cur]
  | c :: s' =>
      match skip with
      | S k => split_go sep s' k cur
      | O =>
          if startswith s sep
          then rev cur :: split_go sep s' (length sep - 1) []
          else split_go sep s' 0 (c :: cur)
      end
  end.

Definition split (s sep : str) : list str := split_go sep s 0 [].

(** [sep.join(parts)] *)
Fixpoint join (sep : str) (parts : list str) : str :=
  match parts with
  | [] => []
  | [p] => p
  | p :: rest => p ++ sep ++ join sep rest
  end.

(** [s.replace(old, new)] for a non-empty [old]. *)
Definition replace (s old new : str) : str := join new (split s old).

(** ** Character classes *)

Definition between (lo hi c : N) : bool := ((lo <=? c) && (c <=? hi))%N.

(** [str.isspace] of one code point, which is also [\s] of [re]: the
    whole table. *)
Definition isspace (c : char) : bool :=
  between 9 13 c || between 28 32 c || (c =? 133)%N || (c =? 160)%N
  || (c =? 5760)%N || between 8192 8202 c || (c =? 8232)%N
  || (c =? 8233)%N || (c =? 8239)%N || (c =? 8287)%N || (c =? 12288)%N.

(** The white space of C's [isspace], which [int] and [float] skip. *)
Definition c_isspace (c : char) : bool := between 9 13 c || (c =? 32)%N.

Definition ascii_digit (c : char) : bool := between 48 57 c.

Fixpoint dropwhile (p : char -> bool) (s : str) : str :=
  match s with
  | [] => []
  | c :: s' => if p c then dropwhile p s' else s
  end.

Definition lstrip_by (p : char -> bool) (s : str) : str := dropwhile p s.
Definition rstrip_by (p : char -> bool) (s : str) : str :=
  rev (dropwhile p (rev s)).
Definition strip_by (p : char -> bool) (s : str) : str :=
  rstrip_by p (lstrip_by p s).

(** [s.strip()] *)
Definition strip (s : str) : str := strip_by isspace s.

(** [s.split()]: the maximal runs of code points that are not white
    space. *)
Fixpoint split_ws_go (s : str) (cur : str) : list str :=
  match s with
  | [] => match cur with [] => [] | _ => [rev cur] end
  | c :: s' =>
      if isspace c
      then match cur with
           | [] => split_ws_go s' []
           | _ => rev cur :: split_ws_go s' []
           end
      else split_ws_go s' (c :: cur)
  end.

Definition split_ws (s : str) : list str := split_ws_go s [].

(** ** The values of a JSON document

    What [json.load] returns: [None], a [bool], an [int], a [float], a
    [str], a [list] or a [dict] with string keys, in the order of the
    document.  A float is kept by its value and by the text that [str]
    gives for it. *)

Inductive float_value : Type :=
| Finite (q : Q)
| Infinite (negative : bool)
| NotANumber.

#[warnings="-register-all"]
Inductive json : Type :=
| JNull
| JBool (b : bool)
| JInt (n : Z)
| JFloat (x : float_value) (repr : str)
| JStr (s : str)
| JList (items : list json)
| JDict (members : list (str * json)).

(** What [json.dumps(json.loads(s), indent=2)] does: it returns the
    text, or [json.loads] raises [JSONDecodeError] or another
    [ValueError], or the nesting is deeper than the interpreter
    follows and [RecursionError] is raised. *)
Inductive json_text : Type :=
| Pretty (formatted : str)
| Invalid
| TooDeep.

(** ** The library outside the repository *)

Record pylib := {
  (** [str.isdigit] of a code point above U+00FF *)
  uni_isdigit : char -> bool;
  (** the value of a decimal digit (category Nd) above U+00FF *)
  uni_decimal : char -> option N;
  (** [str.lower] of a string that holds a code point above U+00FF *)
  uni_lower : str -> str;
  (** [re.IGNORECASE]: does the pattern's letter match this code point
      above U+00FF *)
  uni_icase : char -> char -> bool;
  (** [html.unescape] of a string that holds an ampersand *)
  charref_sub : str -> str;
  (** [json.dumps(json.loads(s), indent=2)], taken to do the same for
      a text wherever the program asks for it *)
  json_pretty : str -> json_text;
  (** [str] of a list or of a dictionary of a JSON document *)
  json_repr : json -> str;
  (** [sys.get_int_max_str_digits()]: the longest string of digits that
      [int] reads, 4300 unless it was set, none when it is 0 or the
      interpreter is older than the limit *)
  int_max_str_digits : nat;
  (** [format_timing]: the text for a value that [float] reads, [None]
      when the conversion to minutes and seconds raises [ValueError] *)
  fmt_duration : str -> option str;
  (** [generate_css()], a constant style sheet *)
  css_text : str;
  (** [datetime.now().strftime(...)] *)
  timestamp : str;
}.

Definition latin1 (c : char) : bool := (c <? 256)%N.

(** [str.lower] of one code point below U+0100. *)
Definition lower1 (c : char) : char :=
  if between 65 90 c || between 192 214 c || between 216 222 c
  then (c + 32)%N else c.

Section Library.

Variable L : pylib.

(** [c.isdigit()] *)
Definition isdigit_char (c : char) : bool :=
  if latin1 c
  then ascii_digit c || (c =? 178)%N || (c =? 179)%N || (c =? 185)%N
  else uni_isdigit L c.

(** [s.isdigit()] *)
Definition isdigit (s : str) : bool :=
  match s with
  | [] => false
  | _ => forallb isdigit_char s
  end.

(** The value of a decimal digit, which is also [\d] of [re]. *)
Definition decimal (c : char) : option N :=
  if latin1 c
  then if ascii_digit c then Some (c - 48)%N else None
  else uni_decimal L c.

Definition isdecimal_char (c : char) : bool :=
  match decimal c with Some _ => true | None => false end.

(** [s.lower()] *)
Definition lower (s : str) : str :=
  if forallb latin1 s then map lower1 s else uni_lower L s.

(** A code point [p] of a pattern compiled with [re.IGNORECASE] against
    a code point of the text; the patterns of the program are ASCII, and
    only a letter has case. *)
Definition icase_eq (p c : char) : bool :=
  if between 65 90 p || between 97 122 p
  then if latin1 c then (lower1 c =? lower1 p)%N else uni_icase L p c
  else (c =? p)%N.

End Library.

(* ================================================================== *)
(** * Regular expressions

    The patterns of the program, matched as [re] matches them: by
    backtracking, the first alternative and the longest repetition
    tried first. *)
(* ================================================================== *)

Inductive regex : Type :=
| Eps
| Chr (p : char -> bool)
| Cat (r1 r2 : regex)
| Alt (r1 r2 : regex)
| Star (r : regex)
| Group (i : nat) (r : regex)
| Bol
| Eol.

(** Where a match stands: code points read, code points left, and the
    groups closed so far. *)
Record mstate := {
  m_pos : nat;
  m_rest : str;
  m_groups : list (nat * str);
}.

Definition advance (st : mstate) (rest : str) : mstate :=
  {| m_pos := S (m_pos st); m_rest := rest; m_groups := m_groups st |}.

Definition close_group (i : nat) (st0 st : mstate) : mstate :=
  {| m_pos := m_pos st; m_rest := m_rest st;
     m_groups :=
       (i, firstn (m_pos st - m_pos st0) (m_rest st0)) :: m_groups st |}.

Section Matcher.

Variable A : Type.

(** The repetition of [body], the longest first: [body] is tried, and
    after it the repetition again, as long as [body] reads something;
    what follows the repetition is [k]. *)
Fixpoint star_loop (body : mstate -> (mstate -> option A) -> option A)
  (k : mstate -> option A) (fuel : nat) (st : mstate) : option A :=
  match fuel with
  | O => k st
  | S fuel' =>
      match body st
              (fun st1 =>
                 if m_pos st <? m_pos st1 then star_loop body k fuel' st1
                 else None) with
      | Some x => Some x
      | None => k st
      end
  end.

Fixpoint rmatch (r : regex) (st : mstate) (k : mstate -> option A)
  {struct r} : option A :=
  match r with
  | Eps => k st
  | Chr p =>
      match m_rest st with
      | c :: rest => if p c then k (advance st rest) else None
      | [] => None
      end
  | Cat r1 r2 => rmatch r1 st (fun st1 => rmatch r2 st1 k)
  | Alt r1 r2 =>
      match rmatch r1 st k with
      | Some x => Some x
      | None => rmatch r2 st k
      end
  | Star r1 => star_loop (rmatch r1) k (S (length (m_rest st))) st
  | Group i r1 => rmatch r1 st (fun st1 => k (close_group i st st1))
  | Bol => if m_pos st =? 0 then k st else None
  | Eol =>
      match m_rest st with
      | [] => k st
      | [c] => if (c =? 10)%N then k st else None
      | _ => None
      end
  end.

End Matcher.

Definition start_at (pos : nat) (s : str) : mstate :=
  {| m_pos := pos; m_rest := s; m_groups := [] |}.

(** The match of [r] that begins at [pos], [s] being the text from
    there on. *)
Definition match_at (r : regex) (pos : nat) (s : str) : option mstate :=
  rmatch r (start_at pos s) (fun st => Some st).

(** [re.match(r, s)] *)
Definition re_match (r : regex) (s : str) : option mstate := match_at r 0 s.

(** A match object is true, [None] is false. *)
Definition matched {A : Type} (m : option A) : bool :=
  match m with Some _ => true | None => false end.

(** [m.group(i)], [None] for a group that took no part in the match. *)
Fixpoint group (i : nat) (gs : list (nat * str)) : option str :=
  match gs with
  | [] => None
  | (j, g) :: gs' => if i =? j then Some g else group i gs'
  end.

(** [re.search(r, s)]: the start and the state of the leftmost match. *)
Fixpoint search_from (r : regex) (pos : nat) (s : str)
  : option (nat * mstate) :=
  match match_at r pos s with
  | Some st => Some (pos, st)
  | None =>
      match s with
      | [] => None
      | _ :: s' => search_from r (S pos) s'
      end
  end.

Definition re_search (r : regex) (s : str) : option (nat * mstate) :=
  search_from r 0 s.

(** [re.sub(r, repl, s)].  After a match the scan goes on where the
    match ended; an empty match is replaced and the code point after it
    kept. *)
Fixpoint sub_loop (r : regex) (repl : mstate -> str) (fuel pos : nat)
  (s : str) : str :=
  match fuel with
  | O => s
  | S fuel' =>
      let keep :=
        match s with
        | [] => []
        | c :: s' => c :: sub_loop r repl fuel' (S pos) s'
        end in
      match match_at r pos s with
      | Some st =>
          if pos <? m_pos st
          then repl st ++ sub_loop r repl fuel' (m_pos st) (m_rest st)
          else repl st ++ keep
      | None => keep
      end
  end.

Definition re_sub_with (r : regex) (repl : mstate -> str) (s : str) : str :=
  sub_loop r repl (S (length s)) 0 s.

Definition re_sub (r : regex) (repl : str) (s : str) : str :=
  re_sub_with r (fun _ => repl) s.

(** [re.split(r, s)] for a pattern without groups. *)
Fixpoint split_loop (r : regex) (fuel pos : nat) (s : str) (cur : str)
  : list str :=
  match fuel with
  | O => [rev cur ++ s]
  | S fuel' =>
      let keep :=
        match s with
        | [] => [rev cur]
        | c :: s' => split_loop r fuel' (S pos) s' (c :: cur)
        end in
      match match_at r pos s with
      | Some st =>
          if pos <? m_pos st
          then rev cur :: split_loop r fuel' (m_pos st) (m_rest st) []
          else keep
      | None => keep
      end
  end.

Definition re_split (r : regex) (s : str) : list str :=
  split_loop r (S (length s)) 0 s [].

(** ** Building patterns *)

Definition Plus (r : regex) : regex := Cat r (Star r).
Definition Opt (r : regex) : regex := Alt r Eps.

Fixpoint Seq (rs : list regex) : regex :=
  match rs with
  | [] => Eps
  | [r] => r
  | r :: rs' => Cat r (Seq rs')
  end.

(** [r{n}] *)
Fixpoint Times (n : nat) (r : regex) : regex :=
  match n with
  | O => Eps
  | S n' => Cat r (Times n' r)
  end.

(** [r{0,n}] *)
Fixpoint UpTo (n : nat) (r : regex) : regex :=
  match n with
  | O => Eps
  | S n' => Opt (Cat r (UpTo n' r))
  end.

(** [r{m,n}] *)
Definition Range (m n : nat) (r : regex) : regex :=
  Cat (Times m r) (UpTo (n - m) r).

Definition is_char (x : char) : char -> bool := fun c => (c =? x)%N.
Definition not_char (x : char) : char -> bool := fun c => negb (c =? x)%N.

(** One code point of a literal. *)
Definition C (x : string) : regex :=
  match py x with
  | [c] => Chr (is_char c)
  | _ => Eps
  end.

(** A literal text. *)
Definition Lit (x : string) : regex := Seq (map (fun c => Chr (is_char c)) (py x)).

(** [[^x]] *)
Definition Not (x : string) : regex :=
  match py x with
  | [c] => Chr (not_char c)
  | _ => Eps
  end.

(** [\s] and [.] *)
Definition Ws : regex := Chr isspace.
Definition Dot : regex := Chr (not_char 10%N).

Section LibraryPatterns.

Variable L : pylib.

(** [\d] *)
Definition Dig : regex := Chr (isdecimal_char L).

(** A literal text under [re.IGNORECASE]. *)
Definition ILit (x : string) : regex :=
  Seq (map (fun c => Chr (icase_eq L c)) (py x)).

End LibraryPatterns.

(* ================================================================== *)
(** * Exceptions *)
(* ================================================================== *)

Inductive exn : Type :=
| ValueError
| KeyError
| IndexError
| AttributeError
| JSONDecodeError
| FileNotFoundError
| TypeError
| RecursionError.

Inductive result (A : Type) : Type :=
| Ok (a : A)
| Raise (e : exn).

Arguments Ok {A} a.
Arguments Raise {A} e.

Definition bind {A B : Type} (m : result A) (f : A -> result B) : result B :=
  match m with
  | Ok a => f a
  | Raise e => Raise e
  end.

Declare Scope result_scope.
Delimit Scope result_scope with result.
Notation "x <- m ;; k" := (bind m (fun x => k))
  (at level 61, m at next level, right associativity) : result_scope.
Local Open Scope result_scope.

(** A loop whose body can raise: the first exception ends it. *)
Fixpoint mapM {A B : Type} (f : A -> result B) (l : list A)
  : result (list B) :=
  match l with
  | [] => Ok []
  | a :: l' => b <- f a ;; bs <- mapM f l' ;; Ok (b :: bs)
  end.

Fixpoint foldM {A S : Type} (f : S -> A -> result S) (l : list A) (s : S)
  : result S :=
  match l with
  | [] => Ok s
  | a :: l' => s' <- f s a ;; foldM f l' s'
  end.

(* ================================================================== *)
(** * Numbers read from strings *)
(* ================================================================== *)

Section Numbers.

Variable L : pylib.

(** What [int] and [float] do to a string before they read it: outside
    ASCII, white space becomes a blank, a decimal digit its ASCII digit,
    anything else a question mark. *)
Definition to_ascii_number (s : str) : str :=
  if forallb (fun c => (c <? 128)%N) s then s
  else map (fun c =>
              if (c <? 127)%N then c
              else if isspace c then 32%N
              else match decimal L c with
                   | Some d => (48 + d)%N
                   | None => 63%N
                   end) s.

(** Digits, single underscores between them allowed; [acc] is the value
    read so far. *)
Fixpoint digits_us (s : str) (acc : N) : N * str :=
  match s with
  | [] => (acc, [])
  | c :: s' =>
      if ascii_digit c then digits_us s' (10 * acc + (c - 48))%N
      else if (c =? 95)%N then
        match s' with
        | d :: s'' =>
            if ascii_digit d then digits_us s'' (10 * acc + (d - 48))%N
            else (acc, s)
        | [] => (acc, s)
        end
      else (acc, s)
  end.

(** Does [int] read a number of this many digits: it refuses more than
    [sys.get_int_max_str_digits()] of them, unless the limit is 0; up to
    640 digits are read whatever the limit. *)
Definition int_digits_ok (digits : nat) : bool :=
  negb ((640 <? digits) && (0 <? int_max_str_digits L)
        && (int_max_str_digits L <? digits)).

(** [int(s)], [None] for [ValueError].  The digits counted against the
    limit are those of the number, leading zeros among them; the sign,
    the underscores and the white space around are not. *)
Definition py_int (s : str) : option Z :=
  let t := dropwhile c_isspace (to_ascii_number s) in
  let '(neg, t1) :=
    match t with
    | c :: r => if (c =? 45)%N then (true, r)
                else if (c =? 43)%N then (false, r) else (false, t)
    | [] => (false, t)
    end in
  match t1 with
  | d :: r =>
      if ascii_digit d then
        let '(n, rest) := digits_us r (d - 48)%N in
        if forallb c_isspace rest
           && int_digits_ok (length (filter ascii_digit t1))
        then Some (if neg then (- Z.of_N n)%Z else Z.of_N n)
        else None
      else None
  | [] => None
  end.

Fixpoint span_digits (s : str) : nat * str :=
  match s with
  | c :: s' =>
      if ascii_digit c
      then let '(n, r) := span_digits s' in (S n, r)
      else (0, s)
  | [] => (0, [])
  end.

Definition drop_sign (s : str) : str :=
  match s with
  | c :: r => if (c =? 45)%N || (c =? 43)%N then r else s
  | [] => s
  end.

(** The text of a float: digits with an optional point and exponent,
    or one of [inf], [infinity], [nan]. *)
Definition float_text (s : str) : bool :=
  let u := drop_sign s in
  if str_in (map lower1 u) [py "inf"; py "infinity"; py "nan"] then true
  else
    let '(n1, r1) := span_digits u in
    let '(n2, r2) :=
      match r1 with
      | c :: r => if (c =? 46)%N then span_digits r else (0, r1)
      | [] => (0, r1)
      end in
    if n1 + n2 =? 0 then false
    else
      let r3 :=
        match r2 with
        | c :: r =>
            if (c =? 101)%N || (c =? 69)%N then
              let '(n3, r') := span_digits (drop_sign r) in
              if n3 =? 0 then r2 else r'
            else r2
        | [] => r2
        end in
      match r3 with [] => true | _ => false end.

(** Every underscore stands between two digits. *)
Fixpoint underscores_ok (prev : option char) (s : str) : bool :=
  match s with
  | [] => match prev with
          | Some p => negb (p =? 95)%N
          | None => true
          end
  | c :: s' =>
      (if (c =? 95)%N
       then match prev with Some p => ascii_digit p | None => false end
       else match prev with
            | Some p => if (p =? 95)%N then ascii_digit c else true
            | None => true
            end)
      && underscores_ok (Some c) s'
  end.

(** Does [float(s)] return (rather than raise [ValueError]). *)
Definition float_ok (s : str) : bool :=
  let u := strip_by c_isspace (to_ascii_number s) in
  underscores_ok None u && float_text (filter (not_char 95) u).

End Numbers.

(* ================================================================== *)
(** * Constants *)
(* ================================================================== *)

Definition LONG_TEXT_THRESHOLD : nat := 200.
Definition NUMERIC_CODE_MAX : Z := 20.
Definition NUMERIC_CODE_RANGE_MIN : Z := 100.
Definition NUMERIC_CODE_RANGE_MAX : Z := 300.
Definition MULTI_VALUE_AVG_LENGTH_MAX : Q := 40 # 1.
Definition SHORT_VALUE_MAX_LENGTH : nat := 30.
Definition MAX_CATEGORICAL_UNIQUE_RATIO : Q := 1 # 2.

Definition TIMING_SUFFIXES : list str :=
  map py ["_Page Submit"; "_First Click"; "_Last Click"; "_Click Count";
          "_PageSubmit"; "_FirstClick"; "_LastClick"; "_ClickCount"].

Definition METADATA_COLUMNS : list str :=
  map py ["StartDate"; "EndDate"; "Status"; "IPAddress"; "Progress";
          "Duration (in seconds)"; "Finished"; "RecordedDate"; "ResponseId";
          "RecipientLastName"; "RecipientFirstName"; "RecipientEmail";
          "ExternalReference"; "LocationLatitude"; "LocationLongitude";
          "DistributionChannel"; "UserLanguage"; "Browser"; "Version";
          "Operating System"; "Resolution"; "DeviceType"; "Q_TotalDuration";
          "Q_URL"; "Q_BallotBoxStuffing"; "Q_RelevantIDDuplicate"].

Definition NUMERIC_QUESTION_KEYWORDS : list str :=
  map py ["number"; "count"; "total"; "how many"; "percent"; "%";
          "year"; "age"; "score"; "gpa"; "mcat"; "credits"; "hours";
          "fee"; "tuition"; "salary"; "amount"; "$"; "usd"; "dollar";
          "phone"; "zip"; "code"; "id"; "size"; "rate"; "ratio";
          "enrollment"; "residents"; "men"; "women"; "graduates";
          "indebtedness"; "funds"; "faculty"; "research"; "nih";
          "rank"; "rating"; "scale"; "slider"; "nps"; "score"].

Definition FILE_EXTENSIONS : list str :=
  map py [".pdf"; ".doc"; ".docx"; ".xls"; ".xlsx"; ".jpg"; ".jpeg";
          ".png"; ".gif"; ".mp3"; ".mp4"; ".zip"; ".csv"; ".txt"].

Section Patterns.

Variable L : pylib.

Let d := Dig L.
Let I := ILit L.

(** [BOILERPLATE_PATTERNS], each compiled with [re.IGNORECASE]. *)
Definition BOILERPLATE_PATTERNS : list regex := [
  (* \s*See Email Titled\s*Q[^Q]*Q[^.]*\.?\s*  with Q the double quote *)
  Seq [Star Ws; I "See Email Titled"; Star Ws; Chr (is_char 34);
       Star (Chr (not_char 34)); Chr (is_char 34); Star (Not ".");
       Opt (C "."); Star Ws];
  (* \s*See Email Titled[^.]*\.?\s* *)
  Seq [Star Ws; I "See Email Titled"; Star (Not "."); Opt (C "."); Star Ws];
  (* \s*This data is rolled over from last year\.?\s* *)
  Seq [Star Ws; I "This data is rolled over from last year"; Opt (C ".");
       Star Ws];
  (* \s*This question is used in the Rankings calculation\.?\s* *)
  Seq [Star Ws; I "This question is used in the Rankings calculation";
       Opt (C "."); Star Ws];
  (* \s*RESPONSE NEEDED\s* *)
  Seq [Star Ws; I "RESPONSE NEEDED"; Star Ws];
  (* \s*ACTION NEEDED\s* *)
  Seq [Star Ws; I "ACTION NEEDED"; Star Ws];
  (* \s*DUE \d{1,2}/\d{1,2}[^.]*\.?\s* *)
  Seq [Star Ws; I "DUE "; Range 1 2 d; C "/"; Range 1 2 d; Star (Not ".");
       Opt (C "."); Star Ws];
  (* \s*for PDF of Results from Last Year\.?\s* *)
  Seq [Star Ws; I "for PDF of Results from Last Year"; Opt (C "."); Star Ws];
  (* \s*-\s*U\.S\. News Best Medical Schools Survey\s* *)
  Seq [Star Ws; C "-"; Star Ws; I "U.S. News Best Medical Schools Survey";
       Star Ws];
  (* \s*U\.S\. News Best Medical Schools Survey\s* *)
  Seq [Star Ws; I "U.S. News Best Medical Schools Survey"; Star Ws];
  (* \s*Click to write the question text\s* *)
  Seq [Star Ws; I "Click to write the question text"; Star Ws];
  (* \s*Please answer the following\.?\s* *)
  Seq [Star Ws; I "Please answer the following"; Opt (C "."); Star Ws]
].

(** A number of a coordinate: [\d+\.?\d*] *)
Definition num : regex := Seq [Plus d; Opt (C "."); Star d].

(** The patterns of [is_coordinate], compiled with [re.IGNORECASE]. *)
Definition COORDINATE_PATTERNS : list regex := [
  (* ^\d+\.?\d*\s*,\s*\d+\.?\d*$ *)
  Seq [Bol; num; Star Ws; C ","; Star Ws; num; Eol];
  (* ^\(\d+\.?\d*\s*,\s*\d+\.?\d*\)$ *)
  Seq [Bol; C "("; num; Star Ws; C ","; Star Ws; num; C ")"; Eol];
  (* ^\d+\.?\d*\s*:\s*\d+\.?\d*$ *)
  Seq [Bol; num; Star Ws; C ":"; Star Ws; num; Eol];
  (* ^x:\s*\d+\.?\d*\s*,?\s*y:\s*\d+\.?\d*$ *)
  Seq [Bol; I "x:"; Star Ws; num; Star Ws; Opt (C ","); Star Ws; I "y:";
       Star Ws; num; Eol]
].

(** [^\d{1,2}[/\-]\d{1,2}[/\-]\d{2,4}$] *)
Definition slash_or_dash : regex :=
  Chr (fun c => (c =? 47)%N || (c =? 45)%N).

Definition DATE_PATTERN : regex :=
  Seq [Bol; Range 1 2 d; slash_or_dash; Range 1 2 d; slash_or_dash;
       Range 2 4 d; Eol].

(** [<[^>]+>] *)
Definition TAG_PATTERN : regex := Seq [C "<"; Plus (Not ">"); C ">"].

End Patterns.

(* ================================================================== *)
(** * Utility functions *)
(* ================================================================== *)

(** A cell of the export: a string, or [None] for NaN and for a column
    the row does not have. *)
Definition value := option str.

(** The truth of a string or a list: it is not empty. *)
Definition nonempty (A : Type) (l : list A) : bool :=
  match l with [] => false | _ => true end.

Definition ratio (a b : nat) : Q := Z.of_nat a # Pos.of_nat b.
Definition Qlt_bool (x y : Q) : bool := negb (Qle_bool y x).

(** The first occurrence of each element: what [set(...)] and [len] of
    it, [sorted] of it and membership in it need. *)
Fixpoint distinct (l : list str) : list str :=
  match l with
  | [] => []
  | x :: l' => x :: filter (fun y => negb (str_eqb x y)) (distinct l')
  end.

Definition safe_str (v : value) : str :=
  match v with
  | None => []
  | Some s => strip s
  end.

(** [html.escape] *)
Definition escape (s : str) : str :=
  flat_map (fun c =>
              if (c =? 38)%N then py "&amp;"
              else if (c =? 60)%N then py "&lt;"
              else if (c =? 62)%N then py "&gt;"
              else if (c =? 34)%N then py "&quot;"
              else if (c =? 39)%N then py "&#x27;"
              else [c]) s.

Definition safe_html (v : value) : str := escape (safe_str v).

Definition is_empty (v : value) : bool :=
  match v with
  | None => true
  | Some _ => str_eqb (safe_str v) []
  end.

Section Classifier.

Variable L : pylib.

Definition contains_any (text : str) (keywords : list str) : bool :=
  let text_lower := lower L text in
  existsb (fun kw => contains text_lower kw) keywords.

(** The key of a row: [(0, int(key), '')] or [(1, 0, key.lower())]. *)
Definition sort_row_key (key : str) : result (N * Z * str) :=
  if isdigit L key then
    match py_int L key with
    | Some n => Ok (0%N, n, [])
    | None => Raise ValueError
    end
  else Ok (1%N, 0%Z, lower L key).

Definition key_ltb (a b : N * Z * str) : bool :=
  let '(a1, a2, a3) := a in
  let '(b1, b2, b3) := b in
  if (a1 <? b1)%N then true
  else if (b1 <? a1)%N then false
  else if (a2 <? b2)%Z then true
  else if (b2 <? a2)%Z then false
  else str_ltb a3 b3.

Definition is_numeric_value (v : value) : bool :=
  let val := safe_str v in
  if negb (nonempty val) then false
  else
    let cleaned :=
      strip (replace (replace (replace val (py ",") []) (py "$") [])
               (py "%") []) in
    float_ok L cleaned.

(** The ratios are those of the source, taken exactly; the floats of the
    source compare the same way for any list that fits in memory. *)
Definition values_are_numeric_data (values : list str) : bool :=
  if negb (0 <? length values) then false
  else
    let non_empty := filter (fun v => nonempty (safe_str (Some v))) values in
    if negb (0 <? length non_empty) then false
    else
      let numeric_count :=
        length (filter (fun v => is_numeric_value (Some v)) non_empty) in
      let numeric_ratio := ratio numeric_count (length non_empty) in
      if Qle_bool (7 # 10) numeric_ratio then true
      else
        let unique_values :=
          distinct (map (fun v => safe_str (Some v)) non_empty) in
        if (5 <? length unique_values) && Qle_bool (1 # 2) numeric_ratio
        then true
        else false.

Definition is_data_pattern (val : str) : bool :=
  if contains val (py "@") && contains val (py ".") then true
  else if matched (re_match (DATE_PATTERN L) val) then true
  else (2 <=? length (split_ws val)) && (10 <? length val).

Definition values_are_unique_data (values : list str) : bool :=
  if negb (0 <? length values) then false
  else
    let non_empty :=
      map (fun v => safe_str (Some v))
        (filter (fun v => nonempty (safe_str (Some v))) values) in
    if negb (0 <? length non_empty) then false
    else
      let unique_values := distinct non_empty in
      let unique_ratio := ratio (length unique_values) (length non_empty) in
      if Qlt_bool MAX_CATEGORICAL_UNIQUE_RATIO unique_ratio then true
      else if (5 <? length unique_values)
              && (3 <? length (nodup Nat.eq_dec
                                 (map (@length char) unique_values)))
      then true
      else
        let data_pattern_count :=
          length (filter is_data_pattern non_empty) in
        (0 <? data_pattern_count)
        && Qle_bool (inject_Z (Z.of_nat (length non_empty)) * (3 # 10))
             (inject_Z (Z.of_nat data_pattern_count)).

(* ================================================================== *)
(** * Value type detection *)
(* ================================================================== *)

Definition all_short_codes (parts : list str) : bool :=
  forallb (fun p => isdigit L (strip p) && (length (strip p) <=? 3)) parts.

Definition is_numeric_code (v : value) (question_text : str) : result bool :=
  let val := safe_str v in
  if negb (nonempty val) then Ok false
  else if contains_any question_text NUMERIC_QUESTION_KEYWORDS then Ok false
  else if contains val (py ",") && all_short_codes (split val (py ","))
  then Ok true
  else if isdigit L val then
    match py_int L val with
    | None => Raise ValueError
    | Some num =>
        if ((1 <=? num) && (num <=? NUMERIC_CODE_MAX))%Z then Ok true
        else if ((NUMERIC_CODE_RANGE_MIN <=? num)
                 && (num <=? NUMERIC_CODE_RANGE_MAX)
                 && negb (num mod 100 =? 0))%Z then Ok true
        else Ok false
    end
  else Ok false.

Definition is_url (v : value) : bool :=
  let val := lower L (safe_str v) in
  existsb (fun p => startswith val p)
    (map py ["http://"; "https://"; "www."; "ftp://"]).

Definition is_file_path (v : value) : bool :=
  let val := lower L (safe_str v) in
  existsb (fun ext => endswith val ext) FILE_EXTENSIONS.

Definition is_coordinate (v : value) : bool :=
  let val := safe_str v in
  existsb (fun p => matched (re_match p val)) (COORDINATE_PATTERNS L).

Definition is_timing_column (column_id : str) : bool :=
  existsb (fun suffix => contains column_id suffix) TIMING_SUFFIXES.

Definition is_json (v : value) : bool :=
  let val := safe_str v in
  (startswith val (py "{") && endswith val (py "}"))
  || (startswith val (py "[") && endswith val (py "]")).

Definition is_hierarchical (v : value) : bool :=
  let val := safe_str v in
  contains val (py " > ") || contains val (py " >> ")
  || contains val (py " ‚Üí ").

Definition is_multi_value (v : value) (separator : str) : bool :=
  let val := safe_str v in
  if negb (contains val separator) then false
  else
    let parts := split val separator in
    if all_short_codes parts then false
    else if is_coordinate v then false
    else
      let text_parts :=
        map strip (filter (fun p => 2 <? length (strip p)) parts) in
      if length text_parts <? 2 then false
      else
        let total := fold_right (fun p n => length p + n) 0 text_parts in
        let avg_length := ratio total (length text_parts) in
        if Qlt_bool MULTI_VALUE_AVG_LENGTH_MAX avg_length then false
        else true.

Definition is_long_text (v : value) : bool :=
  LONG_TEXT_THRESHOLD <? length (safe_str v).

Inductive value_type : Type :=
| t_empty | t_timing | t_url | t_file | t_coordinate | t_json
| t_hierarchical | t_pipe_list | t_semicolon_list | t_comma_list
| t_long_text | t_code | t_text.

Definition detect_value_type (v : value) (question_text column_id : str)
  : result value_type :=
  if is_empty v then Ok t_empty
  else if is_timing_column column_id then Ok t_timing
  else if is_url v then Ok (if is_file_path v then t_file else t_url)
  else if is_file_path v then Ok t_file
  else if is_coordinate v then Ok t_coordinate
  else if is_json v then Ok t_json
  else if is_hierarchical v then Ok t_hierarchical
  else if is_multi_value v (py "|") then Ok t_pipe_list
  else if is_multi_value v (py ";") then Ok t_semicolon_list
  else if is_multi_value v (py ",") then Ok t_comma_list
  else if is_long_text v then Ok t_long_text
  else
    code <- is_numeric_code v question_text ;;
    Ok (if code then t_code else t_text).

End Classifier.

(* ================================================================== *)
(** * Value formatters *)
(* ================================================================== *)

Definition html := str.

Definition format_empty : html :=
  py "<span class='no-response'>No response</span>".

Definition format_text (v : value) : html :=
  replace (safe_html v) newline (py "<br>").

Definition format_code (v : value) : html :=
  let val := safe_str v in
  if contains val (py ",") then
    let codes := map strip (split val (py ",")) in
    py "<span class='code-value'>[Selections: " ++ join (py ", ") codes
    ++ py "]</span>"
  else py "<span class='code-value'>[Code: " ++ val ++ py "]</span>".

Definition format_url (v : value) : html :=
  let val := safe_str v in
  let href :=
    if startswith val (py "http://") || startswith val (py "https://")
    then val else py "https://" ++ val in
  py "<a href='" ++ safe_html (Some href)
  ++ py "' target='_blank' class='url-link'>" ++ safe_html (Some val)
  ++ py "</a>".

Section Formatters.

Variable L : pylib.

Definition format_file (v : value) : html :=
  let val := safe_str v in
  if is_url L (Some val) then
    let filename := last (split val (py "/")) [] in
    py "<span class='file-upload'>üìé <a href='" ++ safe_html (Some val)
    ++ py "' target='_blank'>" ++ safe_html (Some filename)
    ++ py "</a></span>"
  else py "<span class='file-upload'>üìé " ++ safe_html (Some val)
       ++ py "</span>".

(** Two numbers with a comma or a colon between them, each a group;
    the pattern of [format_coordinate]. *)
Definition COORDINATE_PAIR : regex :=
  Seq [Group 1 (num L); Star Ws;
       Chr (fun c => (c =? 44)%N || (c =? 58)%N); Star Ws;
       Group 2 (num L)].

Definition group_or_empty (i : nat) (st : mstate) : str :=
  match group i (m_groups st) with Some g => g | None => [] end.

Definition format_coordinate (v : value) : html :=
  let val := safe_str v in
  match re_search COORDINATE_PAIR val with
  | Some (_, st) =>
      py "<span class='coordinate'>üìç X: " ++ group_or_empty 1 st
      ++ py ", Y: " ++ group_or_empty 2 st ++ py "</span>"
  | None =>
      py "<span class='coordinate'>üìç " ++ safe_html (Some val)
      ++ py "</span>"
  end.

Definition format_timing (v : value) (column_id : str) : html :=
  let val := safe_str v in
  let has x := contains column_id (py x) in
  let timed (label : str) : html :=
    match (if float_ok L val then fmt_duration L val else None) with
    | Some text =>
        py "<span class='timing'>‚è±Ô∏è " ++ label ++ py ": " ++ text
        ++ py "</span>"
    | None =>
        py "<span class='timing'>‚è±Ô∏è " ++ label ++ py ": "
        ++ safe_html (Some val) ++ py "</span>"
    end in
  if has "Page Submit" || has "PageSubmit" then timed (py "Page time")
  else if has "First Click" || has "FirstClick" then timed (py "First click")
  else if has "Last Click" || has "LastClick" then timed (py "Last click")
  else if has "Click Count" || has "ClickCount" then
    py "<span class='timing'>üñ±Ô∏è Clicks: " ++ safe_html (Some val)
    ++ py "</span>"
  else timed (py "Time").

(** The [try] of [format_json] catches [JSONDecodeError] and
    [ValueError]; a [RecursionError] of the library leaves it. *)
Definition format_json (v : value) : result html :=
  match json_pretty L (safe_str v) with
  | Pretty formatted =>
      Ok (py "<pre class='json-data'>" ++ safe_html (Some formatted)
          ++ py "</pre>")
  | Invalid =>
      Ok (py "<pre class='json-data'>" ++ safe_html v ++ py "</pre>")
  | TooDeep => Raise RecursionError
  end.

Definition format_hierarchical (v : value) : html :=
  let val := safe_str v in
  let parts :=
    match find (fun sep => contains val sep)
            (map py [" >> "; " ‚Üí "; " > "]) with
    | Some sep => split val sep
    | None => [val]
    end in
  let level (part : str) : html :=
    py "<span class='drill-level'>" ++ safe_html (Some (strip part))
    ++ py "</span>" in
  py "<div class='drill-down'>"
  ++ match parts with
     | [] => []
     | p :: rest =>
         level p
         ++ concat (map (fun q =>
                           py "<span class='drill-arrow'>‚Ä∫</span>"
                           ++ level q) rest)
     end
  ++ py "</div>".

Definition format_list (v : value) (separator : str) : html :=
  let parts :=
    map strip (filter (fun p => nonempty (strip p))
                 (split (safe_str v) separator)) in
  match parts with
  | [] => format_empty
  | _ =>
      py "<ul class='vertical-list'>"
      ++ concat (map (fun part =>
                        py "<li>" ++ safe_html (Some part) ++ py "</li>")
                   parts)
      ++ py "</ul>"
  end.

Definition format_long_text (v : value) : html :=
  let val := safe_str v in
  let paragraphs :=
    map strip (filter (fun p => nonempty (strip p)) (split val newline)) in
  if 1 <? length paragraphs then
    py "<div class='long-text'>"
    ++ concat (map (fun p => py "<p>" ++ safe_html (Some p) ++ py "</p>")
                 paragraphs)
    ++ py "</div>"
  else py "<div class='long-text'>" ++ safe_html (Some val) ++ py "</div>".

Definition format_as (t : value_type) (v : value) (column_id : str)
  : result html :=
  match t with
  | t_empty => Ok format_empty
  | t_code => Ok (format_code v)
  | t_url => Ok (format_url v)
  | t_file => Ok (format_file v)
  | t_coordinate => Ok (format_coordinate v)
  | t_timing => Ok (format_timing v column_id)
  | t_json => format_json v
  | t_hierarchical => Ok (format_hierarchical v)
  | t_pipe_list => Ok (format_list v (py "|"))
  | t_semicolon_list => Ok (format_list v (py ";"))
  | t_comma_list => Ok (format_list v (py ","))
  | t_long_text => Ok (format_long_text v)
  | t_text => Ok (format_text v)
  end.

Definition format_value (v : value) (question_text column_id : str)
  : result html :=
  value_type <- detect_value_type L v question_text column_id ;;
  format_as value_type v column_id.

End Formatters.

(* ================================================================== *)
(** * Dictionaries

    A [dict] keeps its keys in the order they were first set. *)
(* ================================================================== *)

Definition dict (V : Type) := list (str * V).

Fixpoint dict_get {V : Type} (d : dict V) (k : str) : option V :=
  match d with
  | [] => None
  | (k', v) :: d' => if str_eqb k k' then Some v else dict_get d' k
  end.

Definition dict_mem {V : Type} (d : dict V) (k : str) : bool :=
  matched (dict_get d k).

(** [d[k] = v] *)
Fixpoint dict_set {V : Type} (d : dict V) (k : str) (v : V) : dict V :=
  match d with
  | [] => [(k, v)]
  | (k', v') :: d' =>
      if str_eqb k k' then (k', v) :: d' else (k', v') :: dict_set d' k v
  end.

Definition keys {V : Type} (d : dict V) : list str := map fst d.
Definition values {V : Type} (d : dict V) : list V := map snd d.

(** [str(n)] *)
Definition str_of_nat (n : nat) : str :=
  py (NilZero.string_of_uint (Nat.to_uint n)).

(* ================================================================== *)
(** * Question text processing *)
(* ================================================================== *)

Section Text.

Variable L : pylib.

(** [html.unescape] *)
Definition unescape (s : str) : str :=
  if contains s (py "&") then charref_sub L s else s.

Definition remove_boilerplate (text : str) : str :=
  fold_left (fun t pattern => re_sub pattern (py " ") t)
    (BOILERPLATE_PATTERNS L) text.

Definition clean_html_text (text : str) : str :=
  if negb (nonempty text) then []
  else
    let text := unescape text in
    let text := re_sub TAG_PATTERN (py " ") text in
    let text := remove_boilerplate text in
    strip (re_sub (Plus Ws) (py " ") text).

Definition Nl : regex := Chr (is_char 10).

Definition clean_question_text (text : value) : str :=
  match text with
  | None => []
  | Some text =>
      let text := remove_boilerplate text in
      (* ^\s*-\s* *)
      let text := re_sub (Seq [Bol; Star Ws; C "-"; Star Ws]) [] text in
      (* \s*-\s*$ *)
      let text := re_sub (Seq [Star Ws; C "-"; Star Ws; Eol]) [] text in
      (* \s*-\s*-\s* *)
      let text :=
        re_sub (Seq [Star Ws; C "-"; Star Ws; C "-"; Star Ws]) (py " ")
          text in
      (* \n{2,} *)
      let text := re_sub (Seq [Nl; Nl; Star Nl]) (py " ") text in
      (* \t+ *)
      let text := re_sub (Plus (Chr (is_char 9))) (py " ") text in
      strip (join (py " ") (split_ws text))
  end.

(** The year range pattern, two groups of four digits with a dash
    between them, and its replacement [\1__DATERANGE__\2]. *)
Definition DATE_RANGE : regex :=
  Seq [Group 1 (Times 4 (Dig L)); Star Ws; C "-"; Star Ws;
       Group 2 (Times 4 (Dig L))].

Definition extract_matrix_labels (text : value)
  : str * option str * option str :=
  match text with
  | None => ([], None, None)
  | Some _ =>
      let cleaned := clean_question_text text in
      let protected :=
        re_sub_with DATE_RANGE
          (fun st => group_or_empty 1 st ++ py "__DATERANGE__"
                     ++ group_or_empty 2 st) cleaned in
      (* \s+-\s+ *)
      let parts := re_split (Seq [Plus Ws; C "-"; Plus Ws]) protected in
      let parts :=
        map (fun p => replace p (py "__DATERANGE__") (py " - ")) parts in
      let n := length parts in
      if 3 <=? n then
        (join (py " - ") (firstn (n - 2) parts),
         Some (nth (n - 2) parts []), Some (nth (n - 1) parts []))
      else if n =? 2 then
        (nth 0 parts [], Some (nth 1 parts []), None)
      else (cleaned, None, None)
  end.

End Text.

(* ================================================================== *)
(** * The data model *)
(* ================================================================== *)

(** One question of [parse_qsf]'s result.  The identifier, the export
    tag, the type, the selectors and the recode values are kept as the
    document has them, whatever their type. *)
Record qsf_question := {
  qsf_qid : json;
  qsf_export_tag : json;
  qsf_text : str;
  qsf_type : json;
  qsf_selector : json;
  qsf_subselector : json;
  qsf_internal_type : str;
  qsf_choices : dict str;
  qsf_choice_order : list str;
  qsf_answers : dict str;
  qsf_answer_order : list str;
  qsf_recode_values : json;
}.

(** [qsf_metadata.get(base_q, {})]: [None] is the empty dictionary. *)
Definition qsf_info := option qsf_question.

Definition info_get {A : Type} (f : qsf_question -> A) (default : A)
  (i : qsf_info) : A :=
  match i with Some q => f q | None => default end.

Record cell := {
  cell_id : str;
  cell_col_label : str;
}.

(** A row of a question is either [{'id', 'label'}] or
    [{'label', 'cells'}]. *)
Inductive row_info : Type :=
| RowItem (id label : str)
| RowCells (label : str) (cells : dict cell).

Definition row_label (r : row_info) : str :=
  match r with RowItem _ l => l | RowCells l _ => l end.

(** [row_info.get('id', '')] *)
Definition row_id (r : row_info) : str :=
  match r with RowItem i _ => i | RowCells _ _ => [] end.

(** ['cells' in row_info] *)
Definition has_cells_key (r : row_info) : bool :=
  match r with RowItem _ _ => false | RowCells _ _ => true end.

Definition set_row_label (r : row_info) (l : str) : row_info :=
  match r with
  | RowItem i _ => RowItem i l
  | RowCells _ cs => RowCells l cs
  end.

Inductive shape : Type := single | matrix | grouped | choice | form.

Definition shape_name (s : shape) : str :=
  match s with
  | single => py "single"
  | matrix => py "matrix"
  | grouped => py "grouped"
  | choice => py "choice"
  | form => py "form"
  end.

Record question := {
  q_id : str;
  q_text : str;
  q_type : shape;
  q_internal_type : str;
  q_qsf_type : json;
  q_selector : json;
  q_columns : list str;
  q_rows : dict row_info;
  q_col_headers : dict str;
  q_col_order : list str;
  q_qsf_info : qsf_info;
}.

Definition set_type (q : question) (t : shape) : question :=
  {| q_id := q_id q; q_text := q_text q; q_type := t;
     q_internal_type := q_internal_type q; q_qsf_type := q_qsf_type q;
     q_selector := q_selector q; q_columns := q_columns q;
     q_rows := q_rows q; q_col_headers := q_col_headers q;
     q_col_order := q_col_order q; q_qsf_info := q_qsf_info q |}.

Definition set_text (q : question) (t : str) : question :=
  {| q_id := q_id q; q_text := t; q_type := q_type q;
     q_internal_type := q_internal_type q; q_qsf_type := q_qsf_type q;
     q_selector := q_selector q; q_columns := q_columns q;
     q_rows := q_rows q; q_col_headers := q_col_headers q;
     q_col_order := q_col_order q; q_qsf_info := q_qsf_info q |}.

Definition set_columns (q : question) (cs : list str) : question :=
  {| q_id := q_id q; q_text := q_text q; q_type := q_type q;
     q_internal_type := q_internal_type q; q_qsf_type := q_qsf_type q;
     q_selector := q_selector q; q_columns := cs;
     q_rows := q_rows q; q_col_headers := q_col_headers q;
     q_col_order := q_col_order q; q_qsf_info := q_qsf_info q |}.

Definition set_rows (q : question) (rs : dict row_info) : question :=
  {| q_id := q_id q; q_text := q_text q; q_type := q_type q;
     q_internal_type := q_internal_type q; q_qsf_type := q_qsf_type q;
     q_selector := q_selector q; q_columns := q_columns q;
     q_rows := rs; q_col_headers := q_col_headers q;
     q_col_order := q_col_order q; q_qsf_info := q_qsf_info q |}.

Definition set_cols (q : question) (hs : dict str) (order : list str)
  : question :=
  {| q_id := q_id q; q_text := q_text q; q_type := q_type q;
     q_internal_type := q_internal_type q; q_qsf_type := q_qsf_type q;
     q_selector := q_selector q; q_columns := q_columns q;
     q_rows := q_rows q; q_col_headers := hs;
     q_col_order := order; q_qsf_info := q_qsf_info q |}.

(** One response: the cells of a line of the export by column. *)
Definition row := dict value.

(** [row.get(col)] *)
Definition row_get (r : row) (col : str) : value :=
  match dict_get r col with
  | Some v => v
  | None => None
  end.

(* ================================================================== *)
(** * Reading the columns of the export *)
(* ================================================================== *)

Section Extraction.

Variable L : pylib.

Definition get_label_from_qsf (info : qsf_info) (csv_index : str)
  (label_type : str) : str :=
  let lookup (labels : dict str) (order : list str) (fallback : str) :=
    match dict_get labels csv_index with
    | Some l => l
    | None =>
        let by_position :=
          match py_int L csv_index with
          | Some n =>
              let idx := (n - 1)%Z in
              if ((0 <=? idx) && (idx <? Z.of_nat (length order)))%Z
              then match nth_error order (Z.to_nat idx) with
                   | Some qsf_id => dict_get labels qsf_id
                   | None => None
                   end
              else None
          | None => None
          end in
        match by_position with
        | Some l => l
        | None => fallback ++ csv_index
        end
    end in
  if str_eqb label_type (py "choice")
  then lookup (info_get qsf_choices [] info)
         (info_get qsf_choice_order [] info) (py "Row ")
  else lookup (info_get qsf_answers [] info)
         (info_get qsf_answer_order [] info) (py "Column ").

(** What a column identifier is read as: the question number, up to two
    sub-indices and the text marker. *)
Record column_name := {
  base_number : str;
  sub1 : option str;
  sub2 : option str;
  is_text_field : bool;
}.

(** [Q(\d+)(?:_(\d+))?(?:_(\d+))?(_TEXT)?] *)
Definition COLUMN_ID : regex :=
  Seq [C "Q"; Group 1 (Plus (Dig L));
       Opt (Cat (C "_") (Group 2 (Plus (Dig L))));
       Opt (Cat (C "_") (Group 3 (Plus (Dig L))));
       Opt (Group 4 (Lit "_TEXT"))].

(** [Q(\d+)(?:_(.+))?$] *)
Definition COLUMN_ID_OTHER : regex :=
  Seq [C "Q"; Group 1 (Plus (Dig L));
       Opt (Cat (C "_") (Group 2 (Plus Dot))); Eol].

Definition four_groups (st : mstate) : column_name :=
  {| base_number := group_or_empty 1 st;
     sub1 := group 2 (m_groups st);
     sub2 := group 3 (m_groups st);
     is_text_field := matched (group 4 (m_groups st)) |}.

Definition two_groups (st : mstate) : column_name :=
  {| base_number := group_or_empty 1 st;
     sub1 := group 2 (m_groups st);
     sub2 := None;
     is_text_field := false |}.

(** A sub-index that is there and not empty. *)
Definition truthy (s : option str) : bool :=
  match s with Some (_ :: _) => true | _ => false end.

Definition the (s : option str) : str :=
  match s with Some x => x | None => [] end.

Definition skipped_column (col_id : str) : bool :=
  str_in col_id METADATA_COLUMNS || is_timing_column col_id
  || negb (startswith col_id (py "Q")).

Definition append_new (l : list str) (x : str) : list str :=
  if str_in x l then l else l ++ [x].

(** [q['rows'][sub1]['cells'][sub2] = cell], after the row was made if
    it was not there; a row without cells raises [KeyError]. *)
Definition set_cell (rows : dict row_info) (r label c : str) (x : cell)
  : result (dict row_info) :=
  let rows :=
    if dict_mem rows r then rows else dict_set rows r (RowCells label []) in
  match dict_get rows r with
  | Some (RowCells l cells) =>
      Ok (dict_set rows r (RowCells l (dict_set cells c x)))
  | _ => Raise KeyError
  end.

Definition add_item (rows : dict row_info) (r col_id label : str)
  : dict row_info :=
  if dict_mem rows r then rows else dict_set rows r (RowItem col_id label).

(** [if sub2 not in q['col_headers']: ...] *)
Definition add_column (q : question) (c label : str) : question :=
  if dict_mem (q_col_headers q) c then q
  else set_cols q (dict_set (q_col_headers q) c label) (q_col_order q ++ [c]).

(** [x or default] for a label *)
Definition label_or (x : option str) (default : str) : str :=
  if truthy x then the x else default.

Definition new_question (base_q text internal_type : str) (info : qsf_info)
  : question :=
  {| q_id := base_q; q_text := text; q_type := single;
     q_internal_type := internal_type;
     q_qsf_type := info_get qsf_type (JStr []) info;
     q_selector := info_get qsf_selector (JStr []) info;
     q_columns := []; q_rows := []; q_col_headers := [];
     q_col_order := []; q_qsf_info := info |}.

(** A cell of a matrix: the row is made if it is new, the cell is set,
    the column is recorded if it is new. *)
Definition bind_cell (q : question) (r c col_id row_lbl col_lbl : str)
  : result question :=
  rows <- set_cell (q_rows q) r row_lbl c
            {| cell_id := col_id; cell_col_label := col_lbl |} ;;
  Ok (add_column (set_rows q rows) c col_lbl).

Definition bind_item (q : question) (r col_id label : str) : question :=
  set_rows q (add_item (q_rows q) r col_id label).

Definition is_matrix_type (internal_type : str) : bool :=
  str_in internal_type
    (map py ["matrix_text"; "matrix_likert"; "matrix_multi"]).

Definition is_choice_type (internal_type : str) : bool :=
  str_in internal_type (map py ["single_choice"; "multi_choice"]).

(** The body of the loop of [extract_questions_with_qsf]. *)
Definition with_qsf_step (qsf_metadata : dict qsf_question)
  (questions : dict question) (column : str * value)
  : result (dict question) :=
  let '(col_id, col_text) := column in
  if skipped_column col_id then Ok questions
  else
    let name :=
      match re_match (Cat COLUMN_ID Eol) col_id with
      | Some st => Some (four_groups st)
      | None => option_map two_groups (re_match COLUMN_ID_OTHER col_id)
      end in
    match name with
    | None => Ok questions
    | Some name =>
        let base_q := py "Q" ++ base_number name in
        let text_sub :=
          truthy (sub1 name) && negb (isdigit L (the (sub1 name)))
          && str_eqb (the (sub1 name)) (py "TEXT") in
        let is_text := if text_sub then true else is_text_field name in
        let s1 := if text_sub then None else sub1 name in
        let s2 := sub2 name in
        if is_text && truthy s1 then Ok questions
        else
          let info := dict_get qsf_metadata base_q in
          let internal_type :=
            info_get qsf_internal_type (py "unknown") info in
          let questions :=
            if dict_mem questions base_q then questions
            else
              let text := info_get qsf_text [] info in
              let text :=
                if nonempty text then text
                else clean_question_text L col_text in
              dict_set questions base_q
                (new_question base_q text internal_type info) in
          match dict_get questions base_q with
          | None => Raise KeyError
          | Some q =>
              let q := set_columns q (append_new (q_columns q) col_id) in
              let row_lbl := get_label_from_qsf info (the s1) (py "choice") in
              let col_lbl := get_label_from_qsf info (the s2) (py "answer") in
              q <-
                (if is_matrix_type internal_type then
                   let q := set_type q matrix in
                   if truthy s1 && truthy s2
                   then bind_cell q (the s1) (the s2) col_id row_lbl col_lbl
                   else if truthy s1
                   then Ok (bind_item q (the s1) col_id row_lbl)
                   else Ok q
                 else if str_eqb internal_type (py "form") then
                   let q := set_type q form in
                   if truthy s1
                   then Ok (bind_item q (the s1) col_id row_lbl)
                   else Ok q
                 else if is_choice_type internal_type then
                   if truthy s1
                   then Ok (bind_item (set_type q choice) (the s1) col_id
                              row_lbl)
                   else Ok q
                 else
                   let '(_, row_csv, col_csv) :=
                     extract_matrix_labels L col_text in
                   let generic_row :=
                     str_eqb row_lbl (py "Row " ++ the s1) in
                   let generic_col :=
                     str_eqb col_lbl (py "Column " ++ the s2) in
                   if truthy s1 && truthy s2 then
                     let row_lbl :=
                       if generic_row && truthy row_csv
                       then the row_csv else row_lbl in
                     let col_lbl :=
                       if generic_col && truthy col_csv
                       then the col_csv else col_lbl in
                     bind_cell (set_type q matrix) (the s1) (the s2) col_id
                       row_lbl col_lbl
                   else if truthy s1 then
                     let item_lbl :=
                       if generic_row && truthy row_csv
                       then the row_csv else row_lbl in
                     Ok (bind_item (set_type q grouped) (the s1) col_id
                           item_lbl)
                   else Ok q) ;;
              Ok (dict_set questions base_q q)
          end
    end.

(** [extract_questions_with_qsf], on the two header lines of the
    export. *)
Definition extract_questions_with_qsf (columns : list str)
  (texts : list value) (qsf_metadata : dict qsf_question)
  : result (dict question) :=
  foldM (with_qsf_step qsf_metadata) (combine columns texts) [].

(** The body of the loop of [extract_questions_from_csv]. *)
Definition from_csv_step (questions : dict question) (column : str * value)
  : result (dict question) :=
  let '(col_id, col_text) := column in
  if skipped_column col_id then Ok questions
  else
    match re_match COLUMN_ID col_id with
    | None => Ok questions
    | Some st =>
        let name := four_groups st in
        let base_q := py "Q" ++ base_number name in
        let s1 := sub1 name in
        let s2 := sub2 name in
        if is_text_field name && truthy s1 then Ok questions
        else
          let '(base_text, row_lbl, col_lbl) :=
            extract_matrix_labels L col_text in
          let questions :=
            if dict_mem questions base_q then questions
            else dict_set questions base_q
                   (new_question base_q [] (py "unknown") None) in
          match dict_get questions base_q with
          | None => Raise KeyError
          | Some q =>
              let q :=
                if length (q_text q) <? length base_text
                then set_text q base_text else q in
              let q := set_columns q (append_new (q_columns q) col_id) in
              q <-
                (if truthy s1 && truthy s2 then
                   let q := set_type q matrix in
                   let generic_row := py "Row " ++ the s1 in
                   let generic_col := py "Column " ++ the s2 in
                   let row_lbl := label_or row_lbl generic_row in
                   let col_lbl := label_or col_lbl generic_col in
                   let rows :=
                     match dict_get (q_rows q) (the s1) with
                     | None => q_rows q
                     | Some r =>
                         if negb (str_eqb row_lbl generic_row)
                         then dict_set (q_rows q) (the s1)
                                (set_row_label r row_lbl)
                         else q_rows q
                     end in
                   rows <- set_cell rows (the s1) row_lbl (the s2)
                             {| cell_id := col_id;
                                cell_col_label := col_lbl |} ;;
                   let q := set_rows q rows in
                   Ok (if negb (dict_mem (q_col_headers q) (the s2))
                       then add_column q (the s2) col_lbl
                       else if negb (str_eqb col_lbl generic_col)
                       then set_cols q
                              (dict_set (q_col_headers q) (the s2) col_lbl)
                              (q_col_order q)
                       else q)
                 else if truthy s1 then
                   Ok (bind_item (set_type q grouped) (the s1) col_id
                         (label_or row_lbl (py "Item " ++ the s1)))
                 else Ok q) ;;
              Ok (dict_set questions base_q q)
          end
    end.

(** [extract_questions_from_csv], on the two header lines of the
    export. *)
Definition extract_questions_from_csv (columns : list str)
  (texts : list value) : result (dict question) :=
  foldM from_csv_step (combine columns texts) [].

End Extraction.

(* ================================================================== *)
(** * Rendering a response

    The four functions that render a response are handed the question
    itself, the dictionary that the table of questions holds.  They are
    written as computations over that object, which they read field by
    field. *)
(* ================================================================== *)

Definition render (A : Type) : Type := question -> result A * question.

Definition ret {A : Type} (a : A) : render A := fun q => (Ok a, q).

Definition lift {A : Type} (r : result A) : render A := fun q => (r, q).

(** [question[field]] *)
Definition read {A : Type} (field : question -> A) : render A :=
  fun q => (Ok (field q), q).

Definition rbind {A B : Type} (m : render A) (f : A -> render B)
  : render B :=
  fun q =>
    match m q with
    | (Ok a, q') => f a q'
    | (Raise e, q') => (Raise e, q')
    end.

Declare Scope render_scope.
Delimit Scope render_scope with render.
Notation "x <- m ;; k" := (rbind m (fun x => k))
  (at level 61, m at next level, right associativity) : render_scope.

(** [sorted(l, key=...)], the keys already computed: a stable sort. *)
Section Sorted.

Variables (K A : Type) (ltb : K -> K -> bool).

Fixpoint insert_sorted (x : K * A) (l : list (K * A)) : list (K * A) :=
  match l with
  | [] => [x]
  | y :: l' =>
      if ltb (fst x) (fst y) then x :: l else y :: insert_sorted x l'
  end.

Definition sorted_by_key (l : list (K * A)) : list A :=
  map snd (fold_left (fun acc x => insert_sorted x acc) l []).

End Sorted.

(** What [format_grouped_response] collects for a row it shows. *)
Record item := {
  item_label : str;
  item_value : str;
  item_col_id : str;
  item_selections : option (list str);
  item_is_categorical : bool;
}.

Definition new_item (label val col_id : str) : item :=
  {| item_label := label; item_value := val; item_col_id := col_id;
     item_selections := None; item_is_categorical := false |}.

Section Rendering.

Variable L : pylib.

(** [sorted(rows_data.keys(), key=sort_row_key)] *)
Definition sorted_rows (rows_data : dict row_info) : result (list str) :=
  ks <- mapM (fun k => key <- sort_row_key L k ;; Ok (key, k))
          (keys rows_data) ;;
  Ok (sorted_by_key key_ltb ks).

Definition has_response (q : question) (r : row) : bool :=
  existsb (fun col => negb (is_empty (row_get r col))) (q_columns q).

Definition data_row (q_text : str) (it : item) : result html :=
  formatted_value <- format_value L (Some (item_value it)) q_text
                       (item_col_id it) ;;
  Ok (py "<tr><th class='data-label'>" ++ safe_html (Some (item_label it))
      ++ py "</th><td class='data-value'>" ++ formatted_value
      ++ py "</td></tr>").

Definition _format_as_data_table (items : list item) (q_text : str)
  : result html :=
  trs <- mapM (data_row q_text) items ;;
  Ok (py "<table class='data-table'><tbody>" ++ concat trs
      ++ py "</tbody></table>").

Definition sorted_strs (l : list str) : list str :=
  sorted_by_key str_ltb (map (fun s => (s, s)) l).

Definition _format_as_checkmark_table (items : list item)
  (all_selections : list str) : html :=
  let col_order := sorted_strs all_selections in
  py "<table class='grouped-table'><thead><tr><th></th>"
  ++ concat (map (fun col => py "<th>" ++ safe_html (Some col) ++ py "</th>")
               col_order)
  ++ py "</tr></thead><tbody>"
  ++ concat
       (map (fun it =>
               py "<tr><th class='row-header'>"
               ++ safe_html (Some (item_label it)) ++ py "</th>"
               ++ concat
                    (map (fun col =>
                            match item_selections it with
                            | Some (x :: sel) =>
                                if str_in col (x :: sel)
                                then py "<td class='cell-yes'>‚úì</td>"
                                else py "<td class='cell-no'>‚Äî</td>"
                            | _ => py "<td class='cell-no'>‚Äî</td>"
                            end) col_order)
               ++ py "</tr>") items)
  ++ py "</tbody></table>".

(** The reading of one item as a selection: its tokens, if it has the
    shape of a selection. *)
Definition selections_of (val_str : str) : option (list str) :=
  let short p :=
    (length p <=? SHORT_VALUE_MAX_LENGTH)
    && negb (is_numeric_value L (Some p)) in
  if contains val_str (py ",") && negb (is_coordinate L (Some val_str))
  then
    let parts :=
      map strip (filter (fun p => nonempty (strip p))
                   (split val_str (py ","))) in
    if forallb short parts then Some (distinct parts) else None
  else if short val_str then Some [val_str]
  else None.

Definition analyse (it : item) : item :=
  let sel := selections_of (item_value it) in
  {| item_label := item_label it; item_value := item_value it;
     item_col_id := item_col_id it; item_selections := sel;
     item_is_categorical := matched sel |}.

(** The rows of a question that the respondent filled, in the order of
    [sorted_rows]. *)
Definition collect_items (rows_data : dict row_info) (r : row)
  (order : list str) : list item :=
  flat_map (fun row_key =>
              match dict_get rows_data row_key with
              | None => []
              | Some row_info =>
                  let col_id := row_id row_info in
                  let v := row_get r col_id in
                  if is_empty v then []
                  else [new_item (row_label row_info) (safe_str v) col_id]
              end) order.

(** The tokens of all the items, each once. *)
Definition all_selections_of (items : list item) : list str :=
  distinct
    (flat_map (fun it =>
                 match item_selections it with
                 | Some sel => sel
                 | None => []
                 end) items).

Definition use_checkmark_table (items : list item)
  (all_selections : list str) : bool :=
  let unique_ratio := ratio (length all_selections) (length items) in
  (2 <=? length all_selections) && (length all_selections <=? 10)
  && Qle_bool unique_ratio (7 # 10)
  && forallb (fun it => matched (item_selections it)) items
  && forallb item_is_categorical items.

Definition list_entry (q_text : str) (x : str * str) : result html :=
  let '(col_id, val) := x in
  formatted <- format_value L (Some val) q_text col_id ;;
  Ok (py "<li>" ++ formatted ++ py "</li>").

Definition format_grouped_response (r : row) : render html :=
  (q_text <- read q_text ;;
   rows_data <- read q_rows ;;
   qsf_info <- read q_qsf_info ;;
   columns <- read q_columns ;;
   if negb (nonempty rows_data) && nonempty columns then
     let values :=
       flat_map (fun col_id =>
                   let val := row_get r col_id in
                   if is_empty val then [] else [(col_id, safe_str val)])
         columns in
     match values with
     | [] => ret format_empty
     | [(col_id, val)] => lift (format_value L (Some val) q_text col_id)
     | _ =>
         lis <- lift (mapM (list_entry q_text) values) ;;
         ret (py "<ul class='vertical-list'>" ++ concat lis ++ py "</ul>")
     end
   else
     order <- lift (sorted_rows rows_data) ;;
     let items := collect_items rows_data r order in
     let all_values := map item_value items in
     match items with
     | [] => ret format_empty
     | _ =>
         if values_are_numeric_data L all_values
         then lift (_format_as_data_table items q_text)
         else if values_are_unique_data L all_values
         then lift (_format_as_data_table items q_text)
         else
           let items := map analyse items in
           let all_selections := all_selections_of items in
           if use_checkmark_table items all_selections
           then ret (_format_as_checkmark_table items all_selections)
           else lift (_format_as_data_table items q_text)
     end)%render.

Definition empty_cell : html := py "<td class='empty-cell'>‚Äî</td>".

(** Does some cell of the matrix hold an answer of the respondent. *)
Definition has_data (rows_data : dict row_info) (r : row) : bool :=
  existsb (fun row_info =>
             match row_info with
             | RowCells _ cells =>
                 existsb (fun c => negb (is_empty (row_get r (cell_id c))))
                   (values cells)
             | RowItem _ _ => false
             end) (values rows_data).

Definition matrix_cell (q_text : str) (cells : dict cell) (r : row)
  (col_key : str) : result html :=
  match dict_get cells col_key with
  | None => Ok empty_cell
  | Some c =>
      let v := row_get r (cell_id c) in
      if is_empty v then Ok empty_cell
      else
        formatted <- format_value L v q_text (cell_id c) ;;
        Ok (py "<td>" ++ formatted ++ py "</td>")
  end.

Definition matrix_row (q_text : str) (rows_data : dict row_info)
  (col_order : list str) (r : row) (row_key : str) : result html :=
  match dict_get rows_data row_key with
  | Some (RowCells label cells) =>
      tds <- mapM (matrix_cell q_text cells r) col_order ;;
      Ok (py "<tr><th class='row-header'>" ++ safe_html (Some label)
          ++ py "</th>" ++ concat tds ++ py "</tr>")
  | _ => Ok []
  end.

Definition matrix_head (col_headers : dict str) (col_order : list str)
  : html :=
  py "<table class='matrix-table'><thead><tr><th></th>"
  ++ concat (map (fun col_key =>
                    let label :=
                      match dict_get col_headers col_key with
                      | Some l => l
                      | None => py "Col " ++ col_key
                      end in
                    py "<th>" ++ safe_html (Some label) ++ py "</th>")
               col_order)
  ++ py "</tr></thead><tbody>".

Definition format_matrix_response (r : row) : render html :=
  (q_text <- read q_text ;;
   rows_data <- read q_rows ;;
   col_order <- read q_col_order ;;
   col_headers <- read q_col_headers ;;
   let has_cells := existsb has_cells_key (values rows_data) in
   if has_cells then
     if negb (has_data rows_data r) then ret format_empty
     else
       order <- lift (sorted_rows rows_data) ;;
       trs <- lift (mapM (matrix_row q_text rows_data col_order r) order) ;;
       ret (matrix_head col_headers col_order ++ concat trs
            ++ py "</tbody></table>")
   else format_grouped_response r)%render.

(** [Q\d+_(\d+)] *)
Definition FORM_COLUMN : regex :=
  Seq [C "Q"; Plus (Dig L); C "_"; Group 1 (Plus (Dig L))].

Definition form_row (q_text : str) (it : item) : result html :=
  data_row q_text it.

Definition format_form_response (r : row) : render html :=
  (q_text <- read q_text ;;
   rows_data <- read q_rows ;;
   qsf_info <- read q_qsf_info ;;
   columns <- read q_columns ;;
   items <-
     (if negb (nonempty rows_data) && nonempty columns then
        ret (flat_map
               (fun col_id =>
                  let v := row_get r col_id in
                  if is_empty v then []
                  else
                    let label :=
                      match re_match FORM_COLUMN col_id with
                      | Some st =>
                          get_label_from_qsf L qsf_info
                            (group_or_empty 1 st) (py "choice")
                      | None => col_id
                      end in
                    [new_item label (safe_str v) col_id]) columns)
      else
        order <- lift (sorted_rows rows_data) ;;
        ret (collect_items rows_data r order)) ;;
   match items with
   | [] => ret format_empty
   | _ =>
       trs <- lift (mapM (form_row q_text) items) ;;
       ret (py "<table class='data-table'><tbody>" ++ concat trs
            ++ py "</tbody></table>")
   end)%render.

Definition format_single_response (r : row) : render html :=
  (columns <- read q_columns ;;
   match columns with
   | col_id :: _ =>
       if negb (nonempty col_id) then ret format_empty
       else
         let v := row_get r col_id in
         q_text <- read q_text ;;
         if is_empty v then ret format_empty
         else lift (format_value L v q_text col_id)
   | [] => ret format_empty
   end)%render.

End Rendering.

(* ================================================================== *)
(** * The report *)
(* ================================================================== *)

(** A literal with double quotes in it, a backquote written for each. *)
Definition pyq (s : string) : str :=
  map (fun c => if (c =? 96)%N then 34%N else c) (py s).

Record respondent_info := {
  info_name : str;
  info_id : str;
  info_email : str;
}.

Record respondent := {
  resp_info : respondent_info;
  resp_row : row;
}.

Definition get_respondent_info (r : row) (index : nat) : respondent_info :=
  let get_val key := safe_str (row_get r (py key)) in
  let first := get_val "RecipientFirstName" in
  let last := get_val "RecipientLastName" in
  let email := get_val "RecipientEmail" in
  let resp_id := get_val "ResponseId" in
  let ext_ref := get_val "ExternalReference" in
  let name :=
    if nonempty first then strip (first ++ py " " ++ last)
    else if nonempty email then email
    else if nonempty ext_ref then ext_ref
    else if nonempty resp_id then resp_id
    else py "Anonymous #" ++ str_of_nat (index + 1) in
  {| info_name := name; info_id := resp_id; info_email := email |}.

Definition format_respondent_header (info : respondent_info) : html :=
  py "<span class='respondent-name-main'>" ++ safe_html (Some (info_name info))
  ++ py "</span>"
  ++ (if nonempty (info_id info)
      then py "<span class='respondent-meta'>Response: "
           ++ safe_html (Some (info_id info)) ++ py "</span>"
      else []).

Definition debug_block (n_questions n_respondents : nat)
  (type_str qsf_status : str) : html :=
  pyq "
            <div class=`debug-info`>
                <strong>üîß Debug:</strong>
                Questions: "
  ++ str_of_nat n_questions
  ++ pyq " ("
  ++ type_str
  ++ pyq ") |
                Respondents: "
  ++ str_of_nat n_respondents
  ++ pyq " |
                Source: "
  ++ qsf_status
  ++ pyq "
            </div>
        ".

Definition document_head (css timestamp debug : str)
  (n_respondents n_questions n_matrix : nat) : html :=
  pyq "<!DOCTYPE html>
<html lang=`en`>
<head>
    <meta charset=`UTF-8`>
    <meta name=`viewport` content=`width=device-width, initial-scale=1.0`>
    <title>Qualtrics Survey Report</title>
    <style>"
  ++ css
  ++ pyq "</style>
</head>
<body>
    <div class=`container`>
        <div class=`header`>
            <h1>üìã Qualtrics Survey Report</h1>
            <div class=`meta`>Generated on "
  ++ timestamp
  ++ pyq "</div>
            "
  ++ debug
  ++ pyq "
        </div>

        <div class=`summary`>
            <div class=`summary-item`>
                <div class=`summary-value`>"
  ++ str_of_nat n_respondents
  ++ pyq "</div>
                <div class=`summary-label`>Respondents</div>
            </div>
            <div class=`summary-item`>
                <div class=`summary-value`>"
  ++ str_of_nat n_questions
  ++ pyq "</div>
                <div class=`summary-label`>Questions</div>
            </div>
            <div class=`summary-item`>
                <div class=`summary-value`>"
  ++ str_of_nat n_matrix
  ++ pyq "</div>
                <div class=`summary-label`>Matrix Questions</div>
            </div>
        </div>
".

Definition card_head (q_id meta text : str) : html :=
  pyq "
        <div class=`question-card`>
            <div class=`question-header`>
                <div class=`question-number`>"
  ++ q_id
  ++ pyq "</div>
                "
  ++ meta
  ++ pyq "
                <div class=`question-text`>"
  ++ safe_html (Some text)
  ++ pyq "</div>
            </div>
            <div class=`responses-list`>
".

Definition respondent_row (single_class header answer : str) : html :=
  pyq "
                <div class=`respondent-row"
  ++ single_class
  ++ pyq "`>
                    <div class=`respondent-name`>"
  ++ header
  ++ pyq "</div>
                    <div class=`respondent-answer`>"
  ++ answer
  ++ pyq "</div>
                </div>
".

Definition card_foot : html :=
  pyq "
            </div>
        </div>
".

Definition document_foot : html :=
  pyq "
    </div>
</body>
</html>
".

Fixpoint rmapM {A B : Type} (f : A -> render B) (l : list A)
  : render (list B) :=
  match l with
  | [] => ret []
  | a :: l' => (b <- f a ;; bs <- rmapM f l' ;; ret (b :: bs))%render
  end.

Section Report.

Variable L : pylib.

(** The renderer of a response, chosen by the type of the question. *)
Definition format_response (r : row) : render html :=
  (qtype <- read q_type ;;
   internal_type <- read q_internal_type ;;
   match qtype with
   | matrix => format_matrix_response L r
   | form => format_form_response L r
   | _ =>
       if str_eqb internal_type (py "form") then format_form_response L r
       else
         match qtype with
         | single =>
             columns <- read q_columns ;;
             if length columns =? 1 then format_single_response L r
             else format_grouped_response L r
         | _ => format_grouped_response L r
         end
   end)%render.

Definition question_meta (answered : nat) : render html :=
  (qtype <- read q_type ;;
   internal <- read q_internal_type ;;
   columns <- read q_columns ;;
   ret (py "<div class='question-meta'>type: " ++ shape_name qtype
        ++ py " | internal: " ++ internal ++ py " | cols: "
        ++ str_of_nat (length columns) ++ py " | responses: "
        ++ str_of_nat answered ++ py "</div>"))%render.

Definition no_responses : html := pyq "<div class=`no-responses`>No responses</div>".

(** The respondents that answered the question, [has_response] asked
    of each. *)
Definition answered_by (respondents : list respondent)
  : render (list respondent) :=
  (q <- read (fun q => q) ;;
   ret (filter (fun resp => has_response q (resp_row resp)) respondents))
  %render.

(** The parts of the document that one question adds. *)
Definition question_card (respondents : list respondent) (debug_mode : bool)
  (q_id : str) : render (list html) :=
  (answered <- answered_by respondents ;;
   meta <- (if debug_mode then question_meta (length answered)
            else ret []) ;;
   text <- read q_text ;;
   let head := card_head q_id meta text in
   match answered with
   | [] => ret [head; no_responses; card_foot]
   | _ =>
       let single_class :=
         if length answered =? 1 then py " single-response" else [] in
       rows <- rmapM (fun resp =>
                        let header :=
                          format_respondent_header (resp_info resp) in
                        answer <- format_response (resp_row resp) ;;
                        ret (respondent_row single_class header answer))
                 answered ;;
       ret (head :: rows ++ [card_foot])
   end)%render.

(** The key [sorted] orders the questions by: the number after the
    first [Q] that digits follow. *)
Definition question_number (q_id : str) : result Z :=
  match re_search (Seq [C "Q"; Group 1 (Plus (Dig L))]) q_id with
  | None => Raise AttributeError
  | Some (_, st) =>
      match py_int L (group_or_empty 1 st) with
      | Some n => Ok n
      | None => Raise ValueError
      end
  end.

(** The cards of the questions in the order given; with the parts comes
    every question as the rendering left it. *)
Fixpoint visit (respondents : list respondent) (debug_mode : bool)
  (qs : list (str * question))
  : result (list html) * list (str * question) :=
  match qs with
  | [] => (Ok [], [])
  | (q_id, q) :: rest =>
      match question_card respondents debug_mode q_id q with
      | (Raise e, q') => (Raise e, (q_id, q') :: rest)
      | (Ok parts, q') =>
          let '(r, rest') := visit respondents debug_mode rest in
          (match r with
           | Ok more => Ok (parts ++ more)
           | Raise e => Raise e
           end, (q_id, q') :: rest')
      end
  end.

Definition count_type (questions : dict question) (t : shape) : nat :=
  length (filter (fun q => str_eqb (shape_name (q_type q)) (shape_name t))
            (values questions)).

(** [sorted(type_counts.items())], joined *)
Definition type_str (questions : dict question) : str :=
  join (py ", ")
    (flat_map (fun t =>
                 let n := count_type questions t in
                 if 0 <? n then [shape_name t ++ py ": " ++ str_of_nat n]
                 else [])
       [choice; form; grouped; matrix; single]).

Definition sorted_questions (questions : dict question)
  : result (list (str * question)) :=
  ks <- mapM (fun x => n <- question_number (fst x) ;; Ok (n, x)) questions ;;
  Ok (sorted_by_key Z.ltb ks).

(** [generate_html]: the parts of the document, and the questions as the
    rendering left them. *)
Definition generate_parts (questions : dict question)
  (respondents : list respondent) (debug_mode has_qsf : bool)
  : result (list html) * list (str * question) :=
  let debug :=
    if debug_mode
    then debug_block (length questions) (length respondents)
           (type_str questions)
           (if has_qsf then py "‚úì QSF metadata" else py "CSV inference")
    else [] in
  let head :=
    document_head (css_text L) (timestamp L) debug (length respondents)
      (length questions) (count_type questions matrix) in
  match sorted_questions questions with
  | Raise e => (Raise e, questions)
  | Ok sorted_qs =>
      let '(r, after) := visit respondents debug_mode sorted_qs in
      (match r with
       | Ok cards => Ok (head :: cards ++ [document_foot])
       | Raise e => Raise e
       end, after)
  end.

Definition generate_html (questions : dict question)
  (respondents : list respondent) (debug_mode has_qsf : bool)
  : result html :=
  parts <- fst (generate_parts questions respondents debug_mode has_qsf) ;;
  Ok (concat parts).

End Report.

(* ================================================================== *)
(** * The definition file

    [json.load] gives the document or raises.  The program takes the
    members of the document as they come, with [get], [in], [str] and
    the loops of Python; a member of another type than the survey format
    gives it makes these raise. *)
(* ================================================================== *)

(** The file at the path, by what [json.load] makes of it: it is no
    JSON, or the library raises another exception (as [RecursionError]
    for a document nested too deep), or it is a document. *)
Inductive qsf_file : Type :=
| NotJson
| LoadFails (e : exn)
| Json (data : json).

(** [str(n)] of an integer *)
Definition str_of_Z (n : Z) : str :=
  py (NilZero.string_of_int (Z.to_int n)).

(** [bool(x)] *)
Definition py_bool (x : json) : bool :=
  match x with
  | JNull => false
  | JBool b => b
  | JInt n => negb (n =? 0)%Z
  | JFloat (Finite q) _ => negb (Qeq_bool q 0)
  | JFloat _ _ => true
  | JStr s => nonempty s
  | JList l => nonempty l
  | JDict d => nonempty d
  end.

(** Can the value be a key of a dictionary. *)
Definition hashable (x : json) : bool :=
  match x with
  | JList _ | JDict _ => false
  | _ => true
  end.

(** [x.get(key, default)]; what is no dictionary has no [get]. *)
Definition py_get (x : json) (key : string) (default : json) : result json :=
  match x with
  | JDict d =>
      Ok match dict_get d (py key) with
         | Some v => v
         | None => default
         end
  | _ => Raise AttributeError
  end.

(** [for y in x]: the items of a list, the keys of a dictionary, the
    code points of a string. *)
Definition py_iter (x : json) : result (list json) :=
  match x with
  | JList l => Ok l
  | JDict d => Ok (map (fun kv => JStr (fst kv)) d)
  | JStr s => Ok (map (fun c => JStr [c]) s)
  | _ => Raise TypeError
  end.

(** [s in x] for a string [s]: a key of a dictionary, an item of a
    list, a part of a string. *)
Definition py_in (s : str) (x : json) : result bool :=
  match x with
  | JDict d => Ok (dict_mem d s)
  | JList l =>
      Ok (existsb (fun y => match y with
                            | JStr t => str_eqb t s
                            | _ => false
                            end) l)
  | JStr t => Ok (contains t s)
  | _ => Raise TypeError
  end.

(** [x[s]] for a string [s]; a list and a string take no string as an
    index. *)
Definition py_item (x : json) (s : str) : result json :=
  match x with
  | JDict d =>
      match dict_get d s with
      | Some v => Ok v
      | None => Raise KeyError
      end
  | _ => Raise TypeError
  end.

(** [x.items()] *)
Definition py_items (x : json) : result (list (str * json)) :=
  match x with
  | JDict d => Ok d
  | _ => Raise AttributeError
  end.

(** The value of a number, [True] being 1 and [False] 0. *)
Definition num_value (x : json) : option float_value :=
  match x with
  | JBool b => Some (Finite (if b then 1 else 0))
  | JInt n => Some (Finite (inject_Z n))
  | JFloat v _ => Some v
  | _ => None
  end.

(** [json.load] gives the same object for every [NaN] of a document,
    and a dictionary takes an object for the key that it is. *)
Definition float_eqb (x y : float_value) : bool :=
  match x, y with
  | Finite p, Finite q => Qeq_bool p q
  | Infinite a, Infinite b => Bool.eqb a b
  | NotANumber, NotANumber => true
  | _, _ => false
  end.

(** Are two values the same key of a dictionary: equal strings, or
    numbers of equal value. *)
Definition key_eqb (a b : json) : bool :=
  match a, b with
  | JNull, JNull => true
  | JStr s, JStr t => str_eqb s t
  | _, _ =>
      match num_value a, num_value b with
      | Some x, Some y => float_eqb x y
      | _, _ => false
      end
  end.

(** The result of [parse_qsf]: the questions by export tag. *)
Definition qsf_metadata := list (json * qsf_question).

(** [questions[k] = v]: a key that is there keeps its place and its
    object. *)
Fixpoint meta_set (m : qsf_metadata) (k : json) (v : qsf_question)
  : qsf_metadata :=
  match m with
  | [] => [(k, v)]
  | (k', v') :: m' =>
      if key_eqb k k' then (k', v) :: m' else (k', v') :: meta_set m' k v
  end.

(** The extraction looks the questions up under column identifiers,
    which are strings: [qsf_metadata.get(base_q, {})] finds the entries
    under strings and no other. *)
Definition by_column (m : qsf_metadata) : dict qsf_question :=
  flat_map (fun '(k, q) =>
              match k with
              | JStr s => [(s, q)]
              | _ => []
              end) m.

(** Is the value this string, or [None]. *)
Definition json_is (x : json) (k : option str) : bool :=
  match x, k with
  | JNull, None => true
  | JStr s, Some t => str_eqb s t
  | _, _ => false
  end.

Definition QSF_TYPE_MAP : list (str * option str * option str * str) :=
  let e (t : string) (s u : option string) (i : string) :=
    (py t, option_map py s, option_map py u, py i) in
  [ e "Matrix" (Some "TE") (Some "Long") "matrix_text";
    e "Matrix" (Some "TE") (Some "Short") "matrix_text";
    e "Matrix" (Some "TE") None "matrix_text";
    e "Matrix" (Some "Likert") (Some "SingleAnswer") "matrix_likert";
    e "Matrix" (Some "Likert") (Some "MultipleAnswer") "matrix_multi";
    e "Matrix" (Some "Likert") None "matrix_likert";
    e "Matrix" (Some "Profile") None "matrix_likert";
    e "Matrix" (Some "Bipolar") None "matrix_likert";
    e "Matrix" (Some "MaxDiff") None "matrix_likert";
    e "TE" (Some "FORM") None "form";
    e "TE" (Some "SL") None "single_text";
    e "TE" (Some "ML") None "multi_text";
    e "TE" (Some "ESTB") None "essay";
    e "TE" None None "single_text";
    e "MC" (Some "SAVR") (Some "TX") "single_choice";
    e "MC" (Some "SAVR") None "single_choice";
    e "MC" (Some "SAHR") None "single_choice";
    e "MC" (Some "SACOL") None "single_choice";
    e "MC" (Some "MAVR") (Some "TX") "multi_choice";
    e "MC" (Some "MAVR") None "multi_choice";
    e "MC" (Some "MAHR") None "multi_choice";
    e "MC" (Some "MACOL") None "multi_choice";
    e "MC" (Some "DL") None "single_choice";
    e "MC" (Some "RB") None "single_choice";
    e "MC" (Some "NPS") None "single_choice";
    e "DB" (Some "TB") None "display";
    e "DB" (Some "GRB") None "display";
    e "Slider" (Some "HBAR") None "single_text";
    e "Slider" (Some "HSLIDER") None "single_text";
    e "SBS" None None "matrix_text" ].

(** [QSF_TYPE_MAP.get((qtype, selector, subselector))]; a tuple with a
    list or a dictionary in it cannot be looked up. *)
Definition type_map_get (qtype selector subselector : json)
  : result (option str) :=
  if hashable qtype && hashable selector && hashable subselector
  then Ok (option_map snd
             (find (fun '(t, s, u, _) =>
                      json_is qtype (Some t) && json_is selector s
                      && json_is subselector u)
                QSF_TYPE_MAP))
  else Raise TypeError.

Section Definition_file.

Variable L : pylib.

(** [str(x)] *)
Definition py_str (x : json) : str :=
  match x with
  | JNull => py "None"
  | JBool true => py "True"
  | JBool false => py "False"
  | JInt n => str_of_Z n
  | JFloat _ repr => repr
  | JStr s => s
  | _ => json_repr L x
  end.

(** [clean_html_text(text)] of a member of the document: what is empty
    gives the empty string, a string is cleaned, and anything else
    fails in [unescape] or in [re.sub]. *)
Definition clean_html_value (text : json) : result str :=
  match text with
  | JStr s => Ok (clean_html_text L s)
  | _ => if py_bool text then Raise TypeError else Ok []
  end.

(** The label of one choice or answer; [kind] is [Choice] or [Answer]
    and [id] the identifier as a string. *)
Definition label_text (kind : string) (id : str) (data : json)
  : result str :=
  match data with
  | JDict d =>
      let text :=
        match dict_get d (py "Text") with
        | Some t => t
        | None => JStr (py kind ++ py " " ++ id)
        end in
      clean_html_value
        match dict_get d (py "Display") with
        | Some x => x
        | None => text
        end
  | _ => Ok (clean_html_text L (py_str data))
  end.

(** The identifiers of [ChoiceOrder] or [AnswerOrder] as strings, none
    when the member is empty. *)
Definition order_ids (order : json) : result (list str) :=
  if py_bool order
  then ids <- py_iter order ;; Ok (map py_str ids)
  else Ok [].

(** The labels in the order of the explicit list if it names any of
    them, and in the order of the dictionary otherwise. *)
Definition ordered_labels (kind : string) (raw : json) (ids : list str)
  : result (dict str) :=
  listed <-
    foldM (fun acc id =>
             present <- py_in id raw ;;
             if present : bool then
               data <- py_item raw id ;;
               label <- label_text kind id data ;;
               Ok (dict_set acc id label)
             else Ok acc) ids [] ;;
  if negb (nonempty listed) && py_bool raw
  then
    members <- py_items raw ;;
    foldM (fun acc '(id, data) =>
             label <- label_text kind id data ;;
             Ok (dict_set acc id label)) members []
  else Ok listed.

Definition column_label (id : str) (data : json) : result str :=
  match data with
  | JDict d =>
      clean_html_value
        match dict_get d (py "Display") with
        | Some x => x
        | None => JStr (py "Column " ++ id)
        end
  | _ => Ok (clean_html_text L (py_str data))
  end.

Definition column_labels (raw : json) : result (dict str) :=
  members <- py_items raw ;;
  foldM (fun acc '(id, data) =>
           label <- column_label id data ;;
           Ok (dict_set acc id label)) members [].

(** The body of the loop of [parse_qsf] for one element. *)
Definition parse_element (questions : qsf_metadata) (element : json)
  : result qsf_metadata :=
  kind <- py_get element "Element" JNull ;;
  if negb (json_is kind (Some (py "SQ"))) then Ok questions
  else
    payload <- py_get element "Payload" (JDict []) ;;
    qid <- py_get element "PrimaryAttribute" (JStr []) ;;
    export_tag <- py_get payload "DataExportTag" (JStr []) ;;
    if negb (py_bool export_tag) then Ok questions
    else
      qtype <- py_get payload "QuestionType" (JStr []) ;;
      selector <- py_get payload "Selector" (JStr []) ;;
      subselector <- py_get payload "SubSelector" JNull ;;
      found <- type_map_get qtype selector subselector ;;
      internal_type <-
        match found with
        | Some t => Ok t
        | None =>
            fallback <- type_map_get qtype selector JNull ;;
            Ok match fallback with
               | Some t => t
               | None => py "unknown"
               end
        end ;;
      question_text <- py_get payload "QuestionText" (JStr []) ;;
      question_text <- clean_html_value question_text ;;
      choice_order <- py_get payload "ChoiceOrder" (JList []) ;;
      raw_choices <- py_get payload "Choices" (JDict []) ;;
      choice_ids <- order_ids choice_order ;;
      choices <- ordered_labels "Choice" raw_choices choice_ids ;;
      answer_order <- py_get payload "AnswerOrder" (JList []) ;;
      raw_answers <- py_get payload "Answers" (JDict []) ;;
      answer_ids <- order_ids answer_order ;;
      answers <- ordered_labels "Answer" raw_answers answer_ids ;;
      labels <- py_get payload "ColumnLabels" (JDict []) ;;
      answers <-
        (if py_bool labels && negb (nonempty answers)
         then column_labels labels else Ok answers) ;;
      recode_values <- py_get payload "RecodeValues" (JDict []) ;;
      if hashable export_tag then
        Ok (meta_set questions export_tag
              {| qsf_qid := qid;
                 qsf_export_tag := export_tag;
                 qsf_text := question_text;
                 qsf_type := qtype;
                 qsf_selector := selector;
                 qsf_subselector := subselector;
                 qsf_internal_type := internal_type;
                 qsf_choices := choices;
                 qsf_choice_order :=
                   if py_bool choice_order then choice_ids else keys choices;
                 qsf_answers := answers;
                 qsf_answer_order :=
                   if py_bool answer_order then answer_ids else keys answers;
                 qsf_recode_values := recode_values |})
      else Raise TypeError.

(** The elements that the loop of [parse_qsf] visits. *)
Definition survey_elements (data : json) : result (list json) :=
  elements <- py_get data "SurveyElements" (JList []) ;;
  py_iter elements.

Definition parse_qsf (f : qsf_file) : result qsf_metadata :=
  match f with
  | NotJson => Raise JSONDecodeError
  | LoadFails e => Raise e
  | Json data =>
      elements <- survey_elements data ;;
      foldM parse_element elements []
  end.

End Definition_file.

(* ================================================================== *)
(** * The whole run *)
(* ================================================================== *)

(** The export as [pandas] reads it: the column identifiers, and the
    lines below them, each a cell per column; the first of these lines
    holds the texts of the questions. *)
Inductive csv_file : Type :=
| CsvMissing
| CsvUnreadable
| Csv (columns : list str) (lines : list (list value)).

(** The definition file that was asked for. *)
Inductive qsf_arg : Type :=
| NoQsfPath
| NoSuchQsf
| QsfFile (f : qsf_file).

Section Run.

Variable L : pylib.

Definition validate_csv (f : csv_file) : result unit :=
  match f with
  | CsvMissing => Raise FileNotFoundError
  | CsvUnreadable => Raise ValueError
  | Csv _ _ => Ok tt
  end.

(** [df_header.iloc[0]] *)
Definition header_texts (lines : list (list value))
  : result (list value) :=
  match lines with
  | texts :: _ => Ok texts
  | [] => Raise IndexError
  end.

(** Is the line the row of import identifiers: some cell of it, read
    as a string, holds [ImportId] or a brace. *)
Definition is_import_row (line : list value) : bool :=
  existsb (fun v =>
             let s := match v with Some s => s | None => py "nan" end in
             contains s (py "ImportId") || contains s (py "{")) line.

Definition response_lines (lines : list (list value)) : list (list value) :=
  match tl lines with
  | first :: rest => if is_import_row first then rest else first :: rest
  | [] => []
  end.

Fixpoint enumerate {A : Type} (n : nat) (l : list A) : list (nat * A) :=
  match l with
  | [] => []
  | a :: l' => (n, a) :: enumerate (S n) l'
  end.

(** The responses of the export, each with the identity of its
    respondent. *)
Definition read_respondents (columns : list str)
  (lines : list (list value)) : list respondent :=
  let records := map (combine columns) (response_lines lines) in
  map (fun '(idx, r) =>
         {| resp_info := get_respondent_info r idx; resp_row := r |})
    (enumerate 0 records).

(** [process_qualtrics]: the document written and the two counts
    returned, or the exception that ends the run before anything is
    written. *)
Definition process_qualtrics (csv : csv_file) (qsf : qsf_arg)
  (debug_mode : bool) : result (html * (nat * nat)) :=
  _ <- validate_csv csv ;;
  match csv with
  | Csv columns lines =>
      meta <-
        match qsf with
        | QsfFile f => m <- parse_qsf L f ;; Ok (by_column m, true)
        | _ => Ok ([], false)
        end ;;
      let '(qsf_metadata, has_qsf) := meta in
      texts <- header_texts lines ;;
      questions <-
        (if has_qsf
         then extract_questions_with_qsf L columns texts qsf_metadata
         else extract_questions_from_csv L columns texts) ;;
      let respondents := read_respondents columns lines in
      html <- generate_html L questions respondents debug_mode has_qsf ;;
      Ok (html, (length respondents, length questions))
  | _ => Raise FileNotFoundError
  end.

End Run.

(* ================================================================== *)
(** * Properties *)
(* ================================================================== *)

Unset Implicit Arguments.

(** A library that has no digit and no letter above U+00FF, decodes no
    character reference and reads no JSON and no duration; the examples
    are run with it. *)
Definition latin1_library : pylib :=
  {| uni_isdigit := fun _ => false;
     uni_decimal := fun _ => None;
     uni_lower := fun s => s;
     uni_icase := fun _ _ => false;
     charref_sub := fun s => s;
     json_pretty := fun _ => Invalid;
     json_repr := fun _ => [];
     int_max_str_digits := 4300;
     fmt_duration := fun _ => None;
     css_text := [];
     timestamp := [] |}.

(** ** Strings *)

Lemma str_eqb_eq (a b : str) : str_eqb a b = true <-> a = b.
Proof.
  revert b; induction a as [|x a IH]; intros [|y b]; simpl.
  - tauto.
  - split; discriminate.
  - split; discriminate.
  - rewrite andb_true_iff, N.eqb_eq, IH.
    split; [intros [-> ->]; reflexivity | intros [= -> ->]; auto].
Qed.

Lemma str_eqb_refl (a : str) : str_eqb a a = true.
Proof. apply str_eqb_eq; reflexivity. Qed.

Lemma str_eqb_neq (a b : str) : str_eqb a b = false <-> a <> b.
Proof.
  rewrite <- str_eqb_eq. destruct (str_eqb a b).
  - split; [discriminate | intros H; exfalso; apply H; reflexivity].
  - split; [intros _; discriminate | reflexivity].
Qed.

Lemma dropwhile_chars (p : char -> bool) (s : str) (c : char) :
  In c s -> p c = true \/ In c (dropwhile p s).
Proof.
  induction s as [|x s IH]; simpl; [tauto|].
  intros [-> | H].
  - destruct (p c) eqn:E; [left; reflexivity | right; left; reflexivity].
  - destruct (p x) eqn:E; [auto | right; right; exact H].
Qed.

Lemma dropwhile_incl (p : char -> bool) (s : str) (c : char) :
  In c (dropwhile p s) -> In c s.
Proof.
  induction s as [|x s IH]; simpl; [tauto|].
  destruct (p x); [right; auto | tauto].
Qed.

(** A code point of a string is white space or is kept by [strip]. *)
Lemma strip_chars (s : str) (c : char) :
  In c s -> isspace c = true \/ In c (strip s).
Proof.
  intros H. unfold strip, strip_by, rstrip_by, lstrip_by.
  destruct (dropwhile_chars isspace s c H) as [E | H1]; [left; exact E|].
  apply in_rev in H1.
  destruct (dropwhile_chars isspace _ c H1) as [E | H2]; [left; exact E|].
  right. apply in_rev in H2. exact H2.
Qed.

Lemma strip_incl (s : str) (c : char) : In c (strip s) -> In c s.
Proof.
  unfold strip, strip_by, rstrip_by, lstrip_by. intros H.
  apply in_rev in H. apply dropwhile_incl in H. apply in_rev in H.
  apply dropwhile_incl in H. exact H.
Qed.

Lemma split_go_chars (x : char) (s cur : str) (c : char) :
  In c cur \/ In c s ->
  c = x \/ exists p, In p (split_go [x] s 0 cur) /\ In c p.
Proof.
  revert cur; induction s as [|y s IH]; intros cur H.
  - right. exists (rev cur). split; [left; reflexivity|].
    destruct H as [H | H]; [|contradiction]. apply in_rev in H. exact H.
  - cbn -[N.eqb]. destruct (x =? y)%N eqn:E; simpl.
    + apply N.eqb_eq in E; subst y.
      simpl in H. destruct H as [H | [-> | H]].
      * right. exists (rev cur). split; [left; reflexivity|].
        apply in_rev in H. exact H.
      * left; reflexivity.
      * destruct (IH [] (or_intror H)) as [-> | (p & Hp & Hc)];
          [left; reflexivity|].
        right. exists p. split; [right; exact Hp | exact Hc].
    + apply IH. simpl in H. destruct H as [H | [-> | H]].
      * left; right; exact H.
      * left; left; reflexivity.
      * right; exact H.
Qed.

(** A code point of a string is the separator or lies in a piece of
    [split]. *)
Lemma split_chars (x : char) (s : str) (c : char) :
  In c s -> c = x \/ exists p, In p (split s [x]) /\ In c p.
Proof. intros H. apply split_go_chars. right; exact H. Qed.

Lemma join_chars (sep : str) (parts : list str) (c : char) :
  In c (join sep parts) -> In c sep \/ exists p, In p parts /\ In c p.
Proof.
  induction parts as [|p parts IH]; simpl; [tauto|].
  destruct parts as [|p' parts].
  - intros H. right. exists p. split; [left; reflexivity | exact H].
  - intros H. apply in_app_or in H. destruct H as [H | H].
    + right. exists p. split; [left; reflexivity | exact H].
    + apply in_app_or in H. destruct H as [H | H]; [left; exact H|].
      destruct (IH H) as [Hs | (q & Hq & Hc)]; [left; exact Hs|].
      right. exists q. split; [right; exact Hq | exact Hc].
Qed.

Lemma split_go_incl (x : char) (s cur p : str) (c : char) :
  In p (split_go [x] s 0 cur) -> In c p -> In c cur \/ In c s.
Proof.
  revert cur; induction s as [|y s IH]; intros cur Hp Hc.
  - simpl in Hp. destruct Hp as [<- | []]. left. apply in_rev. exact Hc.
  - cbn -[N.eqb] in Hp. destruct (x =? y)%N eqn:E; simpl in Hp.
    + destruct Hp as [<- | Hp].
      * left. apply in_rev. exact Hc.
      * destruct (IH [] Hp Hc) as [[] | H]. right; right; exact H.
    + destruct (IH _ Hp Hc) as [[<- | H] | H].
      * right; left; reflexivity.
      * left; exact H.
      * right; right; exact H.
Qed.

(** A piece of [split] is made of code points of the string. *)
Lemma split_incl (x : char) (s p : str) (c : char) :
  In p (split s [x]) -> In c p -> In c s.
Proof.
  intros Hp Hc. destruct (split_go_incl x s [] p c Hp Hc) as [[] | H].
  exact H.
Qed.

(** ** The classifier *)

(** The characters that [html.escape] would have to replace. *)
Definition markup : list char := [60; 62; 38; 34; 39]%N.

Section ClassifierProperties.

Variable L : pylib.

(** What a value classified as a code is made of: digits in the sense
    of [str.isdigit], commas and white space. *)
Definition code_char (c : char) : Prop :=
  isdigit_char L c = true \/ c = 44%N \/ isspace c = true.

Lemma isdigit_chars (s : str) (c : char) :
  isdigit L s = true -> In c s -> isdigit_char L c = true.
Proof.
  unfold isdigit. destruct s as [|x s]; [discriminate|].
  intros H Hc. rewrite forallb_forall in H. apply H. exact Hc.
Qed.

Lemma code_char_not_markup (c : char) : code_char c -> ~ In c markup.
Proof.
  intros H Hm. unfold markup in Hm. simpl in Hm.
  destruct Hm as [<- | [<- | [<- | [<- | [<- | []]]]]];
    destruct H as [H | [H | H]]; vm_compute in H; discriminate.
Qed.

Lemma all_short_codes_chars (val : str) :
  all_short_codes L (split val (py ",")) = true -> Forall code_char val.
Proof.
  intros H. unfold all_short_codes in H. rewrite forallb_forall in H.
  apply Forall_forall. intros c Hc.
  change (py ",") with [44%N] in H.
  destruct (split_chars 44%N val c Hc) as [-> | (p & Hp & Hcp)].
  - right; left; reflexivity.
  - specialize (H p Hp). apply andb_true_iff in H. destruct H as [H _].
    destruct (strip_chars p c Hcp) as [Hs | Hs].
    + right; right; exact Hs.
    + left. eapply isdigit_chars; eassumption.
Qed.

Lemma is_numeric_code_chars (v : value) (question_text : str) :
  is_numeric_code L v question_text = Ok true ->
  Forall code_char (safe_str v).
Proof.
  unfold is_numeric_code.
  destruct (negb (nonempty (safe_str v))); [discriminate|].
  destruct (contains_any L question_text NUMERIC_QUESTION_KEYWORDS);
    [discriminate|].
  destruct (contains (safe_str v) (py ",")
            && all_short_codes L (split (safe_str v) (py ","))) eqn:E.
  - intros _. apply andb_true_iff in E. destruct E as [_ E].
    apply all_short_codes_chars. exact E.
  - destruct (isdigit L (safe_str v)) eqn:D; [|discriminate].
    intros _. apply Forall_forall. intros c Hc. left.
    eapply isdigit_chars; eassumption.
Qed.

Lemma detect_code (v : value) (question_text column_id : str) :
  detect_value_type L v question_text column_id = Ok t_code ->
  is_numeric_code L v question_text = Ok true.
Proof.
  unfold detect_value_type.
  repeat match goal with
         | |- context [if ?b then _ else _] =>
             destruct b; try discriminate
         end.
  destruct (is_numeric_code L v question_text) as [[|]|e]; simpl;
    try discriminate; reflexivity.
Qed.

(** The tag is [empty] exactly for a null or blank value, whatever the
    column. *)
Lemma detect_empty_iff (v : value) (question_text column_id : str) :
  detect_value_type L v question_text column_id = Ok t_empty
  <-> is_empty v = true.
Proof.
  unfold detect_value_type. destruct (is_empty v); [tauto|].
  split; [|discriminate].
  repeat match goal with
         | |- context [if ?b then _ else _] =>
             destruct b; try discriminate
         end.
  destruct (is_numeric_code L v question_text) as [[|]|e]; simpl;
    discriminate.
Qed.

(** What [format_code] puts between the brackets of its span. *)
Lemma format_code_body (v : value) :
  Forall code_char (safe_str v) ->
  exists body,
    format_code v
    = py "<span class='code-value'>[" ++ body ++ py "]</span>"
    /\ Forall (fun c => ~ In c markup) body.
Proof.
  intros H. unfold format_code.
  destruct (contains (safe_str v) (py ",")).
  - exists (py "Selections: "
            ++ join (py ", ") (map strip (split (safe_str v) (py ",")))).
    split; [rewrite !app_assoc; reflexivity|].
    apply Forall_app. split.
    + apply Forall_forall. intros c Hc Hm. vm_compute in Hc.
      unfold markup in Hm. simpl in Hm.
      repeat (destruct Hc as [<- | Hc];
              [repeat (destruct Hm as [Hm | Hm]; [discriminate|]);
               exact Hm|]).
      exact Hc.
    + apply Forall_forall. intros c Hc.
      apply join_chars in Hc. destruct Hc as [Hc | (p & Hp & Hc)].
      * vm_compute in Hc. unfold markup. simpl. intros Hm.
        repeat (destruct Hc as [<- | Hc];
                [repeat (destruct Hm as [Hm | Hm]; [discriminate|]);
                 exact Hm|]).
        exact Hc.
      * apply in_map_iff in Hp. destruct Hp as (p0 & <- & Hp0).
        apply strip_incl in Hc.
        change (py ",") with [44%N] in Hp0.
        apply code_char_not_markup.
        rewrite Forall_forall in H. apply H.
        eapply split_incl; eassumption.
  - exists (py "Code: " ++ safe_str v).
    split; [rewrite !app_assoc; reflexivity|].
    apply Forall_app. split.
    + apply Forall_forall. intros c Hc Hm. vm_compute in Hc.
      unfold markup in Hm. simpl in Hm.
      repeat (destruct Hc as [<- | Hc];
              [repeat (destruct Hm as [Hm | Hm]; [discriminate|]);
               exact Hm|]).
      exact Hc.
    + eapply Forall_impl; [|exact H]. intros c. apply code_char_not_markup.
Qed.

End ClassifierProperties.

Ltac settle b :=
  let E := fresh "E" in
  assert (E : b = false) by (vm_compute; reflexivity);
  rewrite E; clear E.

(** C5.  The value [1,2,3] is never a comma list, whatever the question
    text and the column; with an empty question text it is a code in
    every column but a timing column, where it is a timing. *)
Theorem digit_list_is_code_not_comma_list
  (L : pylib) (question_text column_id : str) :
  detect_value_type L (Some (py "1,2,3")) question_text column_id
  <> Ok t_comma_list
  /\ detect_value_type L (Some (py "1,2,3")) [] column_id
     = Ok (if is_timing_column column_id then t_timing else t_code).
Proof.
  set (v := Some (py "1,2,3")).
  assert (H : forall qt,
             detect_value_type L v qt column_id
             = if is_timing_column column_id then Ok t_timing
               else code <- is_numeric_code L v qt ;;
                    Ok (if code then t_code else t_text)).
  { intros qt. unfold detect_value_type.
    settle (is_empty v). destruct (is_timing_column column_id);
      [reflexivity|].
    settle (is_url L v). settle (is_file_path L v).
    settle (is_coordinate L v). settle (is_json v).
    settle (is_hierarchical v). settle (is_multi_value L v (py "|")).
    settle (is_multi_value L v (py ";")).
    settle (is_multi_value L v (py ",")). settle (is_long_text v).
    reflexivity. }
  split.
  - rewrite H. destruct (is_timing_column column_id); [discriminate|].
    unfold is_numeric_code.
    destruct (contains_any L question_text NUMERIC_QUESTION_KEYWORDS);
      vm_compute; discriminate.
  - rewrite H. destruct (is_timing_column column_id); reflexivity.
Qed.

(** C6.  The classifier raises on the superscript two: [str.isdigit]
    lets it through to [int], which does not read it. *)
Theorem detect_value_type_raises_on_superscript (L : pylib) :
  detect_value_type L (Some (py "²")) [] [] = Raise ValueError.
Proof. vm_compute. reflexivity. Qed.

(** C10, as amended.  A value classified as a code holds, once
    stripped, only digits in the sense of [str.isdigit], commas and
    white space; what [format_code] writes between the brackets of its
    span then holds none of the characters of markup. *)
Theorem code_value_is_markup_free
  (L : pylib) (v : value) (question_text column_id : str) :
  detect_value_type L v question_text column_id = Ok t_code ->
  Forall (code_char L) (safe_str v)
  /\ exists body,
       format_code v
       = py "<span class='code-value'>[" ++ body ++ py "]</span>"
       /\ Forall (fun c => ~ In c markup) body.
Proof.
  intros H. apply detect_code in H. apply is_numeric_code_chars in H.
  split; [exact H|]. eapply format_code_body. exact H.
Qed.

Lemma code_value_is_markup_free_witness :
  detect_value_type latin1_library (Some (py "1,2,3")) [] [] = Ok t_code
  /\ (Forall (code_char latin1_library) (safe_str (Some (py "1,2,3")))
      /\ exists body,
           format_code (Some (py "1,2,3"))
           = py "<span class='code-value'>[" ++ body ++ py "]</span>"
           /\ Forall (fun c => ~ In c markup) body).
Proof.
  split.
  - vm_compute. reflexivity.
  - apply (code_value_is_markup_free latin1_library (Some (py "1,2,3"))
             [] []).
    vm_compute. reflexivity.
Defined.

(** C10, as stated, fails on two superscript digits with a comma
    between them: the value is a code in every library, and the
    superscript two is no decimal digit. *)
Lemma superscripts_are_a_code :
  ~ (exists L,
        detect_value_type L (Some (py "²,³")) [] [] = Ok t_code ->
        Forall (fun c => isdecimal_char L c = true \/ c = 44%N
                         \/ isspace c = true)
          (safe_str (Some (py "²,³")))).
Proof.
  intros [L H].
  assert (D : detect_value_type L (Some (py "²,³")) [] [] = Ok t_code)
    by (vm_compute; reflexivity).
  specialize (H D). vm_compute in H. inversion H as [|c s Hc _]; subst.
  destruct Hc as [Hc | [Hc | Hc]]; discriminate.
Qed.

(** ** The text normalizer *)

Lemma sub_no_match (r : regex) (repl : mstate -> str) (fuel pos : nat)
  (s : str) :
  search_from r pos s = None -> sub_loop r repl fuel pos s = s.
Proof.
  revert pos s; induction fuel as [|fuel IH]; intros pos s H;
    [reflexivity|].
  destruct s as [|c s]; simpl in *.
  - destruct (match_at r pos []); [discriminate | reflexivity].
  - destruct (match_at r pos (c :: s)); [discriminate|].
    rewrite (IH _ _ H). reflexivity.
Qed.

Lemma re_sub_no_match (r : regex) (repl s : str) :
  matched (re_search r s) = false -> re_sub r repl s = s.
Proof.
  intros H. apply sub_no_match. unfold re_search in H.
  destruct (search_from r 0 s); [discriminate | reflexivity].
Qed.

(** Runs of white space, each made one blank: [prev_ws] says that the
    code point before was white space. *)
Fixpoint squeeze (prev_ws : bool) (s : str) : str :=
  match s with
  | [] => []
  | c :: s' =>
      if isspace c
      then if prev_ws then squeeze true s' else 32%N :: squeeze true s'
      else c :: squeeze false s'
  end.

Lemma dropwhile_length (p : char -> bool) (s : str) :
  length (dropwhile p s) <= length s.
Proof.
  induction s as [|c s IH]; simpl; [lia|]. destruct (p c); simpl; lia.
Qed.

Lemma dropwhile_idem (p : char -> bool) (s : str) :
  dropwhile p (dropwhile p s) = dropwhile p s.
Proof.
  induction s as [|c s IH]; simpl; [reflexivity|].
  destruct (p c) eqn:E; [exact IH | simpl; rewrite E; reflexivity].
Qed.

Lemma dropwhile_suffix (p : char -> bool) (s : str) :
  exists pre, s = pre ++ dropwhile p s.
Proof.
  induction s as [|c s [pre IH]]; simpl; [exists []; reflexivity|].
  destruct (p c).
  - exists (c :: pre). simpl. rewrite <- IH. reflexivity.
  - exists []. reflexivity.
Qed.

Lemma dropwhile_head (p : char -> bool) (s : str) (x : char) (r : str) :
  dropwhile p s = x :: r -> p x = false.
Proof.
  induction s as [|c s IH]; simpl; [discriminate|].
  destruct (p c) eqn:E; [exact IH | intros [= <- _]; exact E].
Qed.

Lemma squeeze_true (s : str) :
  squeeze true s = squeeze false (dropwhile isspace s).
Proof.
  induction s as [|c s IH]; simpl; [reflexivity|].
  destruct (isspace c) eqn:E; [exact IH | simpl; rewrite E; reflexivity].
Qed.

(** The repetition of [\s], followed by nothing, reads the whole run. *)
Lemma star_ws_loop
  (body : mstate -> (mstate -> option mstate) -> option mstate)
  (fuel : nat) (st : mstate) :
  (forall st k,
      body st k
      = match m_rest st with
        | c :: rest => if isspace c then k (advance st rest) else None
        | [] => None
        end) ->
  length (m_rest st) < fuel ->
  exists n,
    star_loop body (fun st => Some st) fuel st
    = Some {| m_pos := m_pos st + n;
              m_rest := dropwhile isspace (m_rest st);
              m_groups := m_groups st |}.
Proof.
  intros Hbody.
  revert st; induction fuel as [|fuel IH]; intros [pos rest gs] H;
    [simpl in H; lia|].
  cbn [star_loop]. rewrite Hbody. cbn [m_rest m_pos m_groups].
  destruct rest as [|c rest].
  - exists 0. rewrite Nat.add_0_r. reflexivity.
  - destruct (isspace c) eqn:E.
    + unfold advance. cbn [m_rest m_pos m_groups].
      assert (Hlt : (pos <? S pos) = true) by (apply Nat.ltb_lt; lia).
      rewrite Hlt.
      destruct (IH {| m_pos := S pos; m_rest := rest; m_groups := gs |})
        as [n Hn]; [simpl in *; lia|].
      cbn [m_rest m_pos m_groups] in Hn. rewrite Hn.
      exists (S n). cbn [dropwhile]. rewrite E.
      rewrite Nat.add_succ_r. reflexivity.
    + exists 0. cbn [dropwhile]. rewrite E, Nat.add_0_r. reflexivity.
Qed.

Lemma match_plus_ws (pos : nat) (c : char) (s : str) :
  match_at (Plus Ws) pos (c :: s)
  = if isspace c
    then match_at (Star Ws) (S pos) s
    else None.
Proof.
  unfold match_at, Plus, Ws. simpl. destruct (isspace c); reflexivity.
Qed.

Lemma match_star_ws (pos : nat) (s : str) :
  exists n,
    match_at (Star Ws) pos s
    = Some {| m_pos := pos + n; m_rest := dropwhile isspace s;
              m_groups := [] |}.
Proof.
  unfold match_at, Ws. cbn [rmatch].
  destruct (star_ws_loop (rmatch (Chr isspace)) (S (length s))
              (start_at pos s)) as [n Hn];
    [reflexivity | simpl; lia |].
  exists n. exact Hn.
Qed.

Lemma sub_loop_ws (fuel pos : nat) (s : str) :
  length s < fuel ->
  sub_loop (Plus Ws) (fun _ => py " ") fuel pos s = squeeze false s.
Proof.
  revert pos s; induction fuel as [|fuel IH]; intros pos s H; [lia|].
  destruct s as [|c s].
  - reflexivity.
  - cbn [sub_loop]. rewrite match_plus_ws. cbn [squeeze].
    destruct (isspace c) eqn:E.
    + destruct (match_star_ws (S pos) s) as [n Hn]. rewrite Hn.
      cbn [m_pos m_rest].
      assert (Hlt : (pos <? S pos + n) = true) by (apply Nat.ltb_lt; lia).
      rewrite Hlt. rewrite squeeze_true.
      change (py " ") with [32%N]. simpl app. f_equal.
      apply IH. pose proof (dropwhile_length isspace s). simpl in H. lia.
    + f_equal. apply IH. simpl in H. lia.
Qed.

(** [re.sub(r'\s+', ' ', s)] *)
Lemma re_sub_ws (s : str) : re_sub (Plus Ws) (py " ") s = squeeze false s.
Proof. apply sub_loop_ws. lia. Qed.

(** No white space but single blanks; [prev_ws] says that the code
    point before was white space. *)
Fixpoint tidy (prev_ws : bool) (s : str) : Prop :=
  match s with
  | [] => True
  | c :: s' =>
      if isspace c then c = 32%N /\ prev_ws = false /\ tidy true s'
      else tidy false s'
  end.

Lemma squeeze_tidy (b : bool) (s : str) : tidy b (squeeze b s).
Proof.
  revert b; induction s as [|c s IH]; intros b; simpl; [exact I|].
  destruct (isspace c) eqn:E.
  - destruct b; [apply IH|]. simpl.
    change (isspace 32) with true. cbv iota. auto.
  - simpl. rewrite E. apply IH.
Qed.

Lemma squeeze_fixed (b : bool) (s : str) : tidy b s -> squeeze b s = s.
Proof.
  revert b; induction s as [|c s IH]; intros b H; simpl in *;
    [reflexivity|].
  destruct (isspace c).
  - destruct H as (-> & -> & H). rewrite (IH _ H). reflexivity.
  - rewrite (IH _ H). reflexivity.
Qed.

Lemma tidy_weaken (b : bool) (s : str) : tidy b s -> tidy false s.
Proof.
  destruct s as [|c s]; simpl; [auto|].
  destruct (isspace c); [|auto]. intros (-> & _ & H). auto.
Qed.

Lemma tidy_prefix (b : bool) (x y : str) : tidy b (x ++ y) -> tidy b x.
Proof.
  revert b; induction x as [|c x IH]; intros b; simpl; [auto|].
  destruct (isspace c).
  - intros (-> & -> & H). repeat split. eapply IH; eassumption.
  - apply IH.
Qed.

Lemma tidy_suffix (b : bool) (x y : str) : tidy b (x ++ y) -> tidy false y.
Proof.
  revert b; induction x as [|c x IH]; intros b; simpl.
  - apply tidy_weaken.
  - destruct (isspace c).
    + intros (_ & _ & H). eapply IH; eassumption.
    + apply IH.
Qed.

Lemma strip_prefix_suffix (s : str) :
  exists pre post, s = pre ++ strip s ++ post.
Proof.
  unfold strip, strip_by, rstrip_by, lstrip_by.
  destruct (dropwhile_suffix isspace s) as [pre Hpre].
  destruct (dropwhile_suffix isspace (rev (dropwhile isspace s)))
    as [post Hpost].
  exists pre, (rev post).
  rewrite <- rev_app_distr, <- Hpost, rev_involutive. exact Hpre.
Qed.

Lemma tidy_strip (b : bool) (s : str) : tidy b s -> tidy false (strip s).
Proof.
  intros H. destruct (strip_prefix_suffix s) as (pre & post & E).
  rewrite E in H. apply tidy_suffix in H. eapply tidy_prefix; eassumption.
Qed.

Lemma strip_idem (s : str) : strip (strip s) = strip s.
Proof.
  unfold strip, strip_by, rstrip_by, lstrip_by.
  set (a := dropwhile isspace s).
  set (b := dropwhile isspace (rev a)).
  assert (Hb : dropwhile isspace (rev b) = rev b).
  { destruct (dropwhile_suffix isspace (rev a)) as [pre Hpre].
    fold b in Hpre.
    assert (Ha : a = rev b ++ rev pre).
    { rewrite <- rev_app_distr, <- Hpre, rev_involutive. reflexivity. }
    destruct (rev b) as [|x r] eqn:Er; [reflexivity|].
    simpl in Ha. unfold a in Ha. apply dropwhile_head in Ha.
    simpl. rewrite Ha. reflexivity. }
  rewrite Hb, rev_involutive. unfold b. rewrite dropwhile_idem.
  reflexivity.
Qed.

(** White space once normalized stays as it is. *)
Lemma normalize_ws_idem (s : str) :
  let n x := strip (re_sub (Plus Ws) (py " ") x) in n (n s) = n s.
Proof.
  simpl. rewrite !re_sub_ws.
  rewrite (squeeze_fixed false (strip (squeeze false s))).
  - apply strip_idem.
  - eapply tidy_strip. apply squeeze_tidy.
Qed.

Lemma remove_boilerplate_no_match (L : pylib) (u : str) :
  existsb (fun p => matched (re_search p u)) (BOILERPLATE_PATTERNS L)
  = false ->
  remove_boilerplate L u = u.
Proof.
  unfold remove_boilerplate.
  induction (BOILERPLATE_PATTERNS L) as [|p ps IH]; simpl;
    [reflexivity|].
  intros H. apply orb_false_iff in H. destruct H as [Hp Hps].
  rewrite (re_sub_no_match p (py " ") u Hp). apply IH. exact Hps.
Qed.

(** The normalized texts that hold nothing the normalizer would take
    away: no ampersand, no tag and no boilerplate. *)
Definition settled (L : pylib) (u : str) : bool :=
  negb (contains u (py "&"))
  && negb (matched (re_search TAG_PATTERN u))
  && negb (existsb (fun p => matched (re_search p u))
             (BOILERPLATE_PATTERNS L)).

(** C4, as amended.  Normalizing a normalized text changes nothing when
    the normalized text itself holds no ampersand, no tag and no
    boilerplate phrase. *)
Theorem clean_html_text_idempotent_when_settled (L : pylib) (t : str) :
  settled L (clean_html_text L t) = true ->
  clean_html_text L (clean_html_text L t) = clean_html_text L t.
Proof.
  intros H. unfold settled in H.
  apply andb_true_iff in H. destruct H as [H Hb].
  apply andb_true_iff in H. destruct H as [Ha Ht].
  apply negb_true_iff in Ha, Ht, Hb.
  set (u := clean_html_text L t) in *.
  unfold clean_html_text at 1.
  destruct (nonempty u) eqn:Eu; simpl negb; cbv iota.
  - unfold unescape. rewrite Ha.
    rewrite (re_sub_no_match TAG_PATTERN (py " ") u Ht).
    rewrite (remove_boilerplate_no_match L u Hb).
    unfold u, clean_html_text.
    destruct (negb (nonempty t)); [reflexivity|].
    apply normalize_ws_idem.
  - destruct u; [reflexivity | discriminate].
Qed.

Lemma clean_html_text_idempotent_when_settled_witness :
  settled latin1_library
    (clean_html_text latin1_library (py "<b>Rate</b>   the  course"))
  = true
  /\ clean_html_text latin1_library
       (clean_html_text latin1_library (py "<b>Rate</b>   the  course"))
     = clean_html_text latin1_library (py "<b>Rate</b>   the  course").
Proof.
  split.
  - vm_compute. reflexivity.
  - apply (clean_html_text_idempotent_when_settled latin1_library
             (py "<b>Rate</b>   the  course")).
    vm_compute. reflexivity.
Defined.

(** C4, as stated, fails: the text below is normalized to
    [RESPONSE NEEDED], which is boilerplate and is normalized to the
    empty text, in every library. *)
Lemma clean_html_text_not_idempotent :
  ~ (exists L,
        clean_html_text L
          (clean_html_text L (py "RESPONSE RESPONSE NEEDED NEEDED"))
        = clean_html_text L (py "RESPONSE RESPONSE NEEDED NEEDED")).
Proof. intros [L H]. vm_compute in H. discriminate. Qed.

(** ** Dictionaries *)

Section DictProperties.

Context {V : Type}.

Lemma dict_mem_in (d : dict V) (k : str) :
  dict_mem d k = true <-> In k (keys d).
Proof.
  unfold dict_mem, keys. induction d as [|[k' v] d IH]; simpl.
  - split; [discriminate | tauto].
  - destruct (str_eqb k k') eqn:E.
    + apply str_eqb_eq in E. subst. simpl. tauto.
    + apply str_eqb_neq in E. rewrite IH. split; [tauto|].
      intros [H | H]; [congruence | exact H].
Qed.

Lemma dict_mem_not_in (d : dict V) (k : str) :
  dict_mem d k = false <-> ~ In k (keys d).
Proof.
  rewrite <- dict_mem_in. destruct (dict_mem d k).
  - split; [discriminate | intros H; exfalso; apply H; reflexivity].
  - split; [intros _; discriminate | reflexivity].
Qed.

Lemma keys_dict_set (d : dict V) (k : str) (v : V) :
  keys (dict_set d k v) = if dict_mem d k then keys d else keys d ++ [k].
Proof.
  unfold dict_mem, keys. induction d as [|[k' v'] d IH]; simpl;
    [reflexivity|].
  destruct (str_eqb k k') eqn:E; simpl; [reflexivity|].
  rewrite IH. destruct (dict_get d k); reflexivity.
Qed.

Lemma in_dict_set (d : dict V) (k : str) (v : V) (e : str * V) :
  In e (dict_set d k v) -> e = (k, v) \/ In e d.
Proof.
  induction d as [|[k' v'] d IH]; simpl.
  - intros [<- | []]. left; reflexivity.
  - destruct (str_eqb k k') eqn:E; simpl.
    + apply str_eqb_eq in E. subst k'. intros [<- | H]; tauto.
    + intros [<- | H]; [tauto|]. destruct (IH H); tauto.
Qed.

Lemma dict_get_in (d : dict V) (k : str) (v : V) :
  dict_get d k = Some v -> In (k, v) d.
Proof.
  induction d as [|[k' v'] d IH]; simpl; [discriminate|].
  destruct (str_eqb k k') eqn:E.
  - apply str_eqb_eq in E. subst k'. intros [= ->]. left; reflexivity.
  - intros H. right. apply IH. exact H.
Qed.

Lemma nodup_keys_dict_set (d : dict V) (k : str) (v : V) :
  NoDup (keys d) -> NoDup (keys (dict_set d k v)).
Proof.
  intros H. rewrite keys_dict_set. destruct (dict_mem d k) eqn:E;
    [exact H|].
  apply dict_mem_not_in in E.
  apply NoDup_rev in H. rewrite <- (rev_involutive (keys d ++ [k])).
  apply NoDup_rev. rewrite rev_app_distr. simpl. constructor; [|exact H].
  intros Hin. apply in_rev in Hin. auto.
Qed.

End DictProperties.

(** ** The columns of a question *)

(** The invariant of a question while the columns are read: the order
    of its columns is the list of the keys of its column headers, free
    of duplicates; its rows have distinct keys; and the key of every
    cell bound so far is in the order. *)
Definition columns_recorded (q : question) : Prop :=
  NoDup (q_col_order q)
  /\ keys (q_col_headers q) = q_col_order q
  /\ NoDup (keys (q_rows q))
  /\ forall r label cells c,
       In (r, RowCells label cells) (q_rows q) ->
       In c (keys cells) -> In c (q_col_order q).

Definition all_recorded (questions : dict question) : Prop :=
  forall id q, In (id, q) questions -> columns_recorded q.

Lemma recorded_ext (q q' : question) :
  q_col_order q' = q_col_order q ->
  q_col_headers q' = q_col_headers q ->
  q_rows q' = q_rows q ->
  columns_recorded q -> columns_recorded q'.
Proof.
  unfold columns_recorded. intros -> -> ->. tauto.
Qed.

Lemma recorded_new (base_q text internal_type : str) (info : qsf_info) :
  columns_recorded (new_question base_q text internal_type info).
Proof.
  unfold columns_recorded. simpl.
  repeat split; try constructor. intros r label cells c [].
Qed.

Lemma recorded_add_column (q : question) (c label : str) :
  columns_recorded q ->
  columns_recorded (add_column q c label)
  /\ In c (q_col_order (add_column q c label))
  /\ q_rows (add_column q c label) = q_rows q
  /\ (forall x, In x (q_col_order q) ->
                In x (q_col_order (add_column q c label))).
Proof.
  intros (Hnd & Hk & Hr & Hc). unfold add_column.
  destruct (dict_mem (q_col_headers q) c) eqn:E.
  - repeat split; auto.
    rewrite <- Hk. apply dict_mem_in. exact E.
  - assert (Hnew : ~ In c (q_col_order q)).
    { rewrite <- Hk. apply dict_mem_not_in. exact E. }
    unfold columns_recorded. simpl.
    rewrite keys_dict_set, E, Hk.
    repeat split; auto.
    + apply NoDup_rev in Hnd. rewrite <- (rev_involutive (_ ++ [c])).
      apply NoDup_rev. rewrite rev_app_distr. simpl.
      constructor; [|exact Hnd]. intros Hin. apply in_rev in Hin. auto.
    + intros r label' cells x Hin Hx. apply in_or_app. left.
      eapply Hc; eassumption.
    + apply in_or_app. right. left. reflexivity.
    + intros x Hx. apply in_or_app. left. exact Hx.
Qed.

Lemma set_cell_rows (rows rows' : dict row_info) (r label c : str)
  (x : cell) :
  set_cell rows r label c x = Ok rows' ->
  (NoDup (keys rows) -> NoDup (keys rows'))
  /\ forall r0 l0 cells0 c0,
       In (r0, RowCells l0 cells0) rows' -> In c0 (keys cells0) ->
       c0 = c
       \/ exists l1 cells1,
            In (r0, RowCells l1 cells1) rows /\ In c0 (keys cells1).
Proof.
  unfold set_cell.
  set (rows1 := if dict_mem rows r then rows
                else dict_set rows r (RowCells label [])).
  destruct (dict_get rows1 r) as [[id l | l cells]|] eqn:G;
    try discriminate.
  intros [= <-]. split.
  - intros H. apply nodup_keys_dict_set. unfold rows1.
    destruct (dict_mem rows r); [exact H|].
    apply nodup_keys_dict_set. exact H.
  - intros r0 l0 cells0 c0 Hin Hc0.
    assert (Hold : forall r2 l2 cells2,
               In (r2, RowCells l2 cells2) rows1 -> In c0 (keys cells2) ->
               exists l1 cells1,
                 In (r2, RowCells l1 cells1) rows /\ In c0 (keys cells1)).
    { intros r2 l2 cells2 H2 Hc2. unfold rows1 in H2.
      destruct (dict_mem rows r).
      - exists l2, cells2. split; assumption.
      - apply in_dict_set in H2. destruct H2 as [[= -> -> ->] | H2].
        + destruct Hc2.
        + exists l2, cells2. split; assumption. }
    apply in_dict_set in Hin. destruct Hin as [[= -> -> ->] | Hin].
    + rewrite keys_dict_set in Hc0.
      destruct (dict_mem cells c).
      * right. apply dict_get_in in G. eapply Hold; eassumption.
      * apply in_app_or in Hc0. destruct Hc0 as [Hc0 | [<- | []]];
          [|left; reflexivity].
        right. apply dict_get_in in G. eapply Hold; eassumption.
    + right. eapply Hold; eassumption.
Qed.

(** The invariant but for one column key, which a cell may hold before
    the column is recorded. *)
Definition recorded_but (c : str) (q : question) : Prop :=
  NoDup (q_col_order q)
  /\ keys (q_col_headers q) = q_col_order q
  /\ NoDup (keys (q_rows q))
  /\ forall r label cells c0,
       In (r, RowCells label cells) (q_rows q) ->
       In c0 (keys cells) -> c0 = c \/ In c0 (q_col_order q).

Lemma recorded_set_cell (q : question) (rows' : dict row_info)
  (r label c : str) (x : cell) :
  columns_recorded q ->
  set_cell (q_rows q) r label c x = Ok rows' ->
  recorded_but c (set_rows q rows').
Proof.
  intros (Hnd & Hk & Hr & Hc) H.
  destruct (set_cell_rows _ _ _ _ _ _ H) as [Hrows Hcells].
  unfold recorded_but. simpl. repeat split; auto.
  intros r0 l0 cells0 c0 Hin Hc0.
  destruct (Hcells r0 l0 cells0 c0 Hin Hc0) as [-> | (l1 & cells1 & H1 & H2)];
    [left; reflexivity|].
  right. eapply Hc; eassumption.
Qed.

Lemma recorded_but_add_column (q : question) (c label : str) :
  recorded_but c q -> columns_recorded (add_column q c label).
Proof.
  intros (Hnd & Hk & Hr & Hc). unfold add_column.
  destruct (dict_mem (q_col_headers q) c) eqn:E.
  - assert (Hin : In c (q_col_order q)).
    { rewrite <- Hk. apply dict_mem_in. exact E. }
    unfold columns_recorded. repeat split; auto.
    intros r l cells c0 H1 H2.
    destruct (Hc r l cells c0 H1 H2) as [-> | H3]; assumption.
  - assert (Hnew : ~ In c (q_col_order q)).
    { rewrite <- Hk. apply dict_mem_not_in. exact E. }
    unfold columns_recorded. simpl.
    rewrite keys_dict_set, E, Hk. repeat split; auto.
    + apply NoDup_rev in Hnd. rewrite <- (rev_involutive (_ ++ [c])).
      apply NoDup_rev. rewrite rev_app_distr. simpl.
      constructor; [|exact Hnd]. intros Hin. apply in_rev in Hin. auto.
    + intros r l cells c0 H1 H2. apply in_or_app.
      destruct (Hc r l cells c0 H1 H2) as [-> | H3];
        [right; left; reflexivity | left; exact H3].
Qed.

Lemma recorded_but_relabel (q : question) (c label : str) :
  recorded_but c q ->
  dict_mem (q_col_headers q) c = true ->
  columns_recorded q
  /\ columns_recorded
       (set_cols q (dict_set (q_col_headers q) c label) (q_col_order q)).
Proof.
  intros (Hnd & Hk & Hr & Hc) E.
  assert (Hin : In c (q_col_order q)).
  { rewrite <- Hk. apply dict_mem_in. exact E. }
  assert (Hcells : forall r l cells c0,
             In (r, RowCells l cells) (q_rows q) ->
             In c0 (keys cells) -> In c0 (q_col_order q)).
  { intros r l cells c0 H1 H2.
    destruct (Hc r l cells c0 H1 H2) as [-> | H3]; assumption. }
  split; unfold columns_recorded; simpl; repeat split; auto.
  rewrite keys_dict_set, E. exact Hk.
Qed.

Lemma recorded_bind_cell (q q' : question) (r c col_id rl cl : str) :
  columns_recorded q ->
  bind_cell q r c col_id rl cl = Ok q' -> columns_recorded q'.
Proof.
  intros Hq. unfold bind_cell.
  destruct (set_cell (q_rows q) r rl c _) as [rows'|e] eqn:E; simpl;
    [|discriminate].
  intros [= <-]. apply recorded_but_add_column.
  eapply recorded_set_cell; eassumption.
Qed.

Lemma recorded_bind_item (q : question) (r col_id label : str) :
  columns_recorded q -> columns_recorded (bind_item q r col_id label).
Proof.
  intros (Hnd & Hk & Hr & Hc). unfold bind_item, add_item.
  destruct (dict_mem (q_rows q) r) eqn:E.
  - unfold columns_recorded. simpl. repeat split; auto.
  - unfold columns_recorded. simpl. repeat split; auto.
    + apply nodup_keys_dict_set. exact Hr.
    + intros r0 l0 cells0 c0 Hin Hc0. apply in_dict_set in Hin.
      destruct Hin as [[=] | Hin]. eapply Hc; eassumption.
Qed.

Lemma recorded_relabel_row (q : question) (k label : str) (r : row_info) :
  columns_recorded q ->
  dict_get (q_rows q) k = Some r ->
  columns_recorded
    (set_rows q (dict_set (q_rows q) k (set_row_label r label))).
Proof.
  intros (Hnd & Hk & Hr & Hc) G.
  unfold columns_recorded. simpl. repeat split; auto.
  - apply nodup_keys_dict_set. exact Hr.
  - intros r0 l0 cells0 c0 Hin Hc0. apply in_dict_set in Hin.
    destruct Hin as [[= -> Hrow] | Hin]; [|eapply Hc; eassumption].
    apply dict_get_in in G. destruct r as [id l | l cells]; simpl in Hrow;
      [discriminate|].
    injection Hrow as <- <-. eapply Hc; eassumption.
Qed.

Lemma all_recorded_set (questions : dict question) (k : str)
  (q : question) :
  all_recorded questions -> columns_recorded q ->
  all_recorded (dict_set questions k q).
Proof.
  intros H Hq id q0 Hin. apply in_dict_set in Hin.
  destruct Hin as [[= -> ->] | Hin]; [exact Hq|]. eapply H; eassumption.
Qed.

Lemma all_recorded_get (questions : dict question) (k : str)
  (q : question) :
  all_recorded questions -> dict_get questions k = Some q ->
  columns_recorded q.
Proof. intros H G. apply dict_get_in in G. eapply H; eassumption. Qed.

Lemma Ok_inj {A : Type} (a b : A) : Ok a = Ok b -> a = b.
Proof. intros [= ->]. reflexivity. Qed.

Lemma foldM_invariant {A S : Type} (P : S -> Prop)
  (f : S -> A -> result S) (l : list A) (s s' : S) :
  (forall s a s', P s -> f s a = Ok s' -> P s') ->
  P s -> foldM f l s = Ok s' -> P s'.
Proof.
  intros Hf. revert s; induction l as [|a l IH]; intros s Hs; simpl.
  - intros [= <-]. exact Hs.
  - destruct (f s a) as [s1|e] eqn:E; simpl; [|discriminate].
    apply IH. eapply Hf; eassumption.
Qed.

Ltac recorded_fields :=
  match goal with
  | |- columns_recorded (set_type ?q _) =>
      apply (recorded_ext q); [reflexivity .. |]
  | |- columns_recorded (set_text ?q _) =>
      apply (recorded_ext q); [reflexivity .. |]
  | |- columns_recorded (set_columns ?q _) =>
      apply (recorded_ext q); [reflexivity .. |]
  | |- columns_recorded (bind_item _ _ _ _) => apply recorded_bind_item
  | |- columns_recorded (if ?b then _ else _) => destruct b
  end.

Ltac branch :=
  match goal with
  | H : Ok _ = Ok _ |- _ => injection H as <-
  | H : Raise _ = Ok _ |- _ => discriminate H
  | H : bind_cell _ _ _ _ _ _ = Ok _ |- _ =>
      apply recorded_bind_cell in H; [exact H|]
  | H : (if ?b then _ else _) = Ok _ |- _ => destruct b eqn:?
  | H : (let '(_, _) := ?x in _) = Ok _ |- _ => destruct x eqn:?
  end.

Lemma with_qsf_step_recorded (L : pylib) (meta : dict qsf_question)
  (questions questions' : dict question) (column : str * value) :
  all_recorded questions ->
  with_qsf_step L meta questions column = Ok questions' ->
  all_recorded questions'.
Proof.
  intros Hall. unfold with_qsf_step. destruct column as [col_id col_text].
  destruct (skipped_column col_id); [intros [= <-]; exact Hall|].
  match goal with
  | |- match ?n with _ => _ end = _ -> _ => destruct n as [name|]
  end; [|intros [= <-]; exact Hall].
  cbv zeta.
  match goal with
  | |- (if ?b then _ else _) = _ -> _ => destruct b
  end; [intros [= <-]; exact Hall|].
  set (base_q := py "Q" ++ base_number name).
  set (info := dict_get meta base_q).
  set (questions1 := if dict_mem questions base_q then questions else _).
  assert (H1 : all_recorded questions1).
  { unfold questions1. destruct (dict_mem questions base_q); [exact Hall|].
    apply all_recorded_set; [exact Hall | apply recorded_new]. }
  destruct (dict_get questions1 base_q) as [q|] eqn:G; [|discriminate].
  pose proof (all_recorded_get _ _ _ H1 G) as Hq.
  match goal with
  | |- bind ?m _ = _ -> _ => destruct m as [q'|e] eqn:B
  end; simpl; [|discriminate].
  intros [= <-]. apply all_recorded_set; [exact H1|].
  destruct (extract_matrix_labels L col_text) as [[base row_csv] col_csv].
  repeat branch; repeat recorded_fields; exact Hq.
Qed.

Lemma from_csv_step_recorded (L : pylib)
  (questions questions' : dict question) (column : str * value) :
  all_recorded questions ->
  from_csv_step L questions column = Ok questions' ->
  all_recorded questions'.
Proof.
  intros Hall. unfold from_csv_step. destruct column as [col_id col_text].
  destruct (skipped_column col_id); [intros [= <-]; exact Hall|].
  destruct (re_match (COLUMN_ID L) col_id) as [st|];
    [|intros [= <-]; exact Hall].
  cbv zeta.
  match goal with
  | |- (if ?b then _ else _) = _ -> _ => destruct b
  end; [intros [= <-]; exact Hall|].
  destruct (extract_matrix_labels L col_text) as [[base_text row_lbl] col_lbl].
  set (name := four_groups st).
  set (base_q := py "Q" ++ base_number name).
  set (questions1 := if dict_mem questions base_q then questions else _).
  assert (H1 : all_recorded questions1).
  { unfold questions1. destruct (dict_mem questions base_q); [exact Hall|].
    apply all_recorded_set; [exact Hall | apply recorded_new]. }
  destruct (dict_get questions1 base_q) as [q|] eqn:G; [|discriminate].
  pose proof (all_recorded_get _ _ _ H1 G) as Hq.
  set (q1 := set_columns _ _).
  assert (Hq1 : columns_recorded q1).
  { unfold q1. repeat recorded_fields; exact Hq. }
  clearbody q1.
  match goal with
  | |- bind ?m _ = _ -> _ => destruct m as [q'|e] eqn:B
  end; simpl; [|discriminate].
  intros [= <-]. apply all_recorded_set; [exact H1|].
  destruct (truthy (sub1 name) && truthy (sub2 name)).
  - set (q0 := set_type q1 matrix) in *.
    assert (Hq0 : columns_recorded q0).
    { unfold q0. recorded_fields. exact Hq1. }
    clearbody q0.
    match type of B with
    | bind (set_cell ?rows _ _ _ _) _ = _ => set (rows2 := rows) in B
    end.
    assert (Hq2 : columns_recorded (set_rows q0 rows2)).
    { unfold rows2.
      destruct (dict_get (q_rows q0) (the (sub1 name))) as [r|] eqn:Gr.
      - destruct (negb _).
        + apply recorded_relabel_row; assumption.
        + apply (recorded_ext q0); try reflexivity. exact Hq0.
      - apply (recorded_ext q0); try reflexivity. exact Hq0. }
    clearbody rows2.
    destruct (set_cell rows2 _ _ _ _) as [rows'|e] eqn:Ec;
      unfold bind in B; [|discriminate].
    apply Ok_inj in B. subst q'.
    pose proof (recorded_set_cell (set_rows q0 rows2) _ _ _ _ _ Hq2 Ec)
      as Hbut.
    change (set_rows (set_rows q0 rows2) rows') with (set_rows q0 rows')
      in Hbut.
    destruct (dict_mem (q_col_headers (set_rows q0 rows'))
                (the (sub2 name))) eqn:Em;
      [change (negb true) with false | change (negb false) with true];
      cbv iota.
    + destruct (recorded_but_relabel _ _ (label_or col_lbl
                  (py "Column " ++ the (sub2 name))) Hbut Em) as [Ha Hb].
      destruct (negb _); assumption.
    + apply recorded_but_add_column. exact Hbut.
  - destruct (truthy (sub1 name)); injection B as <-;
      repeat recorded_fields; exact Hq1.
Qed.

(** C9.  Whichever way the columns are read, with the definition file
    or without it, in every question of the result the order of the
    columns lists the keys of the column headers, each once; it holds
    the key of every cell that was bound; and no row key occurs twice
    among the rows. *)
Theorem extraction_records_each_column_once
  (L : pylib) (columns : list str) (texts : list value)
  (qsf_metadata : dict qsf_question) (questions : dict question) :
  extract_questions_with_qsf L columns texts qsf_metadata = Ok questions
  \/ extract_questions_from_csv L columns texts = Ok questions ->
  forall id q,
    In (id, q) questions ->
    NoDup (q_col_order q)
    /\ keys (q_col_headers q) = q_col_order q
    /\ NoDup (keys (q_rows q))
    /\ forall r label cells c,
         In (r, RowCells label cells) (q_rows q) ->
         In c (keys cells) -> In c (q_col_order q).
Proof.
  intros H.
  assert (Hall : all_recorded questions).
  { destruct H as [H | H].
    - eapply (foldM_invariant all_recorded); [| |exact H].
      + intros s a s'. apply with_qsf_step_recorded.
      + intros id q [].
    - eapply (foldM_invariant all_recorded); [| |exact H].
      + intros s a s'. apply from_csv_step_recorded.
      + intros id q []. }
  exact Hall.
Qed.

Lemma extraction_records_each_column_once_witness :
  exists questions q,
    extract_questions_from_csv latin1_library
      (map py ["Q3_1_1"; "Q3_1_2"; "Q3_2_1"; "Q3_2_2"])
      (map (fun s => Some (py s))
         ["Rate - Speed - Good"; "Rate - Speed - Bad";
          "Rate - Cost - Good"; "Rate - Cost - Bad"])
    = Ok questions
    /\ In (py "Q3", q) questions
    /\ q_type q = matrix
    /\ q_col_order q = [py "1"; py "2"]
    /\ (NoDup (q_col_order q)
        /\ keys (q_col_headers q) = q_col_order q
        /\ NoDup (keys (q_rows q))
        /\ forall r label cells c,
             In (r, RowCells label cells) (q_rows q) ->
             In c (keys cells) -> In c (q_col_order q)).
Proof.
  eexists. eexists.
  split; [vm_compute; reflexivity|].
  match goal with
  | |- In _ ?qs /\ _ =>
      assert (E : extract_questions_from_csv latin1_library
                    (map py ["Q3_1_1"; "Q3_1_2"; "Q3_2_1"; "Q3_2_2"])
                    (map (fun s => Some (py s))
                       ["Rate - Speed - Good"; "Rate - Speed - Bad";
                        "Rate - Cost - Good"; "Rate - Cost - Bad"])
                  = Ok qs) by (vm_compute; reflexivity)
  end.
  split; [left; reflexivity|].
  split; [reflexivity|].
  split; [vm_compute; reflexivity|].
  apply (extraction_records_each_column_once latin1_library _ _ [] _
           (or_intror E) (py "Q3")).
  left. reflexivity.
Defined.

(** ** The layout of a grouped question *)

Definition is_data_table (h : html) : bool :=
  startswith h (py "<table class='data-table'>").

Definition is_checkmark_table (h : html) : bool :=
  startswith h (py "<table class='grouped-table'>").

(** A grouped question with three items. *)
Definition three_items : question :=
  {| q_id := py "Q2"; q_text := py "Favourite colour"; q_type := grouped;
     q_internal_type := py "unknown"; q_qsf_type := JStr []; q_selector := JStr [];
     q_columns := map py ["Q2_1"; "Q2_2"; "Q2_3"];
     q_rows := [(py "1", RowItem (py "Q2_1") (py "Walls"));
                (py "2", RowItem (py "Q2_2") (py "Doors"));
                (py "3", RowItem (py "Q2_3") (py "Floor"))];
     q_col_headers := []; q_col_order := []; q_qsf_info := None |}.

Definition three_values (a b c : value) : row :=
  [(py "Q2_1", a); (py "Q2_2", b); (py "Q2_3", c)].

(** What a respondent can give an item of the question of the claim. *)
Inductive pick : Type := Red | Blue | blank.

Definition pick_value (p : pick) : value :=
  match p with
  | Red => Some (py "Red")
  | Blue => Some (py "Blue")
  | blank => None
  end.

Definition is_red (p : pick) : bool :=
  match p with Red => true | _ => false end.

Definition is_blue (p : pick) : bool :=
  match p with Blue => true | _ => false end.

Lemma data_table_analyse (L : pylib) (items : list item) (q_text : str) :
  _format_as_data_table L (map (analyse L) items) q_text
  = _format_as_data_table L items q_text.
Proof.
  unfold _format_as_data_table. f_equal.
  induction items as [|it items IH]; simpl; [reflexivity|].
  rewrite IH. reflexivity.
Qed.

Lemma many_tokens_no_checkmark (items : list item) (sel : list str) :
  10 < length sel -> use_checkmark_table items sel = false.
Proof.
  intros H. unfold use_checkmark_table.
  assert (E : (length sel <=? 10) = false) by (apply Nat.leb_gt; exact H).
  rewrite E, andb_false_r. reflexivity.
Qed.

(** More than ten tokens: the data table. *)
Lemma many_tokens_data_table (L : pylib) (q : question) (r : row)
  (order : list str) :
  nonempty (q_rows q) = true ->
  sorted_rows L (q_rows q) = Ok order ->
  nonempty (collect_items (q_rows q) r order) = true ->
  10 < length (all_selections_of
                 (map (analyse L) (collect_items (q_rows q) r order))) ->
  fst (format_grouped_response L r q)
  = _format_as_data_table L (collect_items (q_rows q) r order) (q_text q).
Proof.
  intros Hrows Hsort Hitems Hmany.
  unfold format_grouped_response, rbind, read, lift, ret.
  rewrite Hrows. cbn [negb andb]. rewrite Hsort.
  destruct (collect_items (q_rows q) r order) as [|it items] eqn:E;
    [discriminate|].
  destruct (values_are_numeric_data L _); [reflexivity|].
  destruct (values_are_unique_data L _); [reflexivity|].
  rewrite many_tokens_no_checkmark by exact Hmany.
  cbn [fst]. apply data_table_analyse.
Qed.

(** C1, as amended.  For the three items, whatever the respondent gave
    them of Red, Blue and nothing, if both tokens occur the answer is a
    data table and no checkmark matrix: two distinct values among at
    most three are unique data for [values_are_unique_data].  And
    whenever the values of the items that were filled yield more than
    ten tokens, the answer is the data table of these items. *)
Theorem grouped_layout_boundary (L : pylib) :
  (forall x y z : pick,
      existsb is_red [x; y; z] && existsb is_blue [x; y; z] = true ->
      exists h,
        fst (format_grouped_response L
               (three_values (pick_value x) (pick_value y) (pick_value z))
               three_items) = Ok h
        /\ is_data_table h = true /\ is_checkmark_table h = false)
  /\ (forall (q : question) (r : row) (order : list str),
         nonempty (q_rows q) = true ->
         sorted_rows L (q_rows q) = Ok order ->
         nonempty (collect_items (q_rows q) r order) = true ->
         10 < length (all_selections_of
                        (map (analyse L)
                           (collect_items (q_rows q) r order))) ->
         fst (format_grouped_response L r q)
         = _format_as_data_table L (collect_items (q_rows q) r order)
             (q_text q)).
Proof.
  split.
  - intros x y z H.
    destruct x, y, z; try discriminate H;
      (eexists; split; [vm_compute; reflexivity|];
       split; vm_compute; reflexivity).
  - apply many_tokens_data_table.
Qed.

Definition twelve_tokens : row :=
  three_values (Some (py "oak,elm,ash,fir")) (Some (py "red,tan,sky,jet"))
    (Some (py "cat,dog,cow,hen")).

Lemma grouped_layout_boundary_witness :
  (exists h,
      fst (format_grouped_response latin1_library
             (three_values (pick_value Red) (pick_value Blue)
                (pick_value Red)) three_items) = Ok h
      /\ is_data_table h = true /\ is_checkmark_table h = false)
  /\ length (all_selections_of
               (map (analyse latin1_library)
                  (collect_items (q_rows three_items) twelve_tokens
                     [py "1"; py "2"; py "3"]))) = 12
  /\ fst (format_grouped_response latin1_library twelve_tokens three_items)
     = _format_as_data_table latin1_library
         (collect_items (q_rows three_items) twelve_tokens
            [py "1"; py "2"; py "3"]) (q_text three_items).
Proof.
  split; [|split].
  - apply (proj1 (grouped_layout_boundary latin1_library) Red Blue Red).
    reflexivity.
  - vm_compute. reflexivity.
  - apply (proj2 (grouped_layout_boundary latin1_library) three_items
             twelve_tokens [py "1"; py "2"; py "3"]).
    + reflexivity.
    + vm_compute. reflexivity.
    + vm_compute. reflexivity.
    + vm_compute. repeat constructor.
Defined.

(** C1, as stated, fails on Red, Blue, Red: in no library is the answer
    a checkmark matrix. *)
Lemma red_blue_red_is_no_checkmark_table :
  ~ (exists L h,
        fst (format_grouped_response L
               (three_values (Some (py "Red")) (Some (py "Blue"))
                  (Some (py "Red"))) three_items) = Ok h
        /\ is_checkmark_table h = true).
Proof.
  intros (L & h & H & C). vm_compute in H. apply Ok_inj in H. subst h.
  vm_compute in C. discriminate.
Qed.

(** ** Rendering reads the question and leaves it as it is *)

Definition preserves {A : Type} (m : render A) : Prop :=
  forall q, snd (m q) = q.

Lemma preserves_ret {A : Type} (a : A) : preserves (ret a).
Proof. intros q. reflexivity. Qed.

Lemma preserves_lift {A : Type} (r : result A) : preserves (lift r).
Proof. intros q. reflexivity. Qed.

Lemma preserves_read {A : Type} (field : question -> A) :
  preserves (read field).
Proof. intros q. reflexivity. Qed.

Lemma preserves_bind {A B : Type} (m : render A) (f : A -> render B) :
  preserves m -> (forall a, preserves (f a)) -> preserves (rbind m f).
Proof.
  intros Hm Hf q. unfold rbind. specialize (Hm q).
  destruct (m q) as [[a|e] q']; simpl in Hm; subst q'.
  - apply Hf.
  - reflexivity.
Qed.

Lemma preserves_rmapM {A B : Type} (f : A -> render B) (l : list A) :
  (forall a, preserves (f a)) -> preserves (rmapM f l).
Proof.
  intros Hf. induction l as [|a l IH]; simpl.
  - apply preserves_ret.
  - apply preserves_bind; [apply Hf|]. intros b.
    apply preserves_bind; [exact IH|]. intros bs. apply preserves_ret.
Qed.

Create HintDb frame.

Ltac frame :=
  repeat first
    [ solve [auto with frame nocore]
    | apply preserves_ret
    | apply preserves_lift
    | apply preserves_read
    | apply preserves_bind; [|intro]
    | match goal with
      | |- preserves (if ?b then _ else _) => destruct b
      | |- preserves (match ?x with _ => _ end) => destruct x
      | |- preserves (let '(_, _) := ?x in _) => destruct x
      end ].

Section Frame.

Variable L : pylib.

Lemma format_grouped_response_preserves (r : row) :
  preserves (format_grouped_response L r).
Proof. unfold format_grouped_response. frame. Qed.

Hint Resolve format_grouped_response_preserves : frame.

Lemma format_matrix_response_preserves (r : row) :
  preserves (format_matrix_response L r).
Proof. unfold format_matrix_response. frame. Qed.

Lemma format_form_response_preserves (r : row) :
  preserves (format_form_response L r).
Proof. unfold format_form_response. frame. Qed.

Lemma format_single_response_preserves (r : row) :
  preserves (format_single_response L r).
Proof. unfold format_single_response. frame. Qed.

Hint Resolve format_matrix_response_preserves
  format_form_response_preserves format_single_response_preserves : frame.

Lemma format_response_preserves (r : row) :
  preserves (format_response L r).
Proof. unfold format_response. frame. Qed.

Hint Resolve format_response_preserves : frame.

Lemma question_card_preserves (respondents : list respondent)
  (debug_mode : bool) (q_id : str) :
  preserves (question_card L respondents debug_mode q_id).
Proof.
  unfold question_card, answered_by, question_meta. frame.
  apply preserves_rmapM. intros resp. frame.
Qed.

Lemma visit_preserves (respondents : list respondent) (debug_mode : bool)
  (qs : list (str * question)) :
  snd (visit L respondents debug_mode qs) = qs.
Proof.
  induction qs as [|[q_id q] qs IH]; simpl; [reflexivity|].
  pose proof (question_card_preserves respondents debug_mode q_id q) as H.
  destruct (question_card L respondents debug_mode q_id q) as [[parts|e] q'];
    simpl in H; subst q'; [|reflexivity].
  destruct (visit L respondents debug_mode qs) as [r rest'].
  simpl in IH. subst rest'. reflexivity.
Qed.

(** Rendering one after the other is rendering each alone. *)
Lemma rmapM_alone {A B : Type} (f : A -> render B) (l : list A)
  (q : question) :
  (forall a, preserves (f a)) ->
  rmapM f l q = (mapM (fun a => fst (f a q)) l, q).
Proof.
  intros Hf. induction l as [|a l IH]; simpl; [reflexivity|].
  unfold rbind. pose proof (Hf a q) as Ha.
  destruct (f a q) as [[b|e] q']; simpl in Ha; subst q'; simpl;
    [|reflexivity].
  rewrite IH. destruct (mapM _ l) as [bs|e]; reflexivity.
Qed.

End Frame.

(** C8.  Each of the four functions that render a response leaves the
    question it is given as it was; so does the whole report with every
    question of the table; and the fragments of a list of respondents
    rendered one after the other are the fragments of each respondent
    rendered alone, whatever the order of the list. *)
Theorem rendering_leaves_the_questions_unchanged (L : pylib) :
  (forall (r : row) (q : question),
      snd (format_matrix_response L r q) = q
      /\ snd (format_grouped_response L r q) = q
      /\ snd (format_form_response L r q) = q
      /\ snd (format_single_response L r q) = q)
  /\ (forall questions respondents debug_mode has_qsf,
         snd (generate_parts L questions respondents debug_mode has_qsf)
         = match sorted_questions L questions with
           | Ok sorted_qs => sorted_qs
           | Raise _ => questions
           end)
  /\ (forall (respondents : list respondent) (q : question),
         rmapM (fun resp => format_response L (resp_row resp)) respondents q
         = (mapM (fun resp => fst (format_response L (resp_row resp) q))
              respondents, q)).
Proof.
  split; [|split].
  - intros r q. repeat split.
    + apply format_matrix_response_preserves.
    + apply format_grouped_response_preserves.
    + apply format_form_response_preserves.
    + apply format_single_response_preserves.
  - intros questions respondents debug_mode has_qsf.
    unfold generate_parts.
    destruct (sorted_questions L questions) as [sorted_qs|e]; [|reflexivity].
    pose proof (visit_preserves L respondents debug_mode sorted_qs) as H.
    destruct (visit L respondents debug_mode sorted_qs) as [r after].
    exact H.
  - intros respondents q. apply rmapM_alone. intros resp.
    apply format_response_preserves.
Qed.

(** ** A matrix without answers *)

Section Matrix.

Variable L : pylib.

Lemma matrix_empty (r : row) (q : question) :
  existsb has_cells_key (values (q_rows q)) = true ->
  has_data (q_rows q) r = false ->
  format_matrix_response L r q = (Ok format_empty, q).
Proof.
  intros Hc Hd. unfold format_matrix_response, rbind, read, ret.
  rewrite Hc, Hd. reflexivity.
Qed.

Lemma matrix_grid (r : row) (q : question) :
  existsb has_cells_key (values (q_rows q)) = true ->
  has_data (q_rows q) r = true ->
  fst (format_matrix_response L r q)
  = (order <- sorted_rows L (q_rows q) ;;
     trs <- mapM (matrix_row L (q_text q) (q_rows q) (q_col_order q) r)
              order ;;
     Ok (matrix_head (q_col_headers q) (q_col_order q) ++ concat trs
         ++ py "</tbody></table>")).
Proof.
  intros Hc Hd. unfold format_matrix_response, rbind, read, ret, lift.
  rewrite Hc, Hd. cbn [negb].
  destruct (sorted_rows L (q_rows q)) as [order|e]; [|reflexivity].
  cbn [bind].
  destruct (mapM _ order) as [trs|e]; reflexivity.
Qed.

Lemma matrix_missing_cell (q_text : str) (cells : dict cell) (r : row)
  (col_key : str) :
  match dict_get cells col_key with
  | None => True
  | Some c => is_empty (row_get r (cell_id c)) = true
  end ->
  matrix_cell L q_text cells r col_key = Ok empty_cell.
Proof.
  unfold matrix_cell. destruct (dict_get cells col_key) as [c|];
    [|reflexivity].
  intros ->. reflexivity.
Qed.

Lemma mapM_ok {A B : Type} (f : A -> result B) (g : A -> B) (l : list A) :
  (forall a, In a l -> f a = Ok (g a)) -> mapM f l = Ok (map g l).
Proof.
  induction l as [|a l IH]; intros H; simpl; [reflexivity|].
  rewrite (H a (or_introl eq_refl)). simpl.
  rewrite IH; [reflexivity|]. intros b Hb. apply H. right. exact Hb.
Qed.

(** The card of a question: its head, what it holds, its foot. *)
Definition card_of (q_id : str) (debug_mode : bool) (q : question)
  (answered : nat) (body : list html) : list html :=
  card_head q_id
    (if debug_mode then
       py "<div class='question-meta'>type: " ++ shape_name (q_type q)
       ++ py " | internal: " ++ q_internal_type q ++ py " | cols: "
       ++ str_of_nat (length (q_columns q)) ++ py " | responses: "
       ++ str_of_nat answered ++ py "</div>"
     else []) (q_text q)
  :: body ++ [card_foot].

Lemma card_without_respondents (respondents : list respondent)
  (debug_mode : bool) (q_id : str) (q : question) :
  (forall resp, In resp respondents ->
                has_response q (resp_row resp) = false) ->
  fst (question_card L respondents debug_mode q_id q)
  = Ok (card_of q_id debug_mode q 0 [no_responses]).
Proof.
  intros H.
  assert (E : filter (fun resp => has_response q (resp_row resp))
                respondents = []).
  { induction respondents as [|resp rs IH]; simpl; [reflexivity|].
    rewrite (H resp (or_introl eq_refl)). apply IH.
    intros x Hx. apply H. right. exact Hx. }
  unfold question_card, answered_by, question_meta, rbind, read, ret.
  rewrite E. destruct debug_mode; reflexivity.
Qed.

Lemma card_of_empty_matrix (respondents : list respondent)
  (debug_mode : bool) (q_id : str) (q : question) :
  q_type q = matrix ->
  existsb has_cells_key (values (q_rows q)) = true ->
  (forall resp, In resp respondents ->
                has_data (q_rows q) (resp_row resp) = false) ->
  let answered :=
    filter (fun resp => has_response q (resp_row resp)) respondents in
  fst (question_card L respondents debug_mode q_id q)
  = Ok (card_of q_id debug_mode q (length answered)
          match answered with
          | [] => [no_responses]
          | _ =>
              map (fun resp =>
                     respondent_row
                       (if length answered =? 1
                        then py " single-response" else [])
                       (format_respondent_header (resp_info resp))
                       format_empty) answered
          end).
Proof.
  intros Ht Hc Hd answered.
  assert (Hans : forall resp, In resp answered ->
                   format_response L (resp_row resp) q
                   = (Ok format_empty, q)).
  { intros resp Hin. apply filter_In in Hin. destruct Hin as [Hin _].
    unfold format_response, rbind, read. rewrite Ht.
    apply matrix_empty; [exact Hc | apply Hd; exact Hin]. }
  unfold question_card, answered_by, rbind, read, ret.
  fold answered.
  assert (Hmeta :
            (if debug_mode then question_meta (length answered)
             else fun q0 => (Ok [], q0)) q
            = (Ok (if debug_mode then
                     py "<div class='question-meta'>type: "
                     ++ shape_name (q_type q) ++ py " | internal: "
                     ++ q_internal_type q ++ py " | cols: "
                     ++ str_of_nat (length (q_columns q))
                     ++ py " | responses: "
                     ++ str_of_nat (length answered) ++ py "</div>"
                   else []), q)).
  { destruct debug_mode; reflexivity. }
  rewrite Hmeta. clear Hmeta.
  destruct answered as [|a0 rest] eqn:Ea; [reflexivity|].
  rewrite rmapM_alone.
  - cbn [fst].
    rewrite (mapM_ok _
               (fun resp =>
                  respondent_row
                    (if length (a0 :: rest) =? 1
                     then py " single-response" else [])
                    (format_respondent_header (resp_info resp))
                    format_empty)).
    + reflexivity.
    + intros resp Hin. unfold rbind, ret.
      rewrite (Hans resp Hin). reflexivity.
  - intros resp. apply preserves_bind; [apply format_response_preserves|].
    intros a. apply preserves_ret.
Qed.

End Matrix.

(** C7, as amended.  A respondent with no answer in any cell of a
    matrix gets the empty indicator and no grid; in the grid of a
    respondent who answered, a cell that is missing or empty is a dash;
    when no respondent answered any column of the question, the card
    holds the no-responses indicator once and nothing else; and when no
    respondent answered any cell, the card holds no grid: it holds that
    indicator if nobody answered any column, and else one row with the
    empty indicator for each respondent who answered some other column
    of the question. *)
Theorem matrix_without_answers (L : pylib) :
  (forall (r : row) (q : question),
      existsb has_cells_key (values (q_rows q)) = true ->
      has_data (q_rows q) r = false ->
      fst (format_matrix_response L r q) = Ok format_empty)
  /\ (forall (r : row) (q : question),
         existsb has_cells_key (values (q_rows q)) = true ->
         has_data (q_rows q) r = true ->
         fst (format_matrix_response L r q)
         = (order <- sorted_rows L (q_rows q) ;;
            trs <- mapM (matrix_row L (q_text q) (q_rows q)
                           (q_col_order q) r) order ;;
            Ok (matrix_head (q_col_headers q) (q_col_order q)
                ++ concat trs ++ py "</tbody></table>")))
  /\ (forall (q_text : str) (cells : dict cell) (r : row) (col_key : str),
         match dict_get cells col_key with
         | None => True
         | Some c => is_empty (row_get r (cell_id c)) = true
         end ->
         matrix_cell L q_text cells r col_key = Ok empty_cell)
  /\ (forall respondents debug_mode q_id (q : question),
         (forall resp, In resp respondents ->
                       has_response q (resp_row resp) = false) ->
         fst (question_card L respondents debug_mode q_id q)
         = Ok (card_of q_id debug_mode q 0 [no_responses]))
  /\ (forall respondents debug_mode q_id (q : question),
         q_type q = matrix ->
         existsb has_cells_key (values (q_rows q)) = true ->
         (forall resp, In resp respondents ->
                       has_data (q_rows q) (resp_row resp) = false) ->
         let answered :=
           filter (fun resp => has_response q (resp_row resp))
             respondents in
         fst (question_card L respondents debug_mode q_id q)
         = Ok (card_of q_id debug_mode q (length answered)
                 match answered with
                 | [] => [no_responses]
                 | _ =>
                     map (fun resp =>
                            respondent_row
                              (if length answered =? 1
                               then py " single-response" else [])
                              (format_respondent_header (resp_info resp))
                              format_empty) answered
                 end)).
Proof.
  repeat split.
  - intros r q Hc Hd. rewrite (matrix_empty L r q Hc Hd). reflexivity.
  - apply matrix_grid.
  - apply matrix_missing_cell.
  - apply card_without_respondents.
  - apply card_of_empty_matrix.
Qed.

(** A matrix of one row and two columns. *)
Definition small_matrix : question :=
  {| q_id := py "Q5"; q_text := py "Rate"; q_type := matrix;
     q_internal_type := py "unknown"; q_qsf_type := JStr []; q_selector := JStr [];
     q_columns := map py ["Q5_1_1"; "Q5_1_2"];
     q_rows :=
       [(py "1",
         RowCells (py "Speed")
           [(py "1", {| cell_id := py "Q5_1_1";
                        cell_col_label := py "Good" |});
            (py "2", {| cell_id := py "Q5_1_2";
                        cell_col_label := py "Bad" |})])];
     q_col_headers := [(py "1", py "Good"); (py "2", py "Bad")];
     q_col_order := [py "1"; py "2"]; q_qsf_info := None |}.

(** The same matrix with a column that is no cell, as the columns
    [Q5_1_1], [Q5_1_2] and [Q5_TEXT] of an export give it. *)
Definition matrix_with_comment : question :=
  set_columns small_matrix (map py ["Q5_1_1"; "Q5_1_2"; "Q5_TEXT"]).

Definition silent (id : string) : respondent :=
  let r := [(py "ResponseId", Some (py id)); (py "Q5_1_1", None);
            (py "Q5_1_2", None); (py "Q5_TEXT", None)] in
  {| resp_info := get_respondent_info r 0; resp_row := r |}.

Definition commenting (id : string) : respondent :=
  let r := [(py "ResponseId", Some (py id)); (py "Q5_1_1", None);
            (py "Q5_1_2", None); (py "Q5_TEXT", Some (py "no idea"))] in
  {| resp_info := get_respondent_info r 0; resp_row := r |}.

Lemma matrix_without_answers_witness :
  fst (format_matrix_response latin1_library (resp_row (silent "R_1"))
         small_matrix) = Ok format_empty
  /\ matrix_cell latin1_library (py "Rate") [] (resp_row (silent "R_1"))
       (py "1") = Ok empty_cell
  /\ fst (question_card latin1_library [silent "R_1"; silent "R_2"] false
            (py "Q5") small_matrix)
     = Ok (card_of (py "Q5") false small_matrix 0 [no_responses]).
Proof.
  pose proof (matrix_without_answers latin1_library)
    as (Ha & _ & Hb & Hc & _).
  split; [|split].
  - apply Ha; reflexivity.
  - apply Hb. exact I.
  - apply Hc. intros resp [<- | [<- | []]]; reflexivity.
Defined.

(** The number of places of [s] at which [sub] begins. *)
Fixpoint count_sub (s sub : str) : nat :=
  (if startswith s sub then 1 else 0)
  + match s with
    | [] => 0
    | _ :: s' => count_sub s' sub
    end.

(** C7, as stated, fails on the matrix with a comment column when two
    respondents left every cell empty and wrote a comment: in no
    library does the card hold the indicator just once. *)
Lemma two_comments_two_empty_indicators :
  ~ (exists L parts,
        fst (question_card L [commenting "R_1"; commenting "R_2"] false
               (py "Q5") matrix_with_comment) = Ok parts
        /\ count_sub (concat parts) (py "No response") = 1).
Proof.
  intros (L & parts & H & C). vm_compute in H. apply Ok_inj in H.
  subst parts. vm_compute in C. discriminate.
Qed.

(** The matrix with a comment column is what the export gives. *)
Example matrix_with_comment_extracted (L : pylib) :
  extract_questions_from_csv L (map py ["Q5_1_1"; "Q5_1_2"; "Q5_TEXT"])
    (map (fun s => Some (py s))
       ["Rate - Speed - Good"; "Rate - Speed - Bad"; "Rate - Comment"])
  = Ok [(py "Q5", matrix_with_comment)].
Proof. vm_compute. reflexivity. Qed.

(** ** The definition file *)

(** An export of three columns and two responses, the second without
    an answer in [Q2_1]. *)
Definition small_export : csv_file :=
  Csv (map py ["Q1"; "Q2_1"; "Q2_2"])
    [map (fun s => Some (py s))
       ["Your name"; "Fruit - Apples"; "Fruit - Pears"];
     [Some (py "Ann"); Some (py "Yes"); Some (py "No")];
     [Some (py "Bob"); None; Some (py "No")]].

(** C2, as amended.  A definition file that is there and is no JSON
    ends the run with the error of [json.load]: no report is made.  The
    definition is done without only when no path is given or no file is
    at the path; the report then comes from the columns of the export
    alone. *)
Theorem malformed_definition_file_is_fatal
  (L : pylib) (columns : list str) (lines : list (list value))
  (debug_mode : bool) :
  process_qualtrics L (Csv columns lines) (QsfFile NotJson) debug_mode
  = Raise JSONDecodeError
  /\ (forall csv r,
         process_qualtrics L csv (QsfFile NotJson) debug_mode <> Ok r)
  /\ (forall csv,
         process_qualtrics L csv NoSuchQsf debug_mode
         = process_qualtrics L csv NoQsfPath debug_mode)
  /\ process_qualtrics L (Csv columns lines) NoQsfPath debug_mode
     = (texts <- header_texts lines ;;
        questions <- extract_questions_from_csv L columns texts ;;
        html <- generate_html L questions (read_respondents columns lines)
                  debug_mode false ;;
        Ok (html, (length (read_respondents columns lines),
                   length questions))).
Proof.
  split; [reflexivity|]. split; [|split; [|reflexivity]].
  - intros [| |cols lns] r; simpl; discriminate.
  - intros [| |cols lns]; reflexivity.
Qed.

(** C2, as stated, fails: with a definition file that is no JSON the
    small export gives no report, in any library. *)
Lemma malformed_definition_file_gives_no_report :
  ~ (exists L r,
        process_qualtrics L small_export (QsfFile NotJson) false = Ok r).
Proof. intros (L & r & H). simpl in H. discriminate. Qed.
(** ** An export of three columns *)

Section ThreeColumns.

Variable L : pylib.

Lemma single_value_is_unique (v : str) :
  nonempty (safe_str (Some v)) = true ->
  values_are_unique_data L [v] = true.
Proof.
  intros H. unfold values_are_unique_data. cbn [length filter map].
  rewrite H. cbn [length map distinct filter]. reflexivity.
Qed.

Lemma not_empty_nonempty (v : value) :
  is_empty v = false -> nonempty (safe_str (Some (safe_str v))) = true.
Proof.
  destruct v as [s|]; [|discriminate]. unfold is_empty. cbn [safe_str].
  rewrite strip_idem. destruct (strip s); [discriminate | reflexivity].
Qed.

Lemma safe_str_idem (v : value) : safe_str (Some (safe_str v)) = safe_str v.
Proof.
  destruct v as [s|]; cbn [safe_str]; [apply strip_idem | reflexivity].
Qed.

(** Two items never make a checkmark table: it takes two tokens at
    least, and no more than seven for every ten items. *)
Lemma no_checkmark_table_of_two (items : list item) (sel : list str) :
  length items = 2 -> use_checkmark_table items sel = false.
Proof.
  intros H. unfold use_checkmark_table. rewrite H.
  destruct (length sel) as [|[|n]]; [reflexivity | reflexivity|].
  replace (Qle_bool (ratio (S (S n)) 2) (7 # 10)) with false.
  - rewrite andb_false_r. reflexivity.
  - symmetry. unfold ratio, Qle_bool. cbn [Qnum Qden Pos.of_nat].
    apply Z.leb_gt. lia.
Qed.

(** The answer of a respondent who filled both items: the data table
    of the two items. *)
Lemma both_items (q : question) (r : row) (l1 l2 : str) :
  q_type q = grouped ->
  q_internal_type q = py "unknown" ->
  q_rows q = [(py "1", RowItem (py "Q2_1") l1);
              (py "2", RowItem (py "Q2_2") l2)] ->
  is_empty (row_get r (py "Q2_1")) = false ->
  is_empty (row_get r (py "Q2_2")) = false ->
  fst (format_response L r q)
  = _format_as_data_table L
      [new_item l1 (safe_str (row_get r (py "Q2_1"))) (py "Q2_1");
       new_item l2 (safe_str (row_get r (py "Q2_2"))) (py "Q2_2")]
      (q_text q).
Proof.
  intros Ht Hi Hr H1 H2.
  unfold format_response, rbind, read. rewrite Ht, Hi.
  change (str_eqb (py "unknown") (py "form")) with false. cbv iota.
  unfold format_grouped_response, rbind, read, lift, ret. rewrite Hr.
  cbn [nonempty negb andb].
  assert (Hs : sorted_rows L [(py "1", RowItem (py "Q2_1") l1);
                              (py "2", RowItem (py "Q2_2") l2)]
               = Ok [py "1"; py "2"]) by (vm_compute; reflexivity).
  rewrite Hs. clear Hs.
  assert (Hc : collect_items [(py "1", RowItem (py "Q2_1") l1);
                              (py "2", RowItem (py "Q2_2") l2)] r
                 [py "1"; py "2"]
               = [new_item l1 (safe_str (row_get r (py "Q2_1")))
                    (py "Q2_1");
                  new_item l2 (safe_str (row_get r (py "Q2_2")))
                    (py "Q2_2")]).
  { unfold collect_items. cbn [flat_map].
    change (dict_get _ (py "1")) with (Some (RowItem (py "Q2_1") l1)).
    change (dict_get _ (py "2")) with (Some (RowItem (py "Q2_2") l2)).
    cbn [row_id row_label]. rewrite H1, H2. reflexivity. }
  rewrite Hc. clear Hc.
  destruct (values_are_numeric_data L _); [reflexivity|].
  destruct (values_are_unique_data L _); [reflexivity|].
  rewrite no_checkmark_table_of_two by reflexivity.
  cbn [fst]. apply data_table_analyse.
Qed.

(** The answer of a respondent who filled the second of two items
    only: the data table of that item. *)
Lemma second_item_only (q : question) (r : row) (l1 l2 : str) :
  q_type q = grouped ->
  q_internal_type q = py "unknown" ->
  q_rows q = [(py "1", RowItem (py "Q2_1") l1);
              (py "2", RowItem (py "Q2_2") l2)] ->
  is_empty (row_get r (py "Q2_1")) = true ->
  is_empty (row_get r (py "Q2_2")) = false ->
  fst (format_response L r q)
  = _format_as_data_table L
      [new_item l2 (safe_str (row_get r (py "Q2_2"))) (py "Q2_2")]
      (q_text q).
Proof.
  intros Ht Hi Hr H1 H2.
  unfold format_response, rbind, read. rewrite Ht, Hi.
  change (str_eqb (py "unknown") (py "form")) with false. cbv iota.
  unfold format_grouped_response, rbind, read, lift, ret. rewrite Hr.
  cbn [nonempty negb andb].
  assert (Hs : sorted_rows L [(py "1", RowItem (py "Q2_1") l1);
                              (py "2", RowItem (py "Q2_2") l2)]
               = Ok [py "1"; py "2"]) by (vm_compute; reflexivity).
  rewrite Hs. clear Hs.
  assert (Hc : collect_items [(py "1", RowItem (py "Q2_1") l1);
                              (py "2", RowItem (py "Q2_2") l2)] r
                 [py "1"; py "2"]
               = [new_item l2 (safe_str (row_get r (py "Q2_2")))
                    (py "Q2_2")]).
  { unfold collect_items. cbn [flat_map].
    change (dict_get _ (py "1")) with (Some (RowItem (py "Q2_1") l1)).
    change (dict_get _ (py "2")) with (Some (RowItem (py "Q2_2") l2)).
    cbn [row_id row_label]. rewrite H1, H2. reflexivity. }
  rewrite Hc. clear Hc. cbn [map item_value new_item].
  destruct (values_are_numeric_data L _); [reflexivity|].
  rewrite single_value_is_unique by (apply not_empty_nonempty; exact H2).
  reflexivity.
Qed.

(** The report on two questions [Q1] and [Q2], the first single and
    the second grouped: the head of the document, one card for each,
    the foot. *)
Lemma two_cards (q1 q2 : question) (respondents : list respondent)
  (debug_mode : bool) :
  q_type q1 = single -> q_type q2 = grouped ->
  fst (generate_parts L [(py "Q1", q1); (py "Q2", q2)] respondents
         debug_mode false)
  = (card1 <- fst (question_card L respondents debug_mode (py "Q1") q1) ;;
     card2 <- fst (question_card L respondents debug_mode (py "Q2") q2) ;;
     Ok (document_head (css_text L) (timestamp L)
           (if debug_mode
            then debug_block 2 (length respondents)
                   (py "grouped: 1, single: 1") (py "CSV inference")
            else [])
           (length respondents) 2 0
         :: (card1 ++ card2 ++ []) ++ [document_foot])).
Proof.
  intros Ht1 Ht2. unfold generate_parts.
  assert (Hs : sorted_questions L [(py "Q1", q1); (py "Q2", q2)]
               = Ok [(py "Q1", q1); (py "Q2", q2)]).
  { unfold sorted_questions. cbn [mapM fst].
    assert (E1 : question_number L (py "Q1") = Ok 1%Z)
      by (vm_compute; reflexivity).
    assert (E2 : question_number L (py "Q2") = Ok 2%Z)
      by (vm_compute; reflexivity).
    rewrite E1, E2. reflexivity. }
  rewrite Hs. clear Hs. cbn [visit].
  assert (Hc : forall t, count_type [(py "Q1", q1); (py "Q2", q2)] t
                         = (if str_eqb (shape_name single) (shape_name t)
                            then 1 else 0)
                           + (if str_eqb (shape_name grouped) (shape_name t)
                              then 1 else 0)).
  { intros t. unfold count_type, values. cbn [map snd filter].
    rewrite Ht1, Ht2.
    destruct (str_eqb (shape_name single) (shape_name t));
      destruct (str_eqb (shape_name grouped) (shape_name t)); reflexivity. }
  assert (Hm : count_type [(py "Q1", q1); (py "Q2", q2)] matrix = 0)
    by (rewrite Hc; vm_compute; reflexivity).
  assert (Hts : type_str [(py "Q1", q1); (py "Q2", q2)]
                = py "grouped: 1, single: 1").
  { unfold type_str. cbn [flat_map]. rewrite !Hc. vm_compute. reflexivity. }
  rewrite Hm, Hts. cbn [length].
  pose proof (question_card_preserves L respondents debug_mode (py "Q1") q1)
    as P1.
  destruct (question_card L respondents debug_mode (py "Q1") q1)
    as [[card1|e] q1']; cbn [fst bind]; [|reflexivity].
  pose proof (question_card_preserves L respondents debug_mode (py "Q2") q2)
    as P2.
  destruct (question_card L respondents debug_mode (py "Q2") q2)
    as [[card2|e] q2']; cbn [fst bind]; reflexivity.
Qed.

End ThreeColumns.

(** The columns [Q1], [Q2_1], [Q2_2], whatever their header texts, give
    two questions: [Q1] of one column, and [Q2], grouped, of two
    items. *)
Lemma three_columns_two_questions (L : pylib) (t1 t2 t3 : value) :
  exists q1 q2 l1 l2,
    extract_questions_from_csv L (map py ["Q1"; "Q2_1"; "Q2_2"])
      [t1; t2; t3]
    = Ok [(py "Q1", q1); (py "Q2", q2)]
    /\ q_type q1 = single /\ q_columns q1 = [py "Q1"]
    /\ q_type q2 = grouped /\ q_internal_type q2 = py "unknown"
    /\ q_columns q2 = map py ["Q2_1"; "Q2_2"]
    /\ q_rows q2 = [(py "1", RowItem (py "Q2_1") l1);
                    (py "2", RowItem (py "Q2_2") l2)].
Proof.
  unfold extract_questions_from_csv. cbn [map combine foldM].
  unfold from_csv_step.
  destruct (extract_matrix_labels L t1) as [[b1 r1] c1].
  destruct (extract_matrix_labels L t2) as [[b2 r2] c2].
  destruct (extract_matrix_labels L t3) as [[b3 r3] c3].
  destruct b1 as [|x1 b1]; destruct b2 as [|x2 b2];
    destruct b3 as [|x3 b3]; vm_compute;
    try match goal with
        | |- context [match ?c with true => _ | false => _ end] =>
            destruct c
        end;
    do 4 eexists; repeat split; reflexivity.
Qed.

(** C3, as amended.  An export with the columns [Q1], [Q2_1], [Q2_2]
    and no definition file gives two questions, and the document is its
    head, the card of [Q1], the card of [Q2] and its foot; [Q2], with
    one sub-index to its columns, is a grouped question of two items
    and no matrix.  A respondent who filled both items gets a data
    table of two rows; a respondent who left [Q2_1] empty and filled
    [Q2_2] gets a data table with the one row of [Q2_2]: the empty item
    is left out, with no placeholder for it. *)
Theorem three_columns_report (L : pylib) (t1 t2 t3 : value) :
  exists q1 q2 l1 l2,
    extract_questions_from_csv L (map py ["Q1"; "Q2_1"; "Q2_2"])
      [t1; t2; t3]
    = Ok [(py "Q1", q1); (py "Q2", q2)]
    /\ q_type q1 = single
    /\ q_type q2 = grouped
    /\ q_rows q2 = [(py "1", RowItem (py "Q2_1") l1);
                    (py "2", RowItem (py "Q2_2") l2)]
    /\ (forall respondents debug_mode,
           fst (generate_parts L [(py "Q1", q1); (py "Q2", q2)]
                  respondents debug_mode false)
           = (card1 <- fst (question_card L respondents debug_mode
                              (py "Q1") q1) ;;
              card2 <- fst (question_card L respondents debug_mode
                              (py "Q2") q2) ;;
              Ok (document_head (css_text L) (timestamp L)
                    (if debug_mode
                     then debug_block 2 (length respondents)
                            (py "grouped: 1, single: 1")
                            (py "CSV inference")
                     else [])
                    (length respondents) 2 0
                  :: (card1 ++ card2 ++ []) ++ [document_foot])))
    /\ (forall r : row,
           is_empty (row_get r (py "Q2_1")) = false ->
           is_empty (row_get r (py "Q2_2")) = false ->
           fst (format_response L r q2)
           = (first <- format_value L
                         (Some (safe_str (row_get r (py "Q2_1"))))
                         (q_text q2) (py "Q2_1") ;;
              second <- format_value L
                          (Some (safe_str (row_get r (py "Q2_2"))))
                          (q_text q2) (py "Q2_2") ;;
              Ok (py "<table class='data-table'><tbody>"
                  ++ ((py "<tr><th class='data-label'>"
                       ++ safe_html (Some l1)
                       ++ py "</th><td class='data-value'>" ++ first
                       ++ py "</td></tr>")
                      ++ py "<tr><th class='data-label'>"
                      ++ safe_html (Some l2)
                      ++ py "</th><td class='data-value'>" ++ second
                      ++ py "</td></tr>")
                  ++ py "</tbody></table>")))
    /\ (forall r : row,
           is_empty (row_get r (py "Q2_1")) = true ->
           is_empty (row_get r (py "Q2_2")) = false ->
           fst (format_response L r q2)
           = (formatted <- format_value L
                             (Some (safe_str (row_get r (py "Q2_2"))))
                             (q_text q2) (py "Q2_2") ;;
              Ok (py "<table class='data-table'><tbody>"
                  ++ (py "<tr><th class='data-label'>"
                      ++ safe_html (Some l2)
                      ++ py "</th><td class='data-value'>" ++ formatted
                      ++ py "</td></tr>")
                  ++ py "</tbody></table>"))).
Proof.
  destruct (three_columns_two_questions L t1 t2 t3)
    as (q1 & q2 & l1 & l2 & He & Ht1 & _ & Ht2 & Hi & _ & Hr).
  exists q1, q2, l1, l2.
  split; [exact He|]. split; [exact Ht1|]. split; [exact Ht2|].
  split; [exact Hr|]. split; [|split].
  - intros respondents debug_mode. apply two_cards; assumption.
  - intros r H1 H2.
    rewrite (both_items L q2 r l1 l2 Ht2 Hi Hr H1 H2).
    unfold _format_as_data_table, data_row. cbn [mapM new_item item_value
      item_col_id item_label].
    destruct (format_value L _ (q_text q2) (py "Q2_1")) as [f1|e];
      [|reflexivity].
    cbn [bind].
    destruct (format_value L _ (q_text q2) (py "Q2_2")) as [f2|e];
      [|reflexivity].
    cbn [bind concat]. rewrite app_nil_r. reflexivity.
  - intros r H1 H2.
    rewrite (second_item_only L q2 r l1 l2 Ht2 Hi Hr H1 H2).
    unfold _format_as_data_table, data_row. cbn [mapM new_item item_value
      item_col_id item_label].
    destruct (format_value L _ (q_text q2) (py "Q2_2")) as [f|e];
      [|reflexivity].
    cbn [bind concat]. rewrite app_nil_r. reflexivity.
Qed.

Definition ann : row :=
  [(py "Q1", Some (py "Ann")); (py "Q2_1", Some (py "Yes"));
   (py "Q2_2", Some (py "No"))].

Definition bob : row :=
  [(py "Q1", Some (py "Bob")); (py "Q2_1", None);
   (py "Q2_2", Some (py "No"))].

Lemma three_columns_report_witness :
  exists q2 l1 l2,
    fst (format_response latin1_library ann q2)
    = (first <- format_value latin1_library
                  (Some (safe_str (row_get ann (py "Q2_1"))))
                  (q_text q2) (py "Q2_1") ;;
       second <- format_value latin1_library
                   (Some (safe_str (row_get ann (py "Q2_2"))))
                   (q_text q2) (py "Q2_2") ;;
       Ok (py "<table class='data-table'><tbody>"
           ++ ((py "<tr><th class='data-label'>" ++ safe_html (Some l1)
                ++ py "</th><td class='data-value'>" ++ first
                ++ py "</td></tr>")
               ++ py "<tr><th class='data-label'>" ++ safe_html (Some l2)
               ++ py "</th><td class='data-value'>" ++ second
               ++ py "</td></tr>")
           ++ py "</tbody></table>"))
    /\ fst (format_response latin1_library bob q2)
       = (formatted <- format_value latin1_library
                         (Some (safe_str (row_get bob (py "Q2_2"))))
                         (q_text q2) (py "Q2_2") ;;
          Ok (py "<table class='data-table'><tbody>"
              ++ (py "<tr><th class='data-label'>" ++ safe_html (Some l2)
                  ++ py "</th><td class='data-value'>" ++ formatted
                  ++ py "</td></tr>")
              ++ py "</tbody></table>")).
Proof.
  destruct (three_columns_report latin1_library
              (Some (py "Your name")) (Some (py "Fruit - Apples"))
              (Some (py "Fruit - Pears")))
    as (q1 & q2 & l1 & l2 & _ & _ & _ & _ & _ & Ha & Hb).
  exists q2, l1, l2. split.
  - apply Ha; reflexivity.
  - apply Hb; reflexivity.
Defined.

(** C3, as stated, fails on the small export: in no library is [Q2] a
    matrix, and in none does the answer of the respondent who left
    [Q2_1] empty mention that item, [Apples]. *)
Lemma grouped_question_drops_the_empty_item :
  ~ (exists L questions q2 h,
        extract_questions_from_csv L (map py ["Q1"; "Q2_1"; "Q2_2"])
          (map (fun s => Some (py s))
             ["Your name"; "Fruit - Apples"; "Fruit - Pears"])
        = Ok questions
        /\ dict_get questions (py "Q2") = Some q2
        /\ fst (format_response L bob q2) = Ok h
        /\ (q_type q2 = matrix \/ contains h (py "Apples") = true)).
Proof.
  intros (L & questions & q2 & h & He & Hq & Hh & H).
  vm_compute in He. apply Ok_inj in He. subst questions.
  vm_compute in Hq. injection Hq as Hq. subst q2.
  vm_compute in Hh. apply Ok_inj in Hh. subst h.
  destruct H as [H | H]; vm_compute in H; discriminate.
Qed.

(* ================================================================== *)
(** * Further properties of the utilities and the classifier *)
(* ================================================================== *)

(** ** Escaping *)

(** The code points that open or close a tag or an attribute value. *)
Definition delimiter (c : char) : bool :=
  ((c =? 60) || (c =? 62) || (c =? 34) || (c =? 39))%N.

Lemma escape_delimiters (s : str) (c : char) :
  In c (escape s) -> delimiter c = false.
Proof.
  unfold escape. rewrite in_flat_map. intros (x & _ & Hc).
  destruct (x =? 38)%N; [|destruct (x =? 60)%N eqn:E1;
    [|destruct (x =? 62)%N eqn:E2;
      [|destruct (x =? 34)%N eqn:E3; [|destruct (x =? 39)%N eqn:E4]]]].
  all: try (vm_compute in Hc;
            repeat (destruct Hc as [<- | Hc]; [reflexivity|]);
            contradiction).
  destruct Hc as [<- | []]. unfold delimiter.
  rewrite E1, E2, E3, E4. reflexivity.
Qed.

Lemma escape_plain (s : str) :
  (forall c, In c s -> ~ In c markup) -> escape s = s.
Proof.
  induction s as [|x s IH]; intros H; [reflexivity|].
  unfold escape in *. cbn [flat_map].
  assert (Hx : ~ In x markup) by (apply H; left; reflexivity).
  unfold markup in Hx. cbn [In] in Hx.
  assert (E : forall y : N, x <> y -> (x =? y)%N = false)
    by (intros y; apply N.eqb_neq).
  rewrite !E by (intros ->; tauto).
  cbn [app]. f_equal. apply IH. intros c Hc. apply H. right. exact Hc.
Qed.

(** X1.  [safe_html] returns no code point that opens or closes a tag or
    an attribute value, whatever it is given; and a value that,
    stripped, holds no ampersand and none of these comes back stripped
    and otherwise as it was. *)
Theorem safe_html_is_markup_free (v : value) :
  (forall c, In c (safe_html v) ->
             (c <> 60 /\ c <> 62 /\ c <> 34 /\ c <> 39)%N)
  /\ ((forall c, In c (safe_str v) -> ~ In c markup) ->
      safe_html v = safe_str v).
Proof.
  split.
  - intros c Hc. apply escape_delimiters in Hc. unfold delimiter in Hc.
    repeat (apply orb_false_iff in Hc; destruct Hc as [Hc ?]).
    repeat split; apply N.eqb_neq; assumption.
  - apply escape_plain.
Qed.

Lemma safe_html_is_markup_free_witness :
  safe_html (Some (py "  Tom and Jerry ")) = py "Tom and Jerry".
Proof.
  assert (E : safe_str (Some (py "  Tom and Jerry ")) = py "Tom and Jerry")
    by (vm_compute; reflexivity).
  rewrite <- E.
  apply (proj2 (safe_html_is_markup_free (Some (py "  Tom and Jerry ")))).
  rewrite E. intros c Hc Hm. vm_compute in Hc, Hm.
  repeat (destruct Hc as [<- | Hc];
          [repeat (destruct Hm as [Hm | Hm]; [discriminate|]); exact Hm|]).
  exact Hc.
Defined.

(** ** Empty values *)

Lemma dropwhile_nil_iff (p : char -> bool) (s : str) :
  dropwhile p s = [] <-> forallb p s = true.
Proof.
  induction s as [|c s IH]; simpl; [tauto|].
  destruct (p c); simpl; [exact IH|]. split; discriminate.
Qed.

Lemma strip_nil_iff (s : str) : strip s = [] <-> forallb isspace s = true.
Proof.
  unfold strip, strip_by, rstrip_by, lstrip_by. split.
  - intros H. apply dropwhile_nil_iff.
    destruct (dropwhile isspace s) as [|x r] eqn:E; [reflexivity|].
    pose proof (dropwhile_head _ _ _ _ E) as Hx.
    apply (f_equal (@rev char)) in H. rewrite rev_involutive in H.
    simpl in H. apply dropwhile_nil_iff in H.
    rewrite forallb_forall in H.
    rewrite (H x) in Hx; [discriminate|].
    apply in_or_app. right. left. reflexivity.
  - intros H. apply dropwhile_nil_iff in H. rewrite H. reflexivity.
Qed.

Lemma is_empty_blank (v : value) :
  is_empty v = false
  <-> exists s c, v = Some s /\ In c s /\ isspace c = false.
Proof.
  destruct v as [s|]; simpl.
  - split.
    + intros H. apply str_eqb_neq in H.
      destruct (forallb isspace s) eqn:E.
      * apply strip_nil_iff in E. contradiction.
      * assert (Hx : existsb (fun c => negb (isspace c)) s = true).
        { clear H. induction s as [|c s IH]; simpl in *; [discriminate|].
          destruct (isspace c); simpl in *; [apply IH; exact E|reflexivity]. }
        apply existsb_exists in Hx. destruct Hx as (c & Hc & Hs).
        exists s, c. repeat split; [exact Hc|].
        apply negb_true_iff. exact Hs.
    + intros (s' & c & [= <-] & Hc & Hs). apply str_eqb_neq. intros E.
      apply strip_nil_iff in E. rewrite forallb_forall in E.
      rewrite (E c Hc) in Hs. discriminate.
  - split; [discriminate|]. intros (s & c & H & _). discriminate.
Qed.

(** X2.  A respondent counts as having answered a question exactly when
    one of the columns of the question holds, in the response, a string
    with a code point that is no white space: a column that the response
    lacks, a null and a blank string do not count. *)
Theorem has_response_iff (q : question) (r : row) :
  has_response q r = true
  <-> exists col s c,
        In col (q_columns q) /\ dict_get r col = Some (Some s)
        /\ In c s /\ isspace c = false.
Proof.
  unfold has_response. rewrite existsb_exists. split.
  - intros (col & Hcol & H). apply negb_true_iff in H.
    apply is_empty_blank in H. destruct H as (s & c & Hv & Hc & Hs).
    exists col, s, c. repeat split; try assumption.
    unfold row_get in Hv. destruct (dict_get r col) as [v|];
      [rewrite Hv; reflexivity | discriminate].
  - intros (col & s & c & Hcol & Hg & Hc & Hs). exists col.
    split; [exact Hcol|]. apply negb_true_iff. apply is_empty_blank.
    exists s, c. unfold row_get. rewrite Hg. auto.
Qed.

(** ** When the classifier raises *)

Section ClassifierTotality.

Variable L : pylib.

Lemma is_numeric_code_raises (v : value) (question_text : str) (e : exn) :
  is_numeric_code L v question_text = Raise e ->
  e = ValueError /\ isdigit L (safe_str v) = true
  /\ py_int L (safe_str v) = None.
Proof.
  unfold is_numeric_code.
  destruct (negb (nonempty (safe_str v))); [discriminate|].
  destruct (contains_any L question_text NUMERIC_QUESTION_KEYWORDS);
    [discriminate|].
  destruct (contains (safe_str v) (py ",") && _); [discriminate|].
  destruct (isdigit L (safe_str v)); [|discriminate].
  destruct (py_int L (safe_str v)) as [num|].
  - repeat match goal with
           | |- context [if ?b then _ else _] => destruct b
           end; discriminate.
  - intros [= <-]. auto.
Qed.

Lemma detect_raises (v : value) (question_text column_id : str) (e : exn) :
  detect_value_type L v question_text column_id = Raise e ->
  is_timing_column column_id = false
  /\ is_long_text v = false
  /\ is_numeric_code L v question_text = Raise e.
Proof.
  unfold detect_value_type.
  destruct (is_empty v); [discriminate|].
  destruct (is_timing_column column_id); [discriminate|].
  destruct (is_url L v); [discriminate|].
  destruct (is_file_path L v); [discriminate|].
  destruct (is_coordinate L v); [discriminate|].
  destruct (is_json v); [discriminate|].
  destruct (is_hierarchical v); [discriminate|].
  destruct (is_multi_value L v (py "|")); [discriminate|].
  destruct (is_multi_value L v (py ";")); [discriminate|].
  destruct (is_multi_value L v (py ",")); [discriminate|].
  destruct (is_long_text v); [discriminate|].
  destruct (is_numeric_code L v question_text) as [c|e']; simpl;
    [discriminate|].
  intros [= <-]. auto.
Qed.

(** Only the formatter of JSON raises, and only [RecursionError]. *)
Lemma format_as_raises (t : value_type) (v : value) (column_id : str)
  (e : exn) :
  format_as L t v column_id = Raise e ->
  t = t_json /\ e = RecursionError /\ json_pretty L (safe_str v) = TooDeep.
Proof.
  destruct t; try discriminate. cbn [format_as]. unfold format_json.
  destruct (json_pretty L (safe_str v)); try discriminate.
  intros [= <-]. auto.
Qed.

Lemma format_as_returns (t : value_type) (v : value) (column_id : str) :
  t <> t_json \/ json_pretty L (safe_str v) <> TooDeep ->
  exists h, format_as L t v column_id = Ok h.
Proof.
  intros H. destruct (format_as L t v column_id) as [h|e] eqn:E.
  - exists h. reflexivity.
  - apply format_as_raises in E. destruct E as (E1 & _ & E2).
    destruct H as [H | H]; contradiction.
Qed.

Lemma format_value_raises (v : value) (question_text column_id : str)
  (e : exn) :
  format_value L v question_text column_id = Raise e ->
  detect_value_type L v question_text column_id = Raise e
  \/ (e = RecursionError
      /\ detect_value_type L v question_text column_id = Ok t_json
      /\ json_pretty L (safe_str v) = TooDeep).
Proof.
  unfold format_value.
  destruct (detect_value_type L v question_text column_id) as [t|e'];
    cbn [bind].
  - intros H. apply format_as_raises in H. destruct H as (-> & -> & H).
    right. auto.
  - intros [= <-]. left. reflexivity.
Qed.

Lemma detect_raises_digits (v : value) (question_text column_id : str)
  (e : exn) :
  detect_value_type L v question_text column_id = Raise e ->
  e = ValueError /\ is_timing_column column_id = false
  /\ is_long_text v = false
  /\ isdigit L (safe_str v) = true /\ py_int L (safe_str v) = None.
Proof.
  intros D. apply detect_raises in D. destruct D as (Ht & Hl & D).
  apply is_numeric_code_raises in D. tauto.
Qed.

(** An ASCII digit is no white space and no sign. *)
Lemma ascii_digit_plain (c : char) :
  ascii_digit c = true ->
  (c <? 128)%N = true /\ c_isspace c = false
  /\ (c =? 45)%N = false /\ (c =? 43)%N = false /\ (c =? 95)%N = false.
Proof.
  unfold ascii_digit, c_isspace, between. intros H.
  apply andb_true_iff in H. destruct H as [H1 H2].
  apply N.leb_le in H1, H2.
  assert (E1 : (c <=? 13)%N = false) by (apply N.leb_gt; lia).
  assert (E2 : forall y : N, c <> y -> (c =? y)%N = false)
    by (intros y; apply N.eqb_neq).
  rewrite E1, andb_false_r, !E2 by lia.
  split; [apply N.ltb_lt; lia | auto].
Qed.

Lemma digits_us_all (s : str) (acc : N) :
  forallb ascii_digit s = true -> exists n, digits_us s acc = (n, []).
Proof.
  revert acc; induction s as [|c s IH]; intros acc H; simpl in *.
  - exists acc. reflexivity.
  - apply andb_true_iff in H. destruct H as [Hc Hs]. rewrite Hc.
    apply IH. exact Hs.
Qed.

(** Up to 640 digits are read whatever the limit of the library. *)
Lemma int_digits_ok_short (n : nat) : n <= 640 -> int_digits_ok L n = true.
Proof.
  intros H. unfold int_digits_ok.
  replace (640 <? n) with false by (symmetry; apply Nat.ltb_ge; exact H).
  reflexivity.
Qed.

Lemma int_digits_ok_le (n m : nat) :
  m <= n -> int_digits_ok L n = true -> int_digits_ok L m = true.
Proof.
  unfold int_digits_ok. intros H.
  destruct (640 <? m) eqn:E1; [|reflexivity].
  destruct (0 <? int_max_str_digits L) eqn:E2; [|reflexivity].
  destruct (int_max_str_digits L <? m) eqn:E3; [|reflexivity].
  apply Nat.ltb_lt in E1, E3.
  replace (640 <? n) with true by (symmetry; apply Nat.ltb_lt; lia).
  replace (int_max_str_digits L <? n) with true
    by (symmetry; apply Nat.ltb_lt; lia).
  discriminate.
Qed.

Lemma filter_all_true {A : Type} (p : A -> bool) (l : list A) :
  forallb p l = true -> filter p l = l.
Proof.
  induction l as [|a l IH]; simpl; [reflexivity|].
  destruct (p a); [|discriminate]. intros H. rewrite IH by exact H.
  reflexivity.
Qed.

(** [int] reads every non-empty string of ASCII digits that is not
    longer than the limit. *)
Lemma py_int_digits (s : str) :
  s <> [] -> forallb ascii_digit s = true ->
  int_digits_ok L (length s) = true ->
  exists n, py_int L s = Some n.
Proof.
  intros Hne H Hlen. unfold py_int, to_ascii_number.
  assert (Hascii : forallb (fun c => (c <? 128)%N) s = true).
  { rewrite forallb_forall in *. intros c Hc.
    apply ascii_digit_plain. apply H. exact Hc. }
  rewrite Hascii. destruct s as [|d r]; [contradiction|].
  rewrite <- (filter_all_true ascii_digit (d :: r) H) in Hlen.
  simpl in H. apply andb_true_iff in H. destruct H as [Hd Hr].
  destruct (ascii_digit_plain d Hd) as (_ & Hsp & Hm & Hp & _).
  cbn [dropwhile]. rewrite Hsp, Hm, Hp, Hd.
  destruct (digits_us_all r (d - 48)%N Hr) as [n Hn]. rewrite Hn.
  rewrite Hlen. cbn [forallb andb]. eexists. reflexivity.
Qed.

Lemma not_long_text (v : value) :
  is_long_text v = false -> length (safe_str v) <= 640.
Proof.
  unfold is_long_text, LONG_TEXT_THRESHOLD. intros H.
  apply Nat.ltb_ge in H. lia.
Qed.

End ClassifierTotality.

(** X3.  The classifier raises nothing but [ValueError], and only
    outside a timing column, for a value that [str.isdigit] accepts and
    [int] does not read.  The formatter of a value raises this error of
    the classifier and one more: [RecursionError], for a value that has
    the tag of JSON and is nested deeper than [json.loads] follows. *)
Theorem classifier_raises_only_on_unreadable_digits
  (L : pylib) (v : value) (question_text column_id : str) (e : exn) :
  detect_value_type L v question_text column_id = Raise e
  \/ format_value L v question_text column_id = Raise e ->
  (e = ValueError
   /\ detect_value_type L v question_text column_id = Raise ValueError
   /\ is_timing_column column_id = false
   /\ isdigit L (safe_str v) = true
   /\ py_int L (safe_str v) = None)
  \/ (e = RecursionError
      /\ detect_value_type L v question_text column_id = Ok t_json
      /\ json_pretty L (safe_str v) = TooDeep).
Proof.
  intros H.
  assert (D : detect_value_type L v question_text column_id = Raise e
              \/ (e = RecursionError
                  /\ detect_value_type L v question_text column_id
                     = Ok t_json
                  /\ json_pretty L (safe_str v) = TooDeep)).
  { destruct H as [H | H]; [left; exact H|].
    apply format_value_raises. exact H. }
  destruct D as [D | D]; [left | right; exact D].
  destruct (detect_raises_digits L v question_text column_id e D)
    as (-> & Ht & _ & Hd & Hn).
  auto.
Qed.

Lemma classifier_raises_only_on_unreadable_digits_witness :
  format_value latin1_library (Some (py "³")) [] [] = Raise ValueError
  /\ isdigit latin1_library (safe_str (Some (py "³"))) = true
  /\ py_int latin1_library (safe_str (Some (py "³"))) = None.
Proof.
  assert (E : format_value latin1_library (Some (py "³")) [] []
              = Raise ValueError) by (vm_compute; reflexivity).
  split; [exact E|].
  destruct (classifier_raises_only_on_unreadable_digits latin1_library
              (Some (py "³")) [] [] ValueError (or_intror E))
    as [(_ & _ & _ & H) | (H & _)]; [exact H | discriminate H].
Defined.

(** X4.  A value in which every code point that [str.isdigit] accepts is
    an ASCII digit is given a tag: the classifier does not raise.  The
    formatter then returns what the formatter of the tag returns, and
    this is a text unless the tag is that of JSON and the value is
    nested deeper than [json.loads] follows. *)
Theorem classifier_returns_without_exotic_digits
  (L : pylib) (v : value) (question_text column_id : str) :
  (forall c, In c (safe_str v) ->
             isdigit_char L c = true -> ascii_digit c = true) ->
  exists t,
    detect_value_type L v question_text column_id = Ok t
    /\ format_value L v question_text column_id
       = format_as L t v column_id
    /\ (t <> t_json \/ json_pretty L (safe_str v) <> TooDeep ->
        exists h, format_value L v question_text column_id = Ok h).
Proof.
  intros H.
  destruct (detect_value_type L v question_text column_id) as [t|e] eqn:D.
  - exists t. split; [reflexivity|].
    assert (E : format_value L v question_text column_id
                = format_as L t v column_id)
      by (unfold format_value; rewrite D; reflexivity).
    split; [exact E|]. rewrite E. apply format_as_returns.
  - exfalso.
    destruct (detect_raises_digits L v question_text column_id e D)
      as (_ & _ & Hl & Hd & Hn).
    assert (Hall : forallb ascii_digit (safe_str v) = true).
    { apply forallb_forall. intros c Hc. apply H; [exact Hc|].
      eapply isdigit_chars; eassumption. }
    destruct (py_int_digits L (safe_str v)) as [n Hi];
      [|exact Hall| |].
    + intros E. rewrite E in Hd. discriminate.
    + apply int_digits_ok_short. apply not_long_text. exact Hl.
    + rewrite Hi in Hn. discriminate.
Qed.

Lemma classifier_returns_without_exotic_digits_witness :
  exists h, format_value latin1_library (Some (py "42")) [] [] = Ok h.
Proof.
  destruct (classifier_returns_without_exotic_digits latin1_library
              (Some (py "42")) [] []) as (t & D & _ & H).
  - intros c Hc _. vm_compute in Hc.
    destruct Hc as [<- | [<- | []]]; reflexivity.
  - apply H. right. discriminate.
Defined.

(* ================================================================== *)
(** * The order of rows and of questions *)
(* ================================================================== *)

Section SortedProperties.

Variables (K A : Type) (ltb : K -> K -> bool).

Lemma insert_sorted_perm (x : K * A) (l : list (K * A)) :
  Permutation (insert_sorted ltb x l) (x :: l).
Proof.
  induction l as [|y l IH]; simpl; [reflexivity|].
  destruct (ltb (fst x) (fst y)); [reflexivity|].
  rewrite IH. apply perm_swap.
Qed.

Lemma insertion_perm (l acc : list (K * A)) :
  Permutation (fold_left (fun acc x => insert_sorted ltb x acc) l acc)
    (acc ++ l).
Proof.
  revert acc; induction l as [|x l IH]; intros acc; simpl.
  - rewrite app_nil_r. reflexivity.
  - rewrite IH, insert_sorted_perm. apply Permutation_middle.
Qed.

(** The order is strict. *)
Hypothesis ltb_asym : forall a b, ltb a b = true -> ltb b a = false.
Hypothesis ltb_trans :
  forall a b c, ltb a b = true -> ltb b c = true -> ltb a c = true.

(** [y] may come after [x]: its key is not below the key of [x]. *)
Definition in_order (x y : K * A) : Prop := ltb (fst y) (fst x) = false.

Lemma insert_sorted_order (x : K * A) (l : list (K * A)) :
  StronglySorted in_order l ->
  StronglySorted in_order (insert_sorted ltb x l).
Proof.
  induction 1 as [|y l Hs IH Hall]; simpl.
  - repeat constructor.
  - destruct (ltb (fst x) (fst y)) eqn:E.
    + constructor; [constructor; assumption|].
      constructor; [apply ltb_asym; exact E|].
      eapply Forall_impl; [|exact Hall]. intros z Hz. unfold in_order in *.
      destruct (ltb (fst z) (fst x)) eqn:E'; [|reflexivity].
      rewrite (ltb_trans _ _ _ E' E) in Hz. discriminate.
    + constructor; [exact IH|].
      rewrite Forall_forall. intros z Hz.
      apply (Permutation_in _ (insert_sorted_perm x l)) in Hz.
      destruct Hz as [<- | Hz]; [exact E|].
      rewrite Forall_forall in Hall. apply Hall. exact Hz.
Qed.

Lemma insertion_order (l acc : list (K * A)) :
  StronglySorted in_order acc ->
  StronglySorted in_order
    (fold_left (fun acc x => insert_sorted ltb x acc) l acc).
Proof.
  revert acc; induction l as [|x l IH]; intros acc H; simpl; [exact H|].
  apply IH. apply insert_sorted_order. exact H.
Qed.

(** [sorted] gives the elements it was given, none lost and none twice,
    and none of them before one with a smaller key. *)
Lemma sorted_by_key_spec (l : list (K * A)) :
  exists l',
    sorted_by_key ltb l = map snd l'
    /\ Permutation l' l /\ StronglySorted in_order l'.
Proof.
  exists (fold_left (fun acc x => insert_sorted ltb x acc) l []).
  split; [reflexivity|]. split.
  - apply (insertion_perm l []).
  - apply insertion_order. constructor.
Qed.

End SortedProperties.

(** The keys of [mapM] with a key function: each element with its key. *)
Lemma mapM_keys {A K : Type} (key : A -> result K) (l : list A)
  (ks : list (K * A)) :
  mapM (fun a => k <- key a ;; Ok (k, a)) l = Ok ks ->
  map snd ks = l /\ Forall (fun p => key (snd p) = Ok (fst p)) ks.
Proof.
  revert ks; induction l as [|a l IH]; intros ks; simpl.
  - intros [= <-]. split; constructor.
  - destruct (key a) as [k|e] eqn:E; simpl; [|discriminate].
    destruct (mapM _ l) as [ks'|e]; simpl; [|discriminate].
    intros [= <-]. destruct (IH ks' eq_refl) as [Hm Hf].
    split; [simpl; rewrite Hm; reflexivity|].
    constructor; [exact E | exact Hf].
Qed.

Lemma sorted_keys {A K : Type} (ltb : K -> K -> bool) (key : A -> result K)
  (l : list (K * A)) :
  Forall (fun p => key (snd p) = Ok (fst p)) l ->
  StronglySorted (in_order K A ltb) l ->
  StronglySorted
    (fun a b => exists ka kb,
                  key a = Ok ka /\ key b = Ok kb /\ ltb kb ka = false)
    (map snd l).
Proof.
  intros Hk Hs. induction Hs as [|x l Hs IH Hall]; simpl; constructor.
  - apply IH. inversion Hk; assumption.
  - inversion Hk as [|? ? Hx Hl]; subst.
    rewrite Forall_forall in *. intros b Hb.
    apply in_map_iff in Hb. destruct Hb as (y & <- & Hy).
    exists (fst x), (fst y). repeat split; auto.
    apply Hall. exact Hy.
Qed.

Lemma StronglySorted_weaken {A : Type} (R R' : A -> A -> Prop)
  (l : list A) :
  (forall a b, R a b -> R' a b) ->
  StronglySorted R l -> StronglySorted R' l.
Proof.
  intros HR. induction 1 as [|a l Hs IH Hall]; constructor;
    [exact IH|].
  eapply Forall_impl; [|exact Hall]. intros b. apply HR.
Qed.

(** ** The order of strings and of row keys *)

Lemma str_ltb_asym (a b : str) : str_ltb a b = true -> str_ltb b a = false.
Proof.
  revert b; induction a as [|x a IH]; intros [|y b]; simpl; try reflexivity;
    try discriminate.
  destruct (N.ltb_spec x y) as [H | H].
  - intros _. destruct (N.ltb_spec y x); [lia|].
    destruct (N.eqb_spec y x); [lia | reflexivity].
  - destruct (N.eqb_spec x y) as [-> | Hne]; [|discriminate].
    rewrite N.ltb_irrefl, N.eqb_refl. apply IH.
Qed.

Lemma str_ltb_trans (a b c : str) :
  str_ltb a b = true -> str_ltb b c = true -> str_ltb a c = true.
Proof.
  revert b c; induction a as [|x a IH]; intros [|y b] [|z c]; simpl;
    try reflexivity; try discriminate.
  destruct (N.ltb_spec x y) as [Hxy | Hxy].
  - intros _. destruct (N.ltb_spec y z) as [Hyz | Hyz].
    + intros _. destruct (N.ltb_spec x z); [reflexivity | lia].
    + destruct (N.eqb_spec y z) as [-> | Hne]; [|discriminate].
      intros _. destruct (N.ltb_spec x z); [reflexivity | lia].
  - destruct (N.eqb_spec x y) as [-> | Hne]; [|discriminate].
    intros Hab. destruct (N.ltb_spec y z) as [Hyz | Hyz]; [reflexivity|].
    destruct (N.eqb_spec y z) as [-> | Hne]; [|discriminate].
    apply IH. exact Hab.
Qed.

Lemma key_ltb_asym (a b : N * Z * str) :
  key_ltb a b = true -> key_ltb b a = false.
Proof.
  destruct a as [[a1 a2] a3], b as [[b1 b2] b3]. unfold key_ltb.
  destruct (N.ltb_spec a1 b1), (N.ltb_spec b1 a1); try lia;
    try reflexivity; try discriminate.
  destruct (Z.ltb_spec a2 b2), (Z.ltb_spec b2 a2); try lia;
    try reflexivity; try discriminate.
  apply str_ltb_asym.
Qed.

Lemma key_ltb_trans (a b c : N * Z * str) :
  key_ltb a b = true -> key_ltb b c = true -> key_ltb a c = true.
Proof.
  destruct a as [[a1 a2] a3], b as [[b1 b2] b3], c as [[c1 c2] c3].
  unfold key_ltb.
  destruct (N.ltb_spec a1 b1), (N.ltb_spec b1 a1), (N.ltb_spec b1 c1),
    (N.ltb_spec c1 b1), (N.ltb_spec a1 c1), (N.ltb_spec c1 a1);
    try lia; try reflexivity; try discriminate.
  destruct (Z.ltb_spec a2 b2), (Z.ltb_spec b2 a2), (Z.ltb_spec b2 c2),
    (Z.ltb_spec c2 b2), (Z.ltb_spec a2 c2), (Z.ltb_spec c2 a2);
    try lia; try reflexivity; try discriminate.
  apply str_ltb_trans.
Qed.

(** X5.  The rows of a question are shown in the order of
    [sort_row_key]: the order holds every row key once, as the rows do,
    and no key stands before one that [sort_row_key] puts below it. *)
Theorem rows_are_shown_in_key_order
  (L : pylib) (rows_data : dict row_info) (order : list str) :
  sorted_rows L rows_data = Ok order ->
  Permutation order (keys rows_data)
  /\ StronglySorted
       (fun a b => exists ka kb,
                     sort_row_key L a = Ok ka /\ sort_row_key L b = Ok kb
                     /\ key_ltb kb ka = false) order.
Proof.
  unfold sorted_rows.
  destruct (mapM _ (keys rows_data)) as [ks|e] eqn:E; simpl;
    [|discriminate].
  intros [= <-]. apply mapM_keys in E. destruct E as [Hm Hk].
  destruct (sorted_by_key_spec _ _ key_ltb key_ltb_asym key_ltb_trans ks)
    as (l' & -> & Hp & Hs).
  split.
  - rewrite <- Hm. apply Permutation_map. exact Hp.
  - apply sorted_keys; [|exact Hs].
    rewrite Forall_forall in *. intros p Hp'. apply Hk.
    eapply Permutation_in; eassumption.
Qed.

Definition rows_10_2_b_a : dict row_info :=
  [(py "10", RowItem (py "Q1_10") (py "ten"));
   (py "b", RowItem (py "Q1_b") (py "bee"));
   (py "2", RowItem (py "Q1_2") (py "two"));
   (py "A", RowItem (py "Q1_A") (py "ay"))].

Lemma rows_are_shown_in_key_order_witness :
  sorted_rows latin1_library rows_10_2_b_a
  = Ok [py "2"; py "10"; py "A"; py "b"]
  /\ Permutation [py "2"; py "10"; py "A"; py "b"] (keys rows_10_2_b_a).
Proof.
  assert (E : sorted_rows latin1_library rows_10_2_b_a
              = Ok [py "2"; py "10"; py "A"; py "b"])
    by (vm_compute; reflexivity).
  split; [exact E|].
  apply (rows_are_shown_in_key_order latin1_library rows_10_2_b_a _ E).
Defined.

(** X6.  The cards of the questions come in the order of the number in
    the question identifier, each question once. *)
Theorem questions_are_shown_in_number_order
  (L : pylib) (questions : dict question) (l : list (str * question)) :
  sorted_questions L questions = Ok l ->
  Permutation l questions
  /\ StronglySorted
       (fun a b => exists na nb,
                     question_number L (fst a) = Ok na
                     /\ question_number L (fst b) = Ok nb
                     /\ (na <= nb)%Z) l.
Proof.
  unfold sorted_questions.
  destruct (mapM _ questions) as [ks|e] eqn:E; simpl; [|discriminate].
  intros [= <-].
  apply (mapM_keys (fun x => question_number L (fst x))) in E.
  destruct E as [Hm Hk].
  destruct (sorted_by_key_spec _ _ Z.ltb
              (fun a b H => proj2 (Z.ltb_ge b a)
                              (Z.lt_le_incl _ _ (proj1 (Z.ltb_lt a b) H)))
              (fun a b c H1 H2 =>
                 proj2 (Z.ltb_lt a c)
                   (Z.lt_trans _ _ _ (proj1 (Z.ltb_lt a b) H1)
                      (proj1 (Z.ltb_lt b c) H2))) ks)
    as (l' & -> & Hp & Hs).
  split.
  - rewrite <- Hm. apply Permutation_map. exact Hp.
  - assert (Hk' : Forall (fun p => question_number L (fst (snd p))
                                   = Ok (fst p)) l').
    { rewrite Forall_forall in *. intros p Hp'. apply Hk.
      eapply Permutation_in; eassumption. }
    pose proof (sorted_keys Z.ltb (fun x => question_number L (fst x))
                  l' Hk' Hs) as H.
    eapply StronglySorted_weaken; [|exact H].
    intros a b (na & nb & Ha & Hb & Hlt). exists na, nb.
    repeat split; try assumption. apply Z.ltb_ge. exact Hlt.
Qed.

Definition q10_q2 : dict question :=
  [(py "Q10", new_question (py "Q10") [] (py "unknown") None);
   (py "Q2", new_question (py "Q2") [] (py "unknown") None)].

Lemma questions_are_shown_in_number_order_witness :
  sorted_questions latin1_library q10_q2 = Ok (rev q10_q2)
  /\ map fst (rev q10_q2) = [py "Q2"; py "Q10"]
  /\ Permutation (rev q10_q2) q10_q2.
Proof.
  assert (E : sorted_questions latin1_library q10_q2 = Ok (rev q10_q2))
    by (vm_compute; reflexivity).
  split; [exact E|]. split; [reflexivity|].
  apply (questions_are_shown_in_number_order latin1_library q10_q2 _ E).
Defined.

(* ================================================================== *)
(** * Labels and texts *)
(* ================================================================== *)

Lemma dict_get_value {V : Type} (d : dict V) (k : str) (v : V) :
  dict_get d k = Some v -> In v (values d).
Proof.
  intros H. apply dict_get_in in H. unfold values.
  apply (in_map snd) in H. exact H.
Qed.

(** The lookup that [get_label_from_qsf] does for either kind of
    label: under the index itself, then under the identifier at that
    position of the order, then the placeholder. *)
Definition lookup_label (L : pylib) (labels : dict str) (order : list str)
  (fallback csv_index : str) : str :=
  match dict_get labels csv_index with
  | Some l => l
  | None =>
      match
        match py_int L csv_index with
        | Some n =>
            if ((0 <=? n - 1) && (n - 1 <? Z.of_nat (length order)))%Z
            then match nth_error order (Z.to_nat (n - 1)) with
                 | Some qsf_id => dict_get labels qsf_id
                 | None => None
                 end
            else None
        | None => None
        end
      with
      | Some l => l
      | None => fallback ++ csv_index
      end
  end.

Lemma get_label_from_qsf_lookup (L : pylib) (info : qsf_info)
  (csv_index label_type : str) :
  get_label_from_qsf L info csv_index label_type
  = if str_eqb label_type (py "choice")
    then lookup_label L (info_get qsf_choices [] info)
           (info_get qsf_choice_order [] info) (py "Row ") csv_index
    else lookup_label L (info_get qsf_answers [] info)
           (info_get qsf_answer_order [] info) (py "Column ") csv_index.
Proof. reflexivity. Qed.

Lemma lookup_label_spec (L : pylib) (labels : dict str) (order : list str)
  (fallback csv_index : str) :
  (forall l, dict_get labels csv_index = Some l ->
             lookup_label L labels order fallback csv_index = l)
  /\ (In (lookup_label L labels order fallback csv_index) (values labels)
      \/ lookup_label L labels order fallback csv_index
         = fallback ++ csv_index)
  /\ (labels = [] ->
      lookup_label L labels order fallback csv_index
      = fallback ++ csv_index).
Proof.
  unfold lookup_label. repeat split.
  - intros l G. rewrite G. reflexivity.
  - destruct (dict_get labels csv_index) as [l|] eqn:G.
    + left. eapply dict_get_value. exact G.
    + destruct (py_int L csv_index) as [n|]; [|right; reflexivity].
      destruct (_ && _)%Z; [|right; reflexivity].
      destruct (nth_error order _) as [qsf_id|]; [|right; reflexivity].
      destruct (dict_get labels qsf_id) as [l|] eqn:G';
        [|right; reflexivity].
      left. eapply dict_get_value. exact G'.
  - intros ->. simpl.
    destruct (py_int L csv_index) as [n|]; [|reflexivity].
    destruct (_ && _)%Z; [|reflexivity].
    destruct (nth_error order _); reflexivity.
Qed.

(** X7.  The label that [get_label_from_qsf] gives an index of the
    export is the label the definition holds under that index if it
    holds one; it is always a label of the definition or the placeholder
    made of the index; and without a definition it is the placeholder. *)
Theorem label_is_from_the_definition_or_a_placeholder
  (L : pylib) (info : qsf_info) (csv_index label_type : str) :
  let of_choice := str_eqb label_type (py "choice") in
  let labels :=
    if of_choice then info_get qsf_choices [] info
    else info_get qsf_answers [] info in
  let placeholder :=
    (if of_choice then py "Row " else py "Column ") ++ csv_index in
  let label := get_label_from_qsf L info csv_index label_type in
  (forall l, dict_get labels csv_index = Some l -> label = l)
  /\ (In label (values labels) \/ label = placeholder)
  /\ (info = None -> label = placeholder).
Proof.
  cbv zeta. rewrite get_label_from_qsf_lookup.
  destruct (str_eqb label_type (py "choice")).
  - destruct (lookup_label_spec L (info_get qsf_choices [] info)
                (info_get qsf_choice_order [] info) (py "Row ") csv_index)
      as (H1 & H2 & H3).
    repeat split; [exact H1 | exact H2 |].
    intros ->. apply H3. reflexivity.
  - destruct (lookup_label_spec L (info_get qsf_answers [] info)
                (info_get qsf_answer_order [] info) (py "Column ")
                csv_index) as (H1 & H2 & H3).
    repeat split; [exact H1 | exact H2 |].
    intros ->. apply H3. reflexivity.
Qed.

Definition colour_question : qsf_question :=
  {| qsf_qid := JStr (py "QID7"); qsf_export_tag := JStr (py "Q7");
     qsf_text := py "Colour"; qsf_type := JStr (py "MC");
     qsf_selector := JStr (py "SAVR"); qsf_subselector := JNull;
     qsf_internal_type := py "single_choice";
     qsf_choices := [(py "35", py "Red"); (py "36", py "Blue")];
     qsf_choice_order := [py "35"; py "36"];
     qsf_answers := []; qsf_answer_order := [];
     qsf_recode_values := JDict [] |}.

Lemma label_is_from_the_definition_or_a_placeholder_witness :
  get_label_from_qsf latin1_library (Some colour_question) (py "36")
    (py "choice") = py "Blue"
  /\ get_label_from_qsf latin1_library (Some colour_question) (py "2")
       (py "choice") = py "Blue"
  /\ get_label_from_qsf latin1_library None (py "2") (py "answer")
     = py "Column 2".
Proof.
  split; [|split].
  - apply (proj1 (label_is_from_the_definition_or_a_placeholder
                    latin1_library (Some colour_question) (py "36")
                    (py "choice"))).
    reflexivity.
  - vm_compute. reflexivity.
  - apply (proj2 (proj2 (label_is_from_the_definition_or_a_placeholder
                           latin1_library None (py "2") (py "answer")))).
    reflexivity.
Defined.

(** ** What the normalizer returns *)

Lemma tidy_blank (b : bool) (s : str) (c : char) :
  tidy b s -> In c s -> isspace c = true -> c = 32%N.
Proof.
  revert b; induction s as [|x s IH]; intros b H Hc Hs; [destruct Hc|].
  simpl in H. destruct Hc as [-> | Hc].
  - rewrite Hs in H. tauto.
  - destruct (isspace x); [destruct H as (_ & _ & H)|]; eapply IH;
      eassumption.
Qed.

Lemma tidy_apart (s x y : str) (a b : char) :
  tidy false s -> s = x ++ a :: b :: y -> isspace a = true ->
  isspace b = false.
Proof.
  intros H -> Ha. apply tidy_suffix in H. simpl in H. rewrite Ha in H.
  destruct H as (_ & _ & H). destruct (isspace b); [|reflexivity].
  destruct H as (_ & H & _). discriminate.
Qed.

Lemma strip_first (s r : str) (c : char) :
  strip s = c :: r -> isspace c = false.
Proof.
  unfold strip, strip_by, rstrip_by, lstrip_by.
  set (a := dropwhile isspace s). intros H.
  destruct (dropwhile_suffix isspace (rev a)) as [pre Hpre].
  assert (Ha : a = rev (dropwhile isspace (rev a)) ++ rev pre).
  { rewrite <- rev_app_distr, <- Hpre, rev_involutive. reflexivity. }
  rewrite H in Ha. simpl in Ha. unfold a in Ha.
  eapply dropwhile_head. exact Ha.
Qed.

Lemma strip_last (s r : str) (c : char) :
  strip s = r ++ [c] -> isspace c = false.
Proof.
  unfold strip, strip_by, rstrip_by, lstrip_by. intros H.
  apply (f_equal (@rev char)) in H.
  rewrite rev_involutive, rev_app_distr in H. simpl in H.
  eapply dropwhile_head. exact H.
Qed.

(** X8.  Whatever the text, what [clean_html_text] returns is
    normalized: its only white space is the blank, no two blanks stand
    together, and it neither begins nor ends with one. *)
Theorem clean_html_text_is_normalized (L : pylib) (t : str) :
  let u := clean_html_text L t in
  (forall c, In c u -> isspace c = true -> c = 32%N)
  /\ (forall x y a b, u = x ++ a :: b :: y -> isspace a = true ->
                      isspace b = false)
  /\ (forall c r, u = c :: r -> isspace c = false)
  /\ (forall c r, u = r ++ [c] -> isspace c = false).
Proof.
  cbv zeta. unfold clean_html_text.
  destruct (negb (nonempty t)).
  - repeat split.
    + intros c [].
    + intros x y a b H. destruct x; discriminate.
    + discriminate.
    + intros c r H. destruct r; discriminate.
  - rewrite re_sub_ws.
    set (x := remove_boilerplate L _).
    assert (H : tidy false (strip (squeeze false x)))
      by (eapply tidy_strip; apply squeeze_tidy).
    repeat split.
    + intros c. apply (tidy_blank _ _ _ H).
    + intros x0 y a b E. eapply tidy_apart; eassumption.
    + intros c r. apply strip_first.
    + intros c r. apply strip_last.
Qed.

(* ================================================================== *)
(** * Respondents and the run *)
(* ================================================================== *)

Lemma strip_nonempty (s : str) (c : char) :
  In c s -> isspace c = false -> nonempty (strip s) = true.
Proof.
  intros Hc Hs. destruct (strip s) eqn:E; [|reflexivity].
  apply strip_nil_iff in E. rewrite forallb_forall in E.
  rewrite (E c Hc) in Hs. discriminate.
Qed.

Lemma enumerate_length {A : Type} (n : nat) (l : list A) :
  length (enumerate n l) = length l.
Proof.
  revert n; induction l as [|a l IH]; intros n; simpl; [reflexivity|].
  rewrite IH. reflexivity.
Qed.

Lemma respondent_name_nonempty (r : row) (index : nat) :
  nonempty (info_name (get_respondent_info r index)) = true.
Proof.
  unfold get_respondent_info. cbn [info_name].
  destruct (safe_str (row_get r (py "RecipientFirstName")))
    as [|c first] eqn:F.
  - cbn [nonempty].
    destruct (safe_str (row_get r (py "RecipientEmail"))) as [|? ?];
      [|reflexivity].
    destruct (safe_str (row_get r (py "ExternalReference"))) as [|? ?];
      [|reflexivity].
    destruct (safe_str (row_get r (py "ResponseId"))) as [|? ?];
      [|reflexivity].
    reflexivity.
  - cbn [nonempty]. apply (strip_nonempty _ c); [left; reflexivity|].
    unfold safe_str in F.
    destruct (row_get r (py "RecipientFirstName")) as [s|];
      [|discriminate].
    eapply strip_first. exact F.
Qed.

(** X9.  Every respondent of the report has a name that is not empty:
    the first name with the last, else the e-mail address, the external
    reference or the response identifier, and [Anonymous] with the
    position in the export, counted from one, when the response has none
    of them. There is one respondent for each line of responses. *)
Theorem every_respondent_has_a_name
  (columns : list str) (lines : list (list value)) :
  length (read_respondents columns lines) = length (response_lines lines)
  /\ (forall resp, In resp (read_respondents columns lines) ->
                   nonempty (info_name (resp_info resp)) = true)
  /\ (forall (r : row) (index : nat),
         (forall key,
             In key (map py ["RecipientFirstName"; "RecipientEmail";
                             "ExternalReference"; "ResponseId"]) ->
             is_empty (row_get r key) = true) ->
         info_name (get_respondent_info r index)
         = py "Anonymous #" ++ str_of_nat (index + 1)).
Proof.
  split; [|split].
  - unfold read_respondents.
    rewrite length_map, enumerate_length, length_map. reflexivity.
  - intros resp H. unfold read_respondents in H.
    apply in_map_iff in H. destruct H as ([idx r] & <- & _).
    apply respondent_name_nonempty.
  - intros r index H.
    assert (E : forall key,
               In key (map py ["RecipientFirstName"; "RecipientEmail";
                               "ExternalReference"; "ResponseId"]) ->
               safe_str (row_get r key) = []).
    { intros key Hk. specialize (H key Hk). unfold is_empty in H.
      destruct (row_get r key) as [s|]; [|reflexivity].
      apply str_eqb_eq in H. exact H. }
    unfold get_respondent_info. cbn [info_name].
    rewrite (E (py "RecipientFirstName")), (E (py "RecipientEmail")),
      (E (py "ExternalReference")), (E (py "ResponseId"))
      by (simpl; tauto).
    reflexivity.
Qed.

Lemma every_respondent_has_a_name_witness :
  info_name (get_respondent_info [(py "Q1", Some (py "Yes"))] 4)
  = py "Anonymous #5".
Proof.
  apply (proj2 (proj2 (every_respondent_has_a_name [] []))
           [(py "Q1", Some (py "Yes"))] 4).
  intros key Hk. simpl in Hk.
  repeat (destruct Hk as [<- | Hk]; [reflexivity|]). destruct Hk.
Defined.

(** X10.  The errors of the input come first and in this order: an
    export that is not there ends the run with [FileNotFoundError] and
    one that cannot be read with [ValueError], whatever the definition
    file is; then the definition file is read, and what [parse_qsf]
    raises ends the run; an export that holds the line of the column
    identifiers and nothing below it ends the run with [IndexError]
    once the definition file, if one is given, has been parsed. *)
Theorem input_errors_come_first
  (L : pylib) (qsf : qsf_arg) (debug_mode : bool) :
  process_qualtrics L CsvMissing qsf debug_mode = Raise FileNotFoundError
  /\ process_qualtrics L CsvUnreadable qsf debug_mode = Raise ValueError
  /\ (forall columns lines f e,
         qsf = QsfFile f -> parse_qsf L f = Raise e ->
         process_qualtrics L (Csv columns lines) qsf debug_mode = Raise e)
  /\ (forall columns,
         (forall f, qsf = QsfFile f -> exists m, parse_qsf L f = Ok m) ->
         process_qualtrics L (Csv columns []) qsf debug_mode
         = Raise IndexError).
Proof.
  split; [reflexivity|]. split; [reflexivity|]. split.
  - intros columns lines f e -> H. unfold process_qualtrics.
    cbn [validate_csv bind]. rewrite H. reflexivity.
  - intros columns H. destruct qsf as [| |f]; try reflexivity.
    destruct (H f eq_refl) as [m Hm]. unfold process_qualtrics.
    cbn [validate_csv bind]. rewrite Hm. reflexivity.
Qed.

Lemma input_errors_come_first_witness :
  process_qualtrics latin1_library (Csv [py "Q1"] [])
    (QsfFile (Json (JDict []))) false
  = Raise IndexError.
Proof.
  apply (proj2 (proj2 (proj2 (input_errors_come_first latin1_library
                                (QsfFile (Json (JDict []))) false)))
           [py "Q1"]).
  intros f [= <-]. exists []. reflexivity.
Defined.

(* ================================================================== *)
(** * What is read from the definition file *)
(* ================================================================== *)

Section ParseProperties.

Variable L : pylib.

(** The entry [q] was made from the element: a survey question with
    the export tag, the identifier, the type and the text of [q]. *)
Definition question_of (element : json) (q : qsf_question) : Prop :=
  exists members payload text,
    element = JDict members
    /\ dict_get members (py "Element") = Some (JStr (py "SQ"))
    /\ py_get element "Payload" (JDict []) = Ok (JDict payload)
    /\ py_get (JDict payload) "DataExportTag" (JStr [])
       = Ok (qsf_export_tag q)
    /\ py_bool (qsf_export_tag q) = true
    /\ py_get element "PrimaryAttribute" (JStr []) = Ok (qsf_qid q)
    /\ py_get (JDict payload) "QuestionType" (JStr []) = Ok (qsf_type q)
    /\ py_get (JDict payload) "QuestionText" (JStr []) = Ok text
    /\ clean_html_value L text = Ok (qsf_text q).

(** The element is a survey question whose export tag is the string
    [tag], which is not empty. *)
Definition tagged (element : json) (tag : str) : Prop :=
  exists members payload,
    element = JDict members
    /\ dict_get members (py "Element") = Some (JStr (py "SQ"))
    /\ py_get element "Payload" (JDict []) = Ok (JDict payload)
    /\ dict_get payload (py "DataExportTag") = Some (JStr tag)
    /\ tag <> [].

Lemma in_keys_dict_set {V : Type} (d : dict V) (k k' : str) (v : V) :
  In k' (keys d) \/ k' = k -> In k' (keys (dict_set d k v)).
Proof.
  rewrite keys_dict_set. destruct (dict_mem d k) eqn:E.
  - intros [H | ->]; [exact H | apply dict_mem_in; exact E].
  - intros [H | ->]; apply in_or_app; [left; exact H|].
    right; left; reflexivity.
Qed.

Lemma json_is_str (x : json) (t : str) :
  json_is x (Some t) = true <-> x = JStr t.
Proof.
  destruct x; cbn [json_is]; try (split; discriminate).
  rewrite str_eqb_eq. split; [intros ->; reflexivity|].
  intros [= ->]. reflexivity.
Qed.

Lemma by_column_set_str (m : qsf_metadata) (s : str) (q : qsf_question) :
  by_column (meta_set m (JStr s) q) = dict_set (by_column m) s q.
Proof.
  induction m as [|[k q'] m IH]; [reflexivity|].
  cbn [meta_set]. destruct k; cbn [key_eqb num_value by_column flat_map app];
    try (fold (by_column (meta_set m (JStr s) q)); fold (by_column m);
         exact IH).
  fold (by_column m). cbn [dict_set].
  destruct (str_eqb s s0); cbn [by_column flat_map app]; [reflexivity|].
  fold (by_column (meta_set m (JStr s) q)). rewrite IH. reflexivity.
Qed.

Lemma by_column_set_other (m : qsf_metadata) (k : json) (q : qsf_question) :
  (forall s, k <> JStr s) ->
  by_column (meta_set m k q) = by_column m.
Proof.
  intros Hk. induction m as [|[k' q'] m IH].
  - cbn [meta_set by_column flat_map app].
    destruct k; try reflexivity. contradiction (Hk s). reflexivity.
  - cbn [meta_set].
    assert (E : forall s, key_eqb k (JStr s) = false).
    { intros s. destruct k; try reflexivity.
      contradiction (Hk s0). reflexivity. }
    destruct k' as [| | | | s | |];
      try (destruct (key_eqb k _); cbn [by_column flat_map app];
           fold (by_column m); fold (by_column (meta_set m k q));
           [reflexivity | exact IH]).
    rewrite E. cbn [by_column flat_map app].
    fold (by_column m). fold (by_column (meta_set m k q)).
    rewrite IH. reflexivity.
Qed.

Ltac bind_step :=
  match goal with
  | |- bind ?m _ = Ok _ -> _ =>
      let E := fresh "E" in
      destruct m eqn:E; cbn [bind]; [|discriminate]
  end.

(** What one turn of the loop does: it leaves the questions as they
    are, for an element that is no survey question with a tag, or it
    sets the entry of the export tag. *)
Lemma parse_element_spec (m m' : qsf_metadata) (e : json) :
  parse_element L m e = Ok m' ->
  (m' = m /\ forall tag, ~ tagged e tag)
  \/ exists q,
       question_of e q /\ hashable (qsf_export_tag q) = true
       /\ m' = meta_set m (qsf_export_tag q) q.
Proof.
  unfold parse_element.
  destruct e as [| | | | | |members]; try discriminate.
  cbn [py_get bind].
  destruct (json_is _ (Some (py "SQ"))) eqn:K; cbn [negb].
  - apply json_is_str in K.
    assert (Hsq : dict_get members (py "Element") = Some (JStr (py "SQ"))).
    { destruct (dict_get members (py "Element")); [|discriminate].
      rewrite K. reflexivity. }
    clear K.
    set (payload := match dict_get members (py "Payload") with
                    | Some v => v
                    | None => JDict []
                    end).
    destruct payload as [| | | | | |fields] eqn:P; try discriminate.
    cbn [py_get bind].
    set (tag := match dict_get fields (py "DataExportTag") with
                | Some v => v
                | None => JStr []
                end).
    destruct (py_bool tag) eqn:T; cbn [negb].
    + repeat bind_step.
      destruct (hashable tag) eqn:H; [|discriminate].
      intros [= <-]. right.
      match goal with
      | |- exists q, _ /\ _ /\ meta_set _ _ ?r = _ => exists r
      end.
      split; [|split; [exact H | reflexivity]].
      exists members, fields. eexists.
      cbn [qsf_export_tag qsf_qid qsf_type qsf_text py_get].
      fold payload. rewrite P. fold tag.
      repeat split; try reflexivity; try assumption.
    + intros [= <-]. left. split; [reflexivity|].
      intros t (members' & fields' & [= <-] & _ & Hp & Ht & Hne).
      cbn [py_get] in Hp. fold payload in Hp. rewrite P in Hp.
      injection Hp as <-. unfold tag in T. rewrite Ht in T.
      cbn [py_bool] in T. destruct t; [contradiction | discriminate].
  - intros [= <-]. left. split; [reflexivity|].
    intros t (members' & fields' & [= <-] & Hsq & _).
    rewrite Hsq in K. cbn [json_is] in K.
    rewrite str_eqb_refl in K. discriminate.
Qed.

Lemma tagged_question (e : json) (tag : str) (q : qsf_question) :
  tagged e tag -> question_of e q -> qsf_export_tag q = JStr tag.
Proof.
  intros (members & fields & -> & _ & Hp & Ht & _)
         (members' & fields' & text & [= <-] & _ & Hp' & Hq & _).
  rewrite Hp in Hp'. injection Hp' as <-.
  cbn [py_get] in Hq. rewrite Ht in Hq. injection Hq as <-. reflexivity.
Qed.

Lemma parse_fold_spec (elements : list json) (m m' : qsf_metadata) :
  foldM (parse_element L) elements m = Ok m' ->
  NoDup (keys (by_column m)) ->
  NoDup (keys (by_column m'))
  /\ (forall k, In k (keys (by_column m)) -> In k (keys (by_column m')))
  /\ (forall e tag, In e elements -> tagged e tag ->
                    In tag (keys (by_column m')))
  /\ (forall tag q, In (tag, q) (by_column m') ->
        In (tag, q) (by_column m)
        \/ (tag <> [] /\ qsf_export_tag q = JStr tag
            /\ exists e, In e elements /\ question_of e q)).
Proof.
  revert m; induction elements as [|e elements IH]; intros m; cbn [foldM].
  - intros [= <-] Hnd. repeat split; auto. intros e tag [].
  - destruct (parse_element L m e) as [m1|x] eqn:E; cbn [bind];
      [|discriminate].
    intros F Hnd. apply parse_element_spec in E.
    assert (S1 : NoDup (keys (by_column m1))
                 /\ (forall k, In k (keys (by_column m)) ->
                               In k (keys (by_column m1)))
                 /\ (forall tag, tagged e tag ->
                                 In tag (keys (by_column m1)))
                 /\ (forall tag q, In (tag, q) (by_column m1) ->
                       In (tag, q) (by_column m)
                       \/ (tag <> [] /\ qsf_export_tag q = JStr tag
                           /\ question_of e q))).
    { destruct E as [[-> Hno] | (q & Hq & Hh & ->)].
      - repeat split; auto. intros tag Ht. contradiction (Hno tag).
      - destruct (qsf_export_tag q) as [| | | |s| |] eqn:Eq;
          try (rewrite by_column_set_other by discriminate;
               repeat split; auto;
               intros tag Ht;
               pose proof (tagged_question e tag q Ht Hq) as C;
               rewrite Eq in C; discriminate).
        rewrite by_column_set_str. repeat split.
        + apply nodup_keys_dict_set. exact Hnd.
        + intros k Hk. apply in_keys_dict_set. left. exact Hk.
        + intros tag Ht. apply in_keys_dict_set. right.
          pose proof (tagged_question e tag q Ht Hq) as C.
          rewrite Eq in C. injection C as ->. reflexivity.
        + intros tag q' Hin. apply in_dict_set in Hin.
          destruct Hin as [[= -> ->] | Hin]; [|left; exact Hin].
          right. split; [|split; [exact Eq | exact Hq]].
          destruct Hq as (? & ? & ? & _ & _ & _ & _ & Hb & _).
          rewrite Eq in Hb. intros ->. discriminate. }
    destruct S1 as (A1 & A2 & A3 & A4).
    destruct (IH m1 F A1) as (I1 & I2 & I3 & I4).
    repeat split.
    + exact I1.
    + intros k Hk. apply I2, A2, Hk.
    + intros e' tag [<- | He'] Ht.
      * apply I2, A3, Ht.
      * apply (I3 e' tag He' Ht).
    + intros tag q Hin.
      destruct (I4 tag q Hin) as [Hm | (Hne & Hq & e' & He' & Hr)].
      * destruct (A4 tag q Hm) as [Hm' | (Hne & Hq & Hr)];
          [left; exact Hm'|].
        right. split; [exact Hne|]. split; [exact Hq|].
        exists e. split; [left; reflexivity | exact Hr].
      * right. split; [exact Hne|]. split; [exact Hq|].
        exists e'. split; [right; exact He' | exact Hr].
Qed.

End ParseProperties.

(** X11.  A definition file whose document is no object is not read:
    [parse_qsf] raises [AttributeError].  Whenever [parse_qsf] returns,
    the questions that the extraction can look up, those under a tag
    that is a string, are these and no others: one for every survey
    question of the document whose export tag is a string that is not
    empty, under that tag; each was made from a survey question with
    this tag and carries its identifier, its type and its normalized
    text. *)
Theorem parse_qsf_keeps_the_survey_questions (L : pylib) (data : json) :
  ((forall members, data <> JDict members) ->
   parse_qsf L (Json data) = Raise AttributeError)
  /\ (forall m,
        parse_qsf L (Json data) = Ok m ->
        exists elements,
          survey_elements data = Ok elements
          /\ NoDup (keys (by_column m))
          /\ (forall e tag, In e elements -> tagged e tag ->
                            dict_mem (by_column m) tag = true)
          /\ (forall tag q,
                dict_get (by_column m) tag = Some q ->
                tag <> [] /\ qsf_export_tag q = JStr tag
                /\ exists e, In e elements /\ question_of L e q)).
Proof.
  split.
  - intros H. destruct data; try reflexivity.
    contradiction (H members). reflexivity.
  - intros m. cbn [parse_qsf].
    destruct (survey_elements data) as [elements|e] eqn:E; cbn [bind];
      [|discriminate].
    intros F. exists elements. split; [reflexivity|].
    destruct (parse_fold_spec L elements [] m F) as (H1 & _ & H3 & H4);
      [constructor|].
    split; [exact H1|]. split.
    + intros e tag He Ht. apply dict_mem_in. apply (H3 e tag He Ht).
    + intros tag q G. apply dict_get_in in G.
      destruct (H4 tag q G) as [[] | H]. exact H.
Qed.

(** A document of one survey question and one block. *)
Definition one_question : json :=
  JDict [(py "SurveyElements",
          JList [JDict [(py "Element", JStr (py "BL"))];
                 JDict [(py "Element", JStr (py "SQ"));
                        (py "PrimaryAttribute", JStr (py "QID1"));
                        (py "Payload",
                         JDict [(py "DataExportTag", JStr (py "Q1"));
                                (py "QuestionType", JStr (py "MC"));
                                (py "Selector", JStr (py "SAVR"));
                                (py "QuestionText",
                                 JStr (py "<b>Your colour</b>"));
                                (py "ChoiceOrder", JList [JInt 1; JInt 2]);
                                (py "Choices",
                                 JDict [(py "1",
                                         JDict [(py "Display",
                                                 JStr (py "Red"))]);
                                        (py "2",
                                         JDict [(py "Display",
                                                 JStr (py "Blue"))])])])]])].

Lemma parse_qsf_keeps_the_survey_questions_witness :
  exists m q,
    parse_qsf latin1_library (Json one_question) = Ok m
    /\ dict_get (by_column m) (py "Q1") = Some q
    /\ qsf_export_tag q = JStr (py "Q1")
    /\ qsf_text q = py "Your colour"
    /\ qsf_internal_type q = py "single_choice"
    /\ qsf_choices q = [(py "1", py "Red"); (py "2", py "Blue")].
Proof.
  destruct (parse_qsf latin1_library (Json one_question)) as [m|e] eqn:E;
    [|vm_compute in E; discriminate E].
  destruct (proj2 (parse_qsf_keeps_the_survey_questions latin1_library
                     one_question) m E) as (elements & _ & _ & _ & H).
  assert (Em : m = match parse_qsf latin1_library (Json one_question) with
                   | Ok m0 => m0
                   | Raise _ => []
                   end) by (rewrite E; reflexivity).
  destruct (dict_get (by_column m) (py "Q1")) as [q|] eqn:G;
    [|rewrite Em in G; vm_compute in G; discriminate G].
  exists m, q. split; [reflexivity|]. split; [exact G|].
  destruct (H (py "Q1") q G) as (_ & Ht & _).
  split; [exact Ht|].
  rewrite Em in G. vm_compute in G. injection G as G. subst q.
  repeat split; vm_compute; reflexivity.
Defined.

(* ================================================================== *)
(** * The columns of the questions *)
(* ================================================================== *)

Lemma dict_get_set {V : Type} (d : dict V) (k k' : str) (v : V) :
  dict_get (dict_set d k v) k'
  = if str_eqb k' k then Some v else dict_get d k'.
Proof.
  induction d as [|[k0 v0] d IH]; simpl.
  - destruct (str_eqb k' k); reflexivity.
  - destruct (str_eqb k k0) eqn:E; simpl.
    + apply str_eqb_eq in E. subst k0.
      destruct (str_eqb k' k); reflexivity.
    + destruct (str_eqb k' k0) eqn:E'.
      * apply str_eqb_eq in E'. subst k0.
        destruct (str_eqb k' k) eqn:E''; [|reflexivity].
        apply str_eqb_eq in E''. subst k'.
        rewrite str_eqb_refl in E. discriminate.
      * exact IH.
Qed.

Lemma in_dict_get {V : Type} (d : dict V) (k : str) (v : V) :
  NoDup (keys d) -> In (k, v) d -> dict_get d k = Some v.
Proof.
  induction d as [|[k0 v0] d IH]; simpl; [intros _ []|].
  intros Hnd [[= -> ->] | Hin].
  - rewrite str_eqb_refl. reflexivity.
  - inversion Hnd as [|? ? Hk0 Hnd']; subst.
    destruct (str_eqb k k0) eqn:E.
    + apply str_eqb_eq in E. subst k0. exfalso. apply Hk0.
      apply (in_map fst) in Hin. exact Hin.
    + apply IH; assumption.
Qed.

Lemma append_new_in (l : list str) (x c : str) :
  In c (append_new l x) <-> In c l \/ c = x.
Proof.
  unfold append_new. destruct (str_in x l) eqn:E.
  - split; [tauto|]. intros [H | ->]; [exact H|].
    unfold str_in in E. apply existsb_exists in E.
    destruct E as (y & Hy & E). apply str_eqb_eq in E. subst y. exact Hy.
  - rewrite in_app_iff. simpl. split; intros [H | H]; auto.
    destruct H as [<- | []]. auto.
Qed.

Lemma append_new_nodup (l : list str) (x : str) :
  NoDup l -> NoDup (append_new l x).
Proof.
  intros H. unfold append_new. destruct (str_in x l) eqn:E; [exact H|].
  apply NoDup_rev in H. rewrite <- (rev_involutive (l ++ [x])).
  apply NoDup_rev. rewrite rev_app_distr. simpl. constructor; [|exact H].
  intros Hin. apply in_rev in Hin.
  assert (Ht : str_in x l = true).
  { unfold str_in. apply existsb_exists. exists x.
    split; [exact Hin | apply str_eqb_refl]. }
  rewrite Ht in E. discriminate.
Qed.

Section ColumnsBound.

Variable L : pylib.

(** The identifiers of the columns of the export. *)
Variable header : list str.

(** Every column that a row or a cell of the rows names is one of
    [cols]. *)
Definition rows_bound (cols : list str) (rows : dict row_info) : Prop :=
  (forall r cid label, In (r, RowItem cid label) rows -> In cid cols)
  /\ (forall r label cells k c,
         In (r, RowCells label cells) rows -> In (k, c) cells ->
         In (cell_id c) cols).

(** A question as the reading of the columns keeps it: it knows its
    identifier; its columns are columns of the export that are not
    skipped, each once; and its rows and cells name columns of its
    own. *)
Definition bound0 (id : str) (q : question) : Prop :=
  q_id q = id
  /\ NoDup (q_columns q)
  /\ (forall c, In c (q_columns q) ->
                In c header /\ skipped_column c = false)
  /\ rows_bound (q_columns q) (q_rows q).

Definition bound (id : str) (q : question) : Prop :=
  bound0 id q /\ q_columns q <> [].

(** The question while the column [col_id] is read. *)
Definition bound_with (col_id id : str) (q : question) : Prop :=
  bound0 id q /\ In col_id (q_columns q).

Definition all_bound (questions : dict question) : Prop :=
  NoDup (keys questions)
  /\ forall id q, dict_get questions id = Some q -> bound id q.

Lemma bound_with_ext (col_id id : str) (q q' : question) :
  q_id q' = q_id q -> q_columns q' = q_columns q ->
  q_rows q' = q_rows q ->
  bound_with col_id id q -> bound_with col_id id q'.
Proof.
  unfold bound_with, bound0. intros -> -> ->. tauto.
Qed.

Lemma bound0_ext (id : str) (q q' : question) :
  q_id q' = q_id q -> q_columns q' = q_columns q ->
  q_rows q' = q_rows q -> bound0 id q -> bound0 id q'.
Proof.
  unfold bound0. intros -> -> ->. tauto.
Qed.

Lemma bound_with_start (col_id id : str) (q : question) :
  In col_id header -> skipped_column col_id = false ->
  bound0 id q ->
  bound_with col_id id (set_columns q (append_new (q_columns q) col_id)).
Proof.
  intros Hh Hs (Hid & Hnd & Hc & Hi & Hx).
  unfold bound_with, bound0. cbn [q_id q_columns q_rows set_columns].
  repeat split.
  - exact Hid.
  - apply append_new_nodup. exact Hnd.
  - apply append_new_in in H. destruct H as [H | ->];
      [apply Hc; exact H | exact Hh].
  - apply append_new_in in H. destruct H as [H | ->];
      [apply Hc; exact H | exact Hs].
  - intros r cid label H. apply append_new_in. left.
    eapply Hi; eassumption.
  - intros r label cells k c H1 H2. apply append_new_in. left.
    eapply Hx; eassumption.
  - apply append_new_in. right. reflexivity.
Qed.

Lemma rows_bound_set_cell (cols : list str) (rows rows' : dict row_info)
  (r label c : str) (x : cell) :
  rows_bound cols rows -> In (cell_id x) cols ->
  set_cell rows r label c x = Ok rows' -> rows_bound cols rows'.
Proof.
  intros [Hi Hx] Hin. unfold set_cell.
  set (rows1 := if dict_mem rows r then rows
                else dict_set rows r (RowCells label [])).
  assert (H1 : rows_bound cols rows1).
  { unfold rows1. destruct (dict_mem rows r); [split; assumption|].
    split.
    - intros r0 cid l0 H. apply in_dict_set in H.
      destruct H as [[=] | H]. eapply Hi; eassumption.
    - intros r0 l0 cells0 k c0 H Hc. apply in_dict_set in H.
      destruct H as [[= -> -> ->] | H]; [destruct Hc|].
      eapply Hx; eassumption. }
  clearbody rows1. destruct H1 as [Hi1 Hx1].
  destruct (dict_get rows1 r) as [[id l | l cells]|] eqn:G;
    try discriminate.
  intros [= <-]. apply dict_get_in in G. split.
  - intros r0 cid l0 H. apply in_dict_set in H.
    destruct H as [[=] | H]. eapply Hi1; eassumption.
  - intros r0 l0 cells0 k c0 H Hc. apply in_dict_set in H.
    destruct H as [[= -> -> ->] | H]; [|eapply Hx1; eassumption].
    apply in_dict_set in Hc. destruct Hc as [[= -> ->] | Hc];
      [exact Hin|].
    eapply Hx1; eassumption.
Qed.

Lemma bound_with_cell (col_id id : str) (q q' : question)
  (r c rl cl : str) :
  bound_with col_id id q ->
  bind_cell q r c col_id rl cl = Ok q' -> bound_with col_id id q'.
Proof.
  intros [(Hid & Hnd & Hc & Hr) Hin]. unfold bind_cell.
  destruct (set_cell (q_rows q) r rl c _) as [rows'|e] eqn:E; simpl;
    [|discriminate].
  intros [= <-].
  apply (bound_with_ext col_id id (set_rows q rows'));
    try (unfold add_column; destruct (dict_mem _ c); reflexivity).
  unfold bound_with, bound0. cbn [q_id q_columns q_rows set_rows].
  repeat split; try assumption; try (apply Hc; assumption).
  - eapply rows_bound_set_cell in E; [apply E | exact Hr | exact Hin].
  - eapply rows_bound_set_cell in E; [apply E | exact Hr | exact Hin].
Qed.

Lemma bound_with_item (col_id id : str) (q : question) (r label : str) :
  bound_with col_id id q ->
  bound_with col_id id (bind_item q r col_id label).
Proof.
  intros [(Hid & Hnd & Hc & Hi & Hx) Hin].
  unfold bind_item, add_item.
  destruct (dict_mem (q_rows q) r);
    unfold bound_with, bound0; cbn [q_id q_columns q_rows set_rows];
    repeat split; try assumption; try (apply Hc; assumption).
  - intros r0 cid l0 H. apply in_dict_set in H.
    destruct H as [[= -> -> ->] | H]; [exact Hin|].
    eapply Hi; eassumption.
  - intros r0 l0 cells0 k c0 H Hcell. apply in_dict_set in H.
    destruct H as [[=] | H]. eapply Hx; eassumption.
Qed.

Lemma rows_bound_relabel (cols : list str) (rows : dict row_info)
  (k label : str) (r : row_info) :
  rows_bound cols rows -> dict_get rows k = Some r ->
  rows_bound cols (dict_set rows k (set_row_label r label)).
Proof.
  intros [Hi Hx] G. apply dict_get_in in G. split.
  - intros r0 cid l0 H. apply in_dict_set in H.
    destruct H as [[= -> Hrow] | H]; [|eapply Hi; eassumption].
    destruct r as [id l | l cells]; simpl in Hrow; [|discriminate].
    injection Hrow as -> ->. eapply Hi; eassumption.
  - intros r0 l0 cells0 k0 c0 H Hc. apply in_dict_set in H.
    destruct H as [[= -> Hrow] | H]; [|eapply Hx; eassumption].
    destruct r as [id l | l cells]; simpl in Hrow; [discriminate|].
    injection Hrow as -> ->. eapply Hx; eassumption.
Qed.

(** The question that a step works on, and the table after the step. *)
Lemma step_get (questions : dict question) (base_q : str)
  (q0 q : question) :
  all_bound questions -> bound0 base_q q0 ->
  dict_get (if dict_mem questions base_q then questions
            else dict_set questions base_q q0) base_q = Some q ->
  bound0 base_q q.
Proof.
  intros [_ Hall] H0. destruct (dict_mem questions base_q).
  - intros G. apply Hall in G. apply G.
  - rewrite dict_get_set, str_eqb_refl. intros [= <-]. exact H0.
Qed.

Lemma step_tail (questions : dict question) (col_id base_q : str)
  (q0 q' : question) :
  all_bound questions -> bound_with col_id base_q q' ->
  all_bound (dict_set (if dict_mem questions base_q then questions
                       else dict_set questions base_q q0) base_q q').
Proof.
  intros [Hnd Hall] [Hq Hin]. split.
  - apply nodup_keys_dict_set.
    destruct (dict_mem questions base_q); [exact Hnd|].
    apply nodup_keys_dict_set. exact Hnd.
  - intros id q. rewrite dict_get_set.
    destruct (str_eqb id base_q) eqn:E.
    + apply str_eqb_eq in E. subst id. intros [= <-].
      split; [exact Hq|]. intros Hnil. rewrite Hnil in Hin. destruct Hin.
    + destruct (dict_mem questions base_q); [apply Hall|].
      rewrite dict_get_set, E. apply Hall.
Qed.

Lemma bound0_new (base_q text internal_type : str) (info : qsf_info) :
  bound0 base_q (new_question base_q text internal_type info).
Proof.
  unfold bound0. simpl. repeat split; try constructor; intros; contradiction.
Qed.

Ltac bound_fields :=
  match goal with
  | |- bound_with _ _ (set_type ?q _) =>
      apply (bound_with_ext _ _ q); [reflexivity .. |]
  | |- bound_with _ _ (bind_item _ _ _ _) => apply bound_with_item
  | |- bound_with _ _ (if ?b then _ else _) => destruct b
  end.

Ltac bound_branch :=
  match goal with
  | H : Ok _ = Ok _ |- _ => injection H as <-
  | H : Raise _ = Ok _ |- _ => discriminate H
  | H : bind_cell _ _ _ _ _ _ = Ok _ |- bound_with ?c ?i _ =>
      refine (bound_with_cell c i _ _ _ _ _ _ _ H); clear H
  | H : (if ?b then _ else _) = Ok _ |- _ => destruct b eqn:?
  | H : (let '(_, _) := ?x in _) = Ok _ |- _ => destruct x eqn:?
  end.

Lemma with_qsf_step_bound (meta : dict qsf_question)
  (questions questions' : dict question) (column : str * value) :
  In (fst column) header ->
  all_bound questions ->
  with_qsf_step L meta questions column = Ok questions' ->
  all_bound questions'.
Proof.
  intros Hh Hall. unfold with_qsf_step. destruct column as [col_id col_text].
  simpl in Hh.
  destruct (skipped_column col_id) eqn:Hs; [intros [= <-]; exact Hall|].
  match goal with
  | |- match ?n with _ => _ end = _ -> _ => destruct n as [name|]
  end; [|intros [= <-]; exact Hall].
  cbv zeta.
  match goal with
  | |- (if ?b then _ else _) = _ -> _ => destruct b
  end; [intros [= <-]; exact Hall|].
  set (base_q := py "Q" ++ base_number name).
  set (info := dict_get meta base_q).
  match goal with
  | |- context [dict_set questions base_q ?n] => set (q0 := n)
  end.
  destruct (dict_get (if dict_mem questions base_q then questions
                      else dict_set questions base_q q0) base_q)
    as [q|] eqn:G; [|discriminate].
  pose proof (step_get _ _ _ _ Hall (bound0_new _ _ _ _) G) as Hq.
  pose proof (bound_with_start col_id base_q q Hh Hs Hq) as Hq1.
  set (q1 := set_columns q (append_new (q_columns q) col_id)) in *.
  clearbody q1.
  match goal with
  | |- bind ?m _ = _ -> _ => destruct m as [q'|e] eqn:B
  end; simpl; [|discriminate].
  intros [= <-]. apply (step_tail _ col_id); [exact Hall|].
  destruct (extract_matrix_labels L col_text) as [[base row_csv] col_csv].
  repeat bound_branch; repeat bound_fields; exact Hq1.
Qed.

Lemma add_column_same (q : question) (c label : str) :
  q_id (add_column q c label) = q_id q
  /\ q_columns (add_column q c label) = q_columns q
  /\ q_rows (add_column q c label) = q_rows q.
Proof.
  unfold add_column. destruct (dict_mem (q_col_headers q) c); auto.
Qed.

Lemma from_csv_step_bound
  (questions questions' : dict question) (column : str * value) :
  In (fst column) header ->
  all_bound questions ->
  from_csv_step L questions column = Ok questions' ->
  all_bound questions'.
Proof.
  intros Hh Hall. unfold from_csv_step. destruct column as [col_id col_text].
  simpl in Hh.
  destruct (skipped_column col_id) eqn:Hs; [intros [= <-]; exact Hall|].
  destruct (re_match (COLUMN_ID L) col_id) as [st|];
    [|intros [= <-]; exact Hall].
  cbv zeta.
  match goal with
  | |- (if ?b then _ else _) = _ -> _ => destruct b
  end; [intros [= <-]; exact Hall|].
  destruct (extract_matrix_labels L col_text) as [[base_text row_lbl] col_lbl].
  set (name := four_groups st).
  set (base_q := py "Q" ++ base_number name).
  set (q0 := new_question base_q [] (py "unknown") None).
  destruct (dict_get (if dict_mem questions base_q then questions
                      else dict_set questions base_q q0) base_q)
    as [q|] eqn:G; [|discriminate].
  pose proof (step_get _ _ _ _ Hall (bound0_new _ _ _ _) G) as Hq.
  set (q2 := if length (q_text q) <? length base_text
             then set_text q base_text else q).
  assert (Hq2 : bound0 base_q q2).
  { unfold q2. destruct (_ <? _); [|exact Hq].
    apply (bound0_ext _ q); try reflexivity. exact Hq. }
  pose proof (bound_with_start col_id base_q q2 Hh Hs Hq2) as Hq1.
  set (q1 := set_columns q2 (append_new (q_columns q2) col_id)) in *.
  clearbody q1.
  match goal with
  | |- bind ?m _ = _ -> _ => destruct m as [q'|e] eqn:B
  end; simpl; [|discriminate].
  intros [= <-]. apply (step_tail _ col_id); [exact Hall|].
  destruct (truthy (sub1 name) && truthy (sub2 name)).
  - set (q3 := set_type q1 matrix) in *.
    assert (Hq3 : bound_with col_id base_q q3).
    { unfold q3. bound_fields. exact Hq1. }
    clearbody q3.
    match type of B with
    | bind (set_cell ?rows _ _ _ _) _ = _ => set (rows2 := rows) in B
    end.
    assert (Hr2 : rows_bound (q_columns q3) rows2).
    { unfold rows2.
      destruct (dict_get (q_rows q3) (the (sub1 name))) as [r|] eqn:Gr;
        [|apply Hq3].
      destruct (negb _); [|apply Hq3].
      apply rows_bound_relabel; [apply Hq3 | exact Gr]. }
    clearbody rows2.
    destruct (set_cell rows2 _ _ _ _) as [rows'|e] eqn:Ec;
      unfold bind in B; [|discriminate].
    apply Ok_inj in B. subst q'.
    eapply rows_bound_set_cell in Ec; [|exact Hr2 | simpl; apply Hq3].
    assert (Hfin : bound_with col_id base_q (set_rows q3 rows')).
    { destruct Hq3 as [(Hid & Hnd & Hc & _) Hin].
      unfold bound_with, bound0. cbn [q_id q_columns q_rows set_rows].
      repeat split; try assumption; try (apply Hc; assumption);
        apply Ec. }
    repeat match goal with
           | |- bound_with _ _ (if ?b then _ else _) => destruct b
           end;
      (apply (bound_with_ext _ _ (set_rows q3 rows')); [ | | |exact Hfin]);
      try reflexivity; apply add_column_same.
  - destruct (truthy (sub1 name)); injection B as <-;
      repeat bound_fields; exact Hq1.
Qed.

End ColumnsBound.

Lemma foldM_invariant_in {A S : Type} (P : S -> Prop)
  (f : S -> A -> result S) (l : list A) (s s' : S) :
  (forall s a s', In a l -> P s -> f s a = Ok s' -> P s') ->
  P s -> foldM f l s = Ok s' -> P s'.
Proof.
  revert s; induction l as [|a l IH]; intros s Hf Hs; simpl.
  - intros [= <-]. exact Hs.
  - destruct (f s a) as [s1|e] eqn:E; simpl; [|discriminate].
    apply IH.
    + intros s2 a2 s2' Hin. apply Hf. right. exact Hin.
    + eapply Hf; [left; reflexivity | exact Hs | exact E].
Qed.

Lemma extraction_all_bound
  (L : pylib) (columns : list str) (texts : list value)
  (qsf_metadata : dict qsf_question) (questions : dict question) :
  extract_questions_with_qsf L columns texts qsf_metadata = Ok questions
  \/ extract_questions_from_csv L columns texts = Ok questions ->
  all_bound columns questions.
Proof.
  assert (H0 : all_bound columns []).
  { split; [constructor|]. intros id q. discriminate. }
  intros [H | H].
  - eapply (foldM_invariant_in (all_bound columns)); [|exact H0|exact H].
    intros s [c t] s' Hin. apply with_qsf_step_bound.
    apply in_combine_l in Hin. exact Hin.
  - eapply (foldM_invariant_in (all_bound columns)); [|exact H0|exact H].
    intros s [c t] s' Hin. apply from_csv_step_bound.
    apply in_combine_l in Hin. exact Hin.
Qed.

(** X12.  Whichever way the columns are read, the questions of the
    result have distinct identifiers, and each of them knows its own; it
    has at least one column; its columns are columns of the export, none
    of them a column of metadata or of timing, each once; and every
    column that one of its rows or of its cells names is a column of the
    question. *)
Theorem extraction_binds_rows_to_columns
  (L : pylib) (columns : list str) (texts : list value)
  (qsf_metadata : dict qsf_question) (questions : dict question) :
  extract_questions_with_qsf L columns texts qsf_metadata = Ok questions
  \/ extract_questions_from_csv L columns texts = Ok questions ->
  NoDup (keys questions)
  /\ forall id q,
       In (id, q) questions ->
       q_id q = id
       /\ q_columns q <> []
       /\ NoDup (q_columns q)
       /\ (forall c, In c (q_columns q) ->
                     In c columns /\ skipped_column c = false)
       /\ (forall r cid label,
              In (r, RowItem cid label) (q_rows q) ->
              In cid (q_columns q))
       /\ (forall r label cells k c,
              In (r, RowCells label cells) (q_rows q) ->
              In (k, c) cells -> In (cell_id c) (q_columns q)).
Proof.
  intros H. apply extraction_all_bound in H. destruct H as [Hnd Hall].
  split; [exact Hnd|]. intros id q Hin.
  apply (in_dict_get _ _ _ Hnd) in Hin. apply Hall in Hin.
  destruct Hin as [(Hid & Hc & Hh & Hi & Hx) Hne]. auto 10.
Qed.

(** X13.  A respondent who answered a cell of a matrix question that was
    read from the export is found by [has_response], and so is listed
    under the question. *)
Theorem answered_cells_are_listed
  (L : pylib) (columns : list str) (texts : list value)
  (qsf_metadata : dict qsf_question) (questions : dict question)
  (id : str) (q : question) (r : row) :
  extract_questions_with_qsf L columns texts qsf_metadata = Ok questions
  \/ extract_questions_from_csv L columns texts = Ok questions ->
  In (id, q) questions ->
  has_data (q_rows q) r = true ->
  has_response q r = true.
Proof.
  intros H Hin Hd. apply extraction_all_bound in H.
  destruct H as [Hnd Hall].
  apply (in_dict_get _ _ _ Hnd) in Hin. apply Hall in Hin.
  destruct Hin as [(_ & _ & _ & _ & Hx) _].
  unfold has_data in Hd. apply existsb_exists in Hd.
  destruct Hd as (row_info & Hrow & Hd).
  unfold values in Hrow. apply in_map_iff in Hrow.
  destruct Hrow as ([k ri] & <- & Hrow). simpl in Hd.
  destruct ri as [cid label | label cells]; [discriminate|].
  apply existsb_exists in Hd. destruct Hd as (c & Hc & Hd).
  unfold values in Hc. apply in_map_iff in Hc.
  destruct Hc as ([kc c'] & <- & Hc). simpl in Hd.
  unfold has_response. apply existsb_exists.
  exists (cell_id c'). split; [|exact Hd].
  eapply Hx; eassumption.
Qed.

Definition rate_columns : list str :=
  map py ["ResponseId"; "Q3_1_1"; "Q3_1_2"; "Q3_2_1"; "Q3_2_2"].

Definition rate_texts : list value :=
  map (fun s => Some (py s))
    ["Response ID"; "Rate - Speed - Good"; "Rate - Speed - Bad";
     "Rate - Cost - Good"; "Rate - Cost - Bad"].

Lemma extraction_binds_rows_to_columns_witness :
  exists questions,
    extract_questions_from_csv latin1_library rate_columns rate_texts
    = Ok questions
    /\ NoDup (keys questions)
    /\ forall id q, In (id, q) questions ->
                    q_id q = id /\ q_columns q <> [].
Proof.
  eexists. split; [vm_compute; reflexivity|].
  match goal with
  | |- NoDup (keys ?qs) /\ _ =>
      assert (E : extract_questions_from_csv latin1_library rate_columns
                    rate_texts = Ok qs) by (vm_compute; reflexivity)
  end.
  destruct (extraction_binds_rows_to_columns latin1_library rate_columns
              rate_texts [] _ (or_intror E)) as [Hnd H].
  split; [exact Hnd|]. intros id q Hin.
  destruct (H id q Hin) as (H1 & H2 & _). split; assumption.
Defined.

Lemma answered_cells_are_listed_witness :
  exists questions q,
    extract_questions_from_csv latin1_library rate_columns rate_texts
    = Ok questions
    /\ In (py "Q3", q) questions
    /\ has_data (q_rows q) [(py "Q3_2_1", Some (py "yes"))] = true
    /\ has_response q [(py "Q3_2_1", Some (py "yes"))] = true.
Proof.
  eexists. eexists. split; [vm_compute; reflexivity|].
  match goal with
  | |- In _ ?qs /\ _ =>
      assert (E : extract_questions_from_csv latin1_library rate_columns
                    rate_texts = Ok qs) by (vm_compute; reflexivity)
  end.
  split; [left; reflexivity|].
  match goal with
  | |- ?d = true /\ _ =>
      assert (Hd : d = true) by (vm_compute; reflexivity)
  end.
  split; [exact Hd|].
  apply (answered_cells_are_listed latin1_library rate_columns rate_texts
           [] _ (py "Q3") _ _ (or_intror E)); [left; reflexivity | exact Hd].
Defined.

(* ================================================================== *)
(** * The types of the questions *)
(* ================================================================== *)

Lemma dict_set_in {V : Type} (d : dict V) (k : str) (v : V) :
  In (k, v) (dict_set d k v).
Proof.
  induction d as [|[k' v'] d IH]; simpl; [left; reflexivity|].
  destruct (str_eqb k k') eqn:E.
  - apply str_eqb_eq in E. subst k'. left. reflexivity.
  - right. exact IH.
Qed.

Lemma dict_set_nonempty {V : Type} (d : dict V) (k : str) (v : V) :
  dict_set d k v <> [].
Proof.
  intros H. pose proof (dict_set_in d k v) as Hin. rewrite H in Hin.
  destruct Hin.
Qed.

Lemma has_cells_in (rows : dict row_info) (r label : str)
  (cells : dict cell) :
  In (r, RowCells label cells) rows ->
  existsb has_cells_key (values rows) = true.
Proof.
  intros H. apply existsb_exists. exists (RowCells label cells).
  split; [|reflexivity]. unfold values.
  apply (in_map snd) in H. exact H.
Qed.

Lemma set_cell_has_cells (rows rows' : dict row_info) (r label c : str)
  (x : cell) :
  set_cell rows r label c x = Ok rows' ->
  existsb has_cells_key (values rows') = true.
Proof.
  unfold set_cell.
  destruct (dict_get _ r) as [[id l | l cells]|]; try discriminate.
  intros [= <-]. eapply has_cells_in. apply dict_set_in.
Qed.

(** A question as the reading of the export alone keeps it. *)
Definition inferred (q : question) : Prop :=
  q_internal_type q = py "unknown"
  /\ q_qsf_info q = None
  /\ (q_type q = single /\ q_rows q = []
      \/ q_type q = grouped /\ q_rows q <> []
      \/ q_type q = matrix
         /\ existsb has_cells_key (values (q_rows q)) = true).

Definition all_inferred (questions : dict question) : Prop :=
  forall id q, In (id, q) questions -> inferred q.

Lemma from_csv_step_inferred (L : pylib)
  (questions questions' : dict question) (column : str * value) :
  all_inferred questions ->
  from_csv_step L questions column = Ok questions' ->
  all_inferred questions'.
Proof.
  intros Hall. unfold from_csv_step. destruct column as [col_id col_text].
  destruct (skipped_column col_id); [intros [= <-]; exact Hall|].
  destruct (re_match (COLUMN_ID L) col_id) as [st|];
    [|intros [= <-]; exact Hall].
  cbv zeta.
  match goal with
  | |- (if ?b then _ else _) = _ -> _ => destruct b
  end; [intros [= <-]; exact Hall|].
  destruct (extract_matrix_labels L col_text) as [[base_text row_lbl] col_lbl].
  set (name := four_groups st).
  set (base_q := py "Q" ++ base_number name).
  set (q0 := new_question base_q [] (py "unknown") None).
  set (questions1 := if dict_mem questions base_q then questions
                     else dict_set questions base_q q0).
  assert (H1 : all_inferred questions1).
  { unfold questions1. destruct (dict_mem questions base_q); [exact Hall|].
    intros id q Hin. apply in_dict_set in Hin.
    destruct Hin as [[= -> ->] | Hin]; [|eapply Hall; exact Hin].
    unfold inferred, q0, new_question. cbn. auto. }
  destruct (dict_get questions1 base_q) as [q|] eqn:G; [|discriminate].
  apply dict_get_in in G. apply H1 in G.
  set (q2 := if length (q_text q) <? length base_text
             then set_text q base_text else q).
  assert (Hq2 : inferred q2).
  { unfold q2. destruct (_ <? _); exact G. }
  set (q1 := set_columns q2 (append_new (q_columns q2) col_id)).
  assert (Hq1 : inferred q1) by exact Hq2.
  clearbody q1. clear Hq2 G.
  match goal with
  | |- bind ?m _ = _ -> _ => destruct m as [q'|e] eqn:B
  end; simpl; [|discriminate].
  intros [= <-]. intros id q3 Hin. apply in_dict_set in Hin.
  destruct Hin as [[= -> ->] | Hin]; [|eapply H1; exact Hin].
  destruct Hq1 as (Hi & Hn & Hshape).
  destruct (truthy (sub1 name) && truthy (sub2 name)).
  - match type of B with
    | bind (set_cell ?rows _ _ _ _) _ = _ => set (rows2 := rows) in B
    end.
    destruct (set_cell rows2 _ _ _ _) as [rows'|e] eqn:Ec;
      unfold bind in B; [|discriminate].
    apply Ok_inj in B. subst q'. apply set_cell_has_cells in Ec.
    assert (Hfin : forall q4,
               q_internal_type q4 = q_internal_type q1 ->
               q_qsf_info q4 = q_qsf_info q1 -> q_type q4 = matrix ->
               q_rows q4 = rows' -> inferred q4).
    { intros q4 E1 E2 E3 E4. unfold inferred.
      rewrite E1, E2, E3, E4.
      split; [exact Hi|]. split; [exact Hn|]. right. right.
      split; [reflexivity | exact Ec]. }
    repeat match goal with
           | |- inferred (if ?b then _ else _) => destruct b
           end;
      apply Hfin; try reflexivity;
      unfold add_column; cbn [q_col_headers set_rows set_type];
      destruct (dict_mem (q_col_headers q1) (the (sub2 name)));
      reflexivity.
  - destruct (truthy (sub1 name)); injection B as <-.
    + unfold inferred. cbn. repeat split; try assumption.
      right. left. split; [reflexivity|].
      unfold add_item. destruct (dict_mem (q_rows q1) _) eqn:Em.
      * intros E. rewrite E in Em. discriminate.
      * apply dict_set_nonempty.
    + unfold inferred. auto.
Qed.

(** X14.  Read from the export alone, a question is of type single,
    grouped or matrix, never a choice or a form; it has no definition
    and the internal type [unknown]; it is single exactly as long as it
    has no row; and a matrix has a row of cells, so that it is shown as
    a grid. *)
Theorem inference_gives_three_types
  (L : pylib) (columns : list str) (texts : list value)
  (questions : dict question) :
  extract_questions_from_csv L columns texts = Ok questions ->
  forall id q,
    In (id, q) questions ->
    q_internal_type q = py "unknown"
    /\ q_qsf_info q = None
    /\ (q_type q = single /\ q_rows q = []
        \/ q_type q = grouped /\ q_rows q <> []
        \/ q_type q = matrix
           /\ existsb has_cells_key (values (q_rows q)) = true).
Proof.
  intros H.
  apply (foldM_invariant all_inferred (from_csv_step L)
           (combine columns texts) [] questions); [| |exact H].
  - intros s a s'. apply from_csv_step_inferred.
  - intros id q [].
Qed.

Lemma inference_gives_three_types_witness :
  exists questions q,
    extract_questions_from_csv latin1_library rate_columns rate_texts
    = Ok questions
    /\ In (py "Q3", q) questions
    /\ q_type q = matrix
    /\ existsb has_cells_key (values (q_rows q)) = true.
Proof.
  eexists. eexists. split; [vm_compute; reflexivity|].
  match goal with
  | |- In _ ?qs /\ _ =>
      assert (E : extract_questions_from_csv latin1_library rate_columns
                    rate_texts = Ok qs) by (vm_compute; reflexivity)
  end.
  split; [left; reflexivity|]. split; [reflexivity|].
  destruct (inference_gives_three_types latin1_library rate_columns
              rate_texts _ E (py "Q3") _ (or_introl eq_refl))
    as (_ & _ & [[Hs _] | [[Hg _] | [_ Hm]]]);
    [discriminate Hs | discriminate Hg | exact Hm].
Defined.

(** The types that a question can have, given the internal type that
    its definition was mapped to. *)
Definition shape_ok (internal : str) (t : shape) : Prop :=
  if is_matrix_type internal then t = matrix
  else if str_eqb internal (py "form") then t = form
  else if is_choice_type internal then t = single \/ t = choice
  else t = single \/ t = matrix \/ t = grouped.

Definition defined_by (meta : dict qsf_question) (id : str)
  (q : question) : Prop :=
  q_qsf_info q = dict_get meta id
  /\ q_internal_type q
     = info_get qsf_internal_type (py "unknown") (dict_get meta id)
  /\ (nonempty (info_get qsf_text [] (dict_get meta id)) = true ->
      q_text q = info_get qsf_text [] (dict_get meta id)).

Definition all_defined (meta : dict qsf_question)
  (questions : dict question) : Prop :=
  forall id q,
    dict_get questions id = Some q ->
    defined_by meta id q /\ shape_ok (q_internal_type q) (q_type q).

(** [q'] is [q] but for its rows and columns, with the type [t]. *)
Definition kind_of (q q' : question) (t : shape) : Prop :=
  q_text q' = q_text q
  /\ q_internal_type q' = q_internal_type q
  /\ q_qsf_info q' = q_qsf_info q
  /\ q_type q' = t.

Lemma bind_cell_kind (q q' : question) (r c col_id rl cl : str) :
  bind_cell q r c col_id rl cl = Ok q' -> kind_of q q' (q_type q).
Proof.
  unfold bind_cell.
  destruct (set_cell (q_rows q) r rl c _) as [rows'|e]; simpl;
    [|discriminate].
  intros [= <-]. unfold kind_of, add_column.
  destruct (dict_mem _ c); repeat split; reflexivity.
Qed.

Lemma with_qsf_step_defined (L : pylib) (meta : dict qsf_question)
  (questions questions' : dict question) (column : str * value) :
  all_defined meta questions ->
  with_qsf_step L meta questions column = Ok questions' ->
  all_defined meta questions'.
Proof.
  intros Hall. unfold with_qsf_step. destruct column as [col_id col_text].
  destruct (skipped_column col_id); [intros [= <-]; exact Hall|].
  match goal with
  | |- match ?n with _ => _ end = _ -> _ => destruct n as [name|]
  end; [|intros [= <-]; exact Hall].
  cbv zeta.
  match goal with
  | |- (if ?b then _ else _) = _ -> _ => destruct b
  end; [intros [= <-]; exact Hall|].
  set (base_q := py "Q" ++ base_number name).
  set (info := dict_get meta base_q).
  set (it := info_get qsf_internal_type (py "unknown") info).
  match goal with
  | |- context [dict_set questions base_q ?n] => set (q0 := n)
  end.
  destruct (dict_get (if dict_mem questions base_q then questions
                      else dict_set questions base_q q0) base_q)
    as [q|] eqn:G; [|discriminate].
  assert (Hq : defined_by meta base_q q
               /\ (q_type q = single \/ shape_ok it (q_type q))).
  { destruct (dict_mem questions base_q).
    - apply Hall in G. destruct G as [Hd Hs]. split; [exact Hd|].
      right. destruct Hd as (_ & Hi & _). rewrite Hi in Hs. exact Hs.
    - rewrite dict_get_set, str_eqb_refl in G. injection G as <-.
      split; [|left; reflexivity].
      split; [reflexivity|]. split; [reflexivity|].
      fold info. intros Ht. unfold q0. cbn [q_text new_question].
      rewrite Ht.
      reflexivity. }
  set (q1 := set_columns q (append_new (q_columns q) col_id)).
  assert (Hq1 : defined_by meta base_q q1
                /\ (q_type q1 = single \/ shape_ok it (q_type q1)))
    by exact Hq.
  clearbody q1. clear Hq G. destruct Hq1 as [(Hinfo & Hint & Htext) Htype].
  fold info in Hinfo, Hint, Htext. fold it in Hint.
  match goal with
  | |- bind ?m _ = _ -> _ => destruct m as [q'|e] eqn:B
  end; simpl; [|discriminate].
  intros [= <-].
  assert (Hq' : defined_by meta base_q q'
                /\ shape_ok (q_internal_type q') (q_type q')).
  { assert (Hfin : forall t, kind_of q1 q' t -> shape_ok it t ->
                             defined_by meta base_q q'
                             /\ shape_ok (q_internal_type q') (q_type q')).
    { intros t (K0 & K1 & K2 & K3) Hs. unfold defined_by.
      rewrite K0, K1, K2, K3, Hint. auto. }
    unfold shape_ok in Htype |- *.
    destruct (is_matrix_type it) eqn:Em.
    - apply (Hfin matrix); [|unfold shape_ok; rewrite Em; reflexivity].
      repeat match type of B with
             | (if ?b then _ else _) = Ok _ => destruct b
             end;
        [apply bind_cell_kind in B; exact B | |];
        injection B as <-; repeat split; reflexivity.
    - destruct (str_eqb it (py "form")) eqn:Ef.
      + apply (Hfin form);
          [|unfold shape_ok; rewrite Em, Ef; reflexivity].
        destruct (truthy _); injection B as <-;
          repeat split; reflexivity.
      + destruct (is_choice_type it) eqn:Ec.
        * destruct (truthy _); injection B as <-.
          -- apply (Hfin choice); [repeat split; reflexivity|].
             unfold shape_ok. rewrite Em, Ef, Ec. right. reflexivity.
          -- apply (Hfin (q_type q1)); [repeat split; reflexivity|].
             unfold shape_ok. rewrite Em, Ef, Ec.
             destruct Htype as [H | H]; [left; exact H | exact H].
        * destruct (extract_matrix_labels L col_text)
            as [[base row_csv] col_csv].
          repeat match type of B with
                 | (if ?b then _ else _) = Ok _ => destruct b
                 end.
          -- apply (Hfin matrix);
               [apply bind_cell_kind in B; exact B|].
             unfold shape_ok. rewrite Em, Ef, Ec. auto.
          -- injection B as <-.
             apply (Hfin grouped); [repeat split; reflexivity|].
             unfold shape_ok. rewrite Em, Ef, Ec. auto.
          -- injection B as <-.
             apply (Hfin (q_type q1)); [repeat split; reflexivity|].
             unfold shape_ok. rewrite Em, Ef, Ec.
             destruct Htype as [H | H]; [left; exact H | exact H]. }
  intros id q2. rewrite dict_get_set.
  destruct (str_eqb id base_q) eqn:E.
  - apply str_eqb_eq in E. subst id. intros [= <-]. exact Hq'.
  - destruct (dict_mem questions base_q); [apply Hall|].
    rewrite dict_get_set, E. apply Hall.
Qed.

(** X15.  Read with the definition file, a question keeps the definition
    found under its identifier, the internal type of it ([unknown]
    without one) and its text if it has one, and the internal type
    decides its type: a matrix for the three matrix types and a form for
    a form, whatever the columns look like; single or choice for the two
    choice types; and single, grouped or matrix, by the sub-indices of
    the columns, for all others. *)
Theorem definition_decides_the_type
  (L : pylib) (columns : list str) (texts : list value)
  (qsf_metadata : dict qsf_question) (questions : dict question) :
  extract_questions_with_qsf L columns texts qsf_metadata = Ok questions ->
  forall id q,
    In (id, q) questions ->
    q_qsf_info q = dict_get qsf_metadata id
    /\ q_internal_type q
       = info_get qsf_internal_type (py "unknown")
           (dict_get qsf_metadata id)
    /\ (nonempty (info_get qsf_text [] (dict_get qsf_metadata id)) = true ->
        q_text q = info_get qsf_text [] (dict_get qsf_metadata id))
    /\ (is_matrix_type (q_internal_type q) = true -> q_type q = matrix)
    /\ (q_internal_type q = py "form" -> q_type q = form)
    /\ (is_choice_type (q_internal_type q) = true ->
        q_type q = single \/ q_type q = choice)
    /\ (is_matrix_type (q_internal_type q) = false ->
        q_internal_type q <> py "form" ->
        is_choice_type (q_internal_type q) = false ->
        q_type q = single \/ q_type q = matrix \/ q_type q = grouped).
Proof.
  intros H id q Hin.
  pose proof (extraction_all_bound L columns texts qsf_metadata questions
                (or_introl H)) as [Hnd _].
  apply (in_dict_get _ _ _ Hnd) in Hin.
  assert (Hall : all_defined qsf_metadata questions).
  { apply (foldM_invariant (all_defined qsf_metadata)
             (with_qsf_step L qsf_metadata) (combine columns texts) []
             questions); [| |exact H].
    - intros s a s'. apply with_qsf_step_defined.
    - intros id' q'. discriminate. }
  destruct (Hall id q Hin) as [(H1 & H2 & H3) Hs].
  split; [exact H1|]. split; [exact H2|]. split; [exact H3|].
  unfold shape_ok in Hs.
  destruct (is_matrix_type (q_internal_type q)) eqn:Em.
  - repeat split; try discriminate; auto.
    + intros E. rewrite E in Em. vm_compute in Em. discriminate.
    + intros E. exfalso. clear - Em E. unfold is_matrix_type, is_choice_type,
        str_in in *. simpl in *.
      repeat match goal with
             | H : (_ || _) = true |- _ =>
                 apply orb_true_iff in H; destruct H as [H | H]
             end; try discriminate;
        apply str_eqb_eq in Em; apply str_eqb_eq in E; rewrite Em in E;
        vm_compute in E; discriminate.
  - destruct (str_eqb (q_internal_type q) (py "form")) eqn:Ef.
    + apply str_eqb_eq in Ef. repeat split; try discriminate; auto.
      * intros E. rewrite Ef in E. vm_compute in E. discriminate.
      * intros _ E. contradiction.
    + apply str_eqb_neq in Ef.
      destruct (is_choice_type (q_internal_type q)) eqn:Ec;
        repeat split; try discriminate; auto; try contradiction.
Qed.

Definition likert_question : qsf_question :=
  {| qsf_qid := JStr (py "QID3"); qsf_export_tag := JStr (py "Q3");
     qsf_text := py "Rate the service"; qsf_type := JStr (py "Matrix");
     qsf_selector := JStr (py "Likert");
     qsf_subselector := JStr (py "SingleAnswer");
     qsf_internal_type := py "matrix_likert";
     qsf_choices := [(py "1", py "Speed"); (py "2", py "Cost")];
     qsf_choice_order := [py "1"; py "2"];
     qsf_answers := [(py "1", py "Good"); (py "2", py "Bad")];
     qsf_answer_order := [py "1"; py "2"];
     qsf_recode_values := JDict [] |}.

Lemma definition_decides_the_type_witness :
  exists questions q,
    extract_questions_with_qsf latin1_library (map py ["Q3_1"; "Q3_2"])
      [Some (py "Rate - Speed"); Some (py "Rate - Cost")]
      [(py "Q3", likert_question)]
    = Ok questions
    /\ In (py "Q3", q) questions
    /\ is_matrix_type (q_internal_type q) = true
    /\ q_type q = matrix.
Proof.
  eexists. eexists. split; [vm_compute; reflexivity|].
  match goal with
  | |- In _ ?qs /\ _ =>
      assert (E : extract_questions_with_qsf latin1_library
                    (map py ["Q3_1"; "Q3_2"])
                    [Some (py "Rate - Speed"); Some (py "Rate - Cost")]
                    [(py "Q3", likert_question)] = Ok qs)
        by (vm_compute; reflexivity)
  end.
  split; [left; reflexivity|].
  match goal with
  | |- ?m = true /\ _ =>
      assert (Hm : m = true) by (vm_compute; reflexivity)
  end.
  split; [exact Hm|].
  destruct (definition_decides_the_type latin1_library _ _ _ _ E (py "Q3")
              _ (or_introl eq_refl)) as (_ & _ & _ & H & _).
  apply H. exact Hm.
Defined.

(* ================================================================== *)
(** * Answers that are all different *)
(* ================================================================== *)

Lemma filter_all {A : Type} (p : A -> bool) (l : list A) :
  (forall x, In x l -> p x = true) -> filter p l = l.
Proof.
  induction l as [|a l IH]; intros H; simpl; [reflexivity|].
  rewrite (H a) by (left; reflexivity). f_equal. apply IH.
  intros x Hx. apply H. right. exact Hx.
Qed.

Lemma distinct_nodup (l : list str) : NoDup l -> distinct l = l.
Proof.
  induction 1 as [|x l Hx Hnd IH]; simpl; [reflexivity|].
  rewrite IH. f_equal. apply filter_all. intros y Hy.
  apply negb_true_iff. apply str_eqb_neq. intros ->. contradiction.
Qed.

Lemma ratio_full (n : nat) :
  0 < n -> Qlt_bool MAX_CATEGORICAL_UNIQUE_RATIO (ratio n n) = true.
Proof.
  intros H. unfold Qlt_bool, Qle_bool, ratio, MAX_CATEGORICAL_UNIQUE_RATIO.
  cbn [Qnum Qden]. apply negb_true_iff. apply Z.leb_gt.
  assert (E : Z.pos (Pos.of_nat n) = Z.of_nat n).
  { rewrite <- (positive_nat_Z (Pos.of_nat n)), Nat2Pos.id by lia.
    reflexivity. }
  rewrite E. lia.
Qed.

(** Values that are not blank and, stripped, all different are unique
    data. *)
Lemma distinct_values_are_unique (L : pylib) (values : list str) :
  values <> [] ->
  (forall v, In v values -> nonempty (strip v) = true) ->
  NoDup (map strip values) ->
  values_are_unique_data L values = true.
Proof.
  intros Hne Hall Hnd. unfold values_are_unique_data.
  destruct values as [|v0 values]; [contradiction|].
  cbn [length Nat.ltb Nat.leb negb].
  rewrite filter_all by exact Hall.
  change (map (fun v => safe_str (Some v)) (v0 :: values))
    with (map strip (v0 :: values)).
  rewrite distinct_nodup by exact Hnd.
  rewrite length_map. cbn [length Nat.ltb Nat.leb negb].
  rewrite ratio_full by lia. reflexivity.
Qed.

Lemma collect_items_values (rows_data : dict row_info) (r : row)
  (order : list str) (it : item) :
  In it (collect_items rows_data r order) ->
  nonempty (item_value it) = true
  /\ strip (item_value it) = item_value it.
Proof.
  unfold collect_items. rewrite in_flat_map.
  intros (k & _ & H).
  destruct (dict_get rows_data k) as [ri|]; [|destruct H].
  destruct (is_empty (row_get r (row_id ri))) eqn:E; [destruct H|].
  destruct H as [<- | []]. cbn [item_value new_item].
  unfold is_empty in E. destruct (row_get r (row_id ri)) as [s|];
    [|discriminate].
  cbn [safe_str] in *. split.
  - apply str_eqb_neq in E. destruct (strip s); [contradiction|reflexivity].
  - apply strip_idem.
Qed.

(** X16.  A grouped question whose rows the respondent filled with
    answers that are all different is shown as the data table of these
    rows, never as a table of check marks. *)
Theorem different_answers_make_a_data_table
  (L : pylib) (q : question) (r : row) (order : list str) :
  nonempty (q_rows q) = true ->
  sorted_rows L (q_rows q) = Ok order ->
  nonempty (collect_items (q_rows q) r order) = true ->
  NoDup (map item_value (collect_items (q_rows q) r order)) ->
  fst (format_grouped_response L r q)
  = _format_as_data_table L (collect_items (q_rows q) r order) (q_text q).
Proof.
  intros Hrows Hsort Hitems Hnd.
  unfold format_grouped_response, rbind, read, lift, ret.
  rewrite Hrows. cbn [negb andb]. rewrite Hsort.
  pose proof (collect_items_values (q_rows q) r order) as Hv.
  destruct (collect_items (q_rows q) r order) as [|it items] eqn:E;
    [discriminate|].
  destruct (values_are_numeric_data L _); [reflexivity|].
  rewrite distinct_values_are_unique; [reflexivity | discriminate | |].
  - intros v Hin. apply in_map_iff in Hin. destruct Hin as (x & <- & Hx).
    destruct (Hv x Hx) as [H1 H2]. rewrite H2. exact H1.
  - rewrite map_map.
    rewrite (map_ext_in _ item_value); [exact Hnd|].
    intros x Hx. apply Hv. exact Hx.
Qed.

Lemma different_answers_make_a_data_table_witness :
  exists h,
    fst (format_grouped_response latin1_library
           (three_values (Some (py "Red")) (Some (py "Blue")) None)
           three_items) = Ok h
    /\ is_data_table h = true.
Proof.
  assert (E : sorted_rows latin1_library (q_rows three_items)
              = Ok [py "1"; py "2"; py "3"]) by (vm_compute; reflexivity).
  assert (C : collect_items (q_rows three_items)
                (three_values (Some (py "Red")) (Some (py "Blue")) None)
                [py "1"; py "2"; py "3"]
              = [new_item (py "Walls") (py "Red") (py "Q2_1");
                 new_item (py "Doors") (py "Blue") (py "Q2_2")])
    by (vm_compute; reflexivity).
  rewrite (different_answers_make_a_data_table latin1_library three_items
             _ _ eq_refl E).
  - rewrite C. eexists. split; vm_compute; reflexivity.
  - rewrite C. reflexivity.
  - rewrite C. cbn [map item_value new_item].
    apply NoDup_cons; [intros [H | []]; discriminate H|].
    apply NoDup_cons; [intros [] | apply NoDup_nil].
Defined.

(* ================================================================== *)
(** * The document *)
(* ================================================================== *)

Lemma mapM_length {A B : Type} (f : A -> result B) (l : list A)
  (bs : list B) :
  mapM f l = Ok bs -> length bs = length l.
Proof.
  revert bs; induction l as [|a l IH]; intros bs; simpl.
  - intros [= <-]. reflexivity.
  - destruct (f a) as [b|e]; simpl; [|discriminate].
    destruct (mapM f l) as [bs'|e]; simpl; [|discriminate].
    intros [= <-]. simpl. rewrite (IH bs' eq_refl). reflexivity.
Qed.

Lemma sorted_questions_perm (L : pylib) (questions : dict question)
  (l : list (str * question)) :
  sorted_questions L questions = Ok l -> Permutation l questions.
Proof.
  unfold sorted_questions.
  destruct (mapM _ questions) as [ks|e] eqn:E; simpl; [|discriminate].
  intros [= <-].
  apply (mapM_keys (fun x => question_number L (fst x))) in E.
  destruct E as [Hm _]. rewrite <- Hm. unfold sorted_by_key.
  apply Permutation_map. apply (insertion_perm _ _ Z.ltb ks []).
Qed.

Section Document.

Variable L : pylib.
Variables (respondents : list respondent) (debug_mode : bool).

(** The card of one question, the question read and left as it is. *)
Definition card (x : str * question) : result (list html) :=
  fst (question_card L respondents debug_mode (fst x) (snd x)).

Lemma visit_cards (qs : list (str * question)) :
  fst (visit L respondents debug_mode qs)
  = (cards <- mapM card qs ;; Ok (concat cards)).
Proof.
  induction qs as [|[q_id q] qs IH]; [reflexivity|].
  cbn [visit mapM]. unfold card at 1. cbn [fst snd].
  destruct (question_card L respondents debug_mode q_id q)
    as [[parts|e] q']; cbn [fst bind]; [|reflexivity].
  destruct (visit L respondents debug_mode qs) as [r rest'].
  cbn [fst] in *. rewrite IH.
  destruct (mapM card qs) as [cards|e]; reflexivity.
Qed.

(** The card of a question: its head, then a row for each respondent
    that [has_response] finds, or the one note that there are none,
    then its foot. *)
Lemma card_shape (x : str * question) (parts : list html) :
  card x = Ok parts ->
  exists body,
    parts
    = card_of (fst x) debug_mode (snd x)
        (length (filter (fun resp => has_response (snd x) (resp_row resp))
                   respondents)) body
    /\ length body
       = Nat.max 1
           (length (filter (fun resp =>
                              has_response (snd x) (resp_row resp))
                      respondents)).
Proof.
  destruct x as [q_id q]. unfold card. cbn [fst snd].
  unfold question_card, answered_by, question_meta, rbind, read, ret.
  cbv beta iota.
  set (answered := filter _ respondents).
  destruct answered as [|resp answered'] eqn:Ea.
  - destruct debug_mode; cbn [fst]; intros [= <-]; exists [no_responses];
      split; reflexivity.
  - rewrite <- Ea.
    assert (Hrows : forall sc,
               rmapM (fun (resp0 : respondent) (q1 : question) =>
                        let (r2, q'1) :=
                          format_response L (resp_row resp0) q1 in
                        match r2 with
                        | Ok a1 =>
                            (Ok (respondent_row sc
                                   (format_respondent_header
                                      (resp_info resp0)) a1), q'1)
                        | Raise e => (Raise e, q'1)
                        end) answered q
               = (mapM (fun resp0 =>
                          fst (let (r2, q'1) :=
                                 format_response L (resp_row resp0) q in
                               match r2 with
                               | Ok a1 =>
                                   (Ok (respondent_row sc
                                          (format_respondent_header
                                             (resp_info resp0)) a1), q'1)
                               | Raise e => (Raise e, q'1)
                               end)) answered, q)).
    { intros sc. apply rmapM_alone. intros a q0.
      pose proof (format_response_preserves L (resp_row a) q0) as Hp.
      destruct (format_response L (resp_row a) q0) as [[h|e] q1];
        simpl in Hp; subst q1; reflexivity. }
    destruct debug_mode; rewrite Hrows;
      match goal with
      | |- context [mapM ?f answered] =>
          destruct (mapM f answered) as [rows|e] eqn:Er
      end; cbn [fst]; try discriminate;
      intros [= <-]; exists rows; (split; [reflexivity|]);
      apply mapM_length in Er; rewrite Er, Ea; cbn [length]; lia.
Qed.

End Document.

(** X17.  A document that is generated is the head, the cards and the
    foot. The head shows the number of respondents, of questions and of
    matrix questions; there is one card for each question, in the order
    of [sorted_questions]; and each card holds a row for every
    respondent that [has_response] finds for the question, or the one
    note that there is none. *)
Theorem report_is_head_cards_foot
  (L : pylib) (questions : dict question) (respondents : list respondent)
  (debug_mode has_qsf : bool) (document : html) :
  generate_html L questions respondents debug_mode has_qsf = Ok document ->
  exists debug sorted_qs cards,
    sorted_questions L questions = Ok sorted_qs
    /\ mapM (card L respondents debug_mode) sorted_qs = Ok cards
    /\ length cards = length questions
    /\ document
       = document_head (css_text L) (timestamp L) debug
           (length respondents) (length questions)
           (count_type questions matrix)
         ++ concat (concat cards) ++ document_foot
    /\ forall i x parts,
         nth_error sorted_qs i = Some x -> nth_error cards i = Some parts ->
         exists body,
           parts
           = card_of (fst x) debug_mode (snd x)
               (length (filter (fun resp =>
                                  has_response (snd x) (resp_row resp))
                          respondents)) body
           /\ length body
              = Nat.max 1
                  (length (filter (fun resp =>
                                     has_response (snd x) (resp_row resp))
                             respondents)).
Proof.
  unfold generate_html, generate_parts. cbv zeta.
  match goal with
  | |- context [document_head _ _ ?d _ _ _] => set (debug := d)
  end.
  clearbody debug.
  destruct (sorted_questions L questions) as [sorted_qs|e] eqn:Es;
    [|discriminate].
  pose proof (visit_cards L respondents debug_mode sorted_qs) as Hv.
  destruct (visit L respondents debug_mode sorted_qs) as [r after].
  cbn [fst] in *. subst r.
  destruct (mapM (card L respondents debug_mode) sorted_qs)
    as [cards|e] eqn:Ec; cbn [bind]; [|discriminate].
  intros H. apply Ok_inj in H. subst document.
  exists debug, sorted_qs, cards.
  split; [reflexivity|]. split; [exact Ec|]. split; [|split].
  - rewrite (mapM_length _ _ _ Ec).
    apply Permutation_length. eapply sorted_questions_perm. exact Es.
  - cbn [concat]. rewrite concat_app. cbn [concat].
    rewrite app_nil_r. reflexivity.
  - clear Es. revert cards Ec.
    induction sorted_qs as [|y qs IH]; intros cards Ec i x parts Hx Hp.
    + destruct i; discriminate.
    + cbn [mapM] in Ec.
      destruct (card L respondents debug_mode y) as [p|e] eqn:Ey;
        cbn [bind] in Ec; [|discriminate].
      destruct (mapM (card L respondents debug_mode) qs) as [ps|e];
        cbn [bind] in Ec; [|discriminate].
      injection Ec as <-. destruct i as [|i]; simpl in Hx, Hp.
      * injection Hx as <-. injection Hp as <-.
        eapply card_shape. exact Ey.
      * eapply IH; [reflexivity | exact Hx | exact Hp].
Qed.

Lemma report_is_head_cards_foot_witness :
  exists document cards,
    generate_html latin1_library q10_q2 [] false false = Ok document
    /\ mapM (card latin1_library [] false) (rev q10_q2) = Ok cards
    /\ length cards = 2.
Proof.
  destruct (generate_html latin1_library q10_q2 [] false false)
    as [document|e] eqn:E; [|exfalso; vm_compute in E; discriminate E].
  destruct (report_is_head_cards_foot latin1_library q10_q2 [] false false
              document E) as (debug & sorted_qs & cards & Hs & Hc & Hl & _).
  assert (Hs' : sorted_questions latin1_library q10_q2 = Ok (rev q10_q2))
    by (vm_compute; reflexivity).
  rewrite Hs' in Hs. apply Ok_inj in Hs. subst sorted_qs.
  exists document, cards. split; [reflexivity|]. split; [exact Hc|].
  exact Hl.
Defined.

(* ================================================================== *)
(** * The identifiers of the questions *)
(* ================================================================== *)

(** ** What a match passes through *)

Section MatcherProperties.

Variable A : Type.

(** A property of the state of a match that reading a code point keeps,
    and the result that the match gives. *)
Variable P : mstate -> Prop.
Variable x : A.

Hypothesis P_advance : forall st rest, P st -> P (advance st rest).

(** The groups that can be closed without harm to [P]. *)
Variable harmless : nat -> Prop.
Hypothesis P_close :
  forall i st0 st, harmless i -> P st -> P (close_group i st0 st).

Fixpoint groups_ok (r : regex) : Prop :=
  match r with
  | Cat r1 r2 | Alt r1 r2 => groups_ok r1 /\ groups_ok r2
  | Star r1 => groups_ok r1
  | Group i r1 => harmless i /\ groups_ok r1
  | _ => True
  end.

(** Whenever [body] gives [x], what follows it was reached in a state
    that has the property. *)
Definition passes (body : mstate -> (mstate -> option A) -> option A)
  : Prop :=
  forall st k, body st k = Some x -> P st ->
               exists st', P st' /\ k st' = Some x.

Lemma star_loop_passes
  (body : mstate -> (mstate -> option A) -> option A)
  (k : mstate -> option A) (fuel : nat) (st : mstate) :
  passes body ->
  star_loop body k fuel st = Some x -> P st ->
  exists st', P st' /\ k st' = Some x.
Proof.
  intros Hb. unfold passes in Hb.
  revert st; induction fuel as [|fuel IH]; intros st; simpl.
  - intros H HP. exists st. auto.
  - destruct (body st _) as [a|] eqn:E.
    + intros [= ->] HP. apply Hb in E; [|exact HP].
      destruct E as (st1 & HP1 & H1).
      destruct (m_pos st <? m_pos st1); [|discriminate].
      apply (IH st1); assumption.
    + intros H HP. exists st. auto.
Qed.

Lemma rmatch_passes (r : regex) : groups_ok r -> passes (rmatch r).
Proof.
  unfold passes.
  induction r as [|p|r1 IH1 r2 IH2|r1 IH1 r2 IH2|r1 IH1|i r1 IH1| |];
    intros Hok st k; cbn [rmatch].
  - intros H HP. exists st. auto.
  - destruct (m_rest st) as [|c rest]; [discriminate|].
    destruct (p c); [|discriminate]. intros H HP.
    exists (advance st rest). auto.
  - destruct Hok as [H1 H2]. intros H HP.
    destruct (IH1 H1 _ _ H HP) as (st1 & HP1 & H').
    apply (IH2 H2 _ _ H' HP1).
  - destruct Hok as [H1 H2].
    destruct (rmatch r1 st k) as [a|] eqn:E.
    + intros [= ->]. apply (IH1 H1 _ _ E).
    + apply (IH2 H2).
  - apply star_loop_passes. unfold passes. apply IH1. exact Hok.
  - destruct Hok as [Hi H1]. intros H HP.
    destruct (IH1 H1 _ _ H HP) as (st1 & HP1 & H').
    exists (close_group i st st1). auto.
  - destruct (m_pos st =? 0); [|discriminate]. intros H HP.
    exists st. auto.
  - destruct (m_rest st) as [|c [|c' rest]]; try discriminate.
    + intros H HP. exists st. auto.
    + destruct (c =? 10)%N; [|discriminate]. intros H HP.
      exists st. auto.
Qed.

(** The state after [n] more code points. *)
Definition after (st : mstate) (n : nat) : mstate :=
  {| m_pos := m_pos st + n; m_rest := skipn n (m_rest st);
     m_groups := m_groups st |}.

Lemma after_0 (st : mstate) : after st 0 = st.
Proof. destruct st. unfold after. simpl. rewrite Nat.add_0_r. reflexivity. Qed.

Lemma after_advance (st : mstate) (c : char) (rest : str) (n : nat) :
  m_rest st = c :: rest -> after (advance st rest) n = after st (S n).
Proof.
  intros E. unfold after, advance. simpl. rewrite E. simpl.
  rewrite Nat.add_succ_r. reflexivity.
Qed.

(** The repetition of one code point of a class: what follows it was
    reached after some code points of the class. *)
Lemma star_chr_reaches (p : char -> bool) (k : mstate -> option A)
  (fuel : nat) (st : mstate) :
  star_loop (rmatch (Chr p)) k fuel st = Some x ->
  exists n,
    n <= length (m_rest st)
    /\ forallb p (firstn n (m_rest st)) = true
    /\ k (after st n) = Some x.
Proof.
  revert st; induction fuel as [|fuel IH]; intros st; cbn [star_loop].
  - intros H. exists 0. rewrite after_0. simpl. split; [lia | auto].
  - cbn [rmatch]. destruct (m_rest st) as [|c rest] eqn:E.
    + intros H. exists 0. rewrite after_0. simpl. auto.
    + destruct (p c) eqn:Ec.
      * assert (Hlt : (m_pos st <? m_pos (advance st rest)) = true)
          by (apply Nat.ltb_lt; simpl; lia).
        rewrite Hlt.
        destruct (star_loop _ k fuel (advance st rest)) as [a|] eqn:Es.
        -- intros [= ->]. destruct (IH _ Es) as (n & Hn & Hp & Hk).
           exists (S n). simpl in Hn, Hp. simpl. rewrite Ec, Hp.
           rewrite <- (after_advance st c rest n E).
           split; [lia | auto].
        -- intros H. exists 0. rewrite after_0. simpl. split; [lia | auto].
      * intros H. exists 0. rewrite after_0. simpl. split; [lia | auto].
Qed.

Lemma plus_chr_reaches (p : char -> bool) (k : mstate -> option A)
  (st : mstate) :
  rmatch (Plus (Chr p)) st k = Some x ->
  exists n,
    0 < n /\ n <= length (m_rest st)
    /\ forallb p (firstn n (m_rest st)) = true
    /\ k (after st n) = Some x.
Proof.
  unfold Plus. cbn [rmatch].
  destruct (m_rest st) as [|c rest] eqn:E; [discriminate|].
  destruct (p c) eqn:Ec; [|discriminate]. intros H.
  apply star_chr_reaches in H. destruct H as (n & Hn & Hp & Hk).
  exists (S n). simpl in Hn, Hp. simpl. rewrite Ec, Hp.
  rewrite <- (after_advance st c rest n E).
  repeat split; try lia; auto.
Qed.

End MatcherProperties.

Lemma firstn_nonempty {A : Type} (n : nat) (l : list A) :
  0 < n -> n <= length l -> firstn n l <> [].
Proof.
  destruct n as [|n]; [lia|]. destruct l as [|a l]; simpl; [lia|].
  discriminate.
Qed.

Section GroupLength.

Variable A : Type.
Variable x : A.
Variable n : nat.

(** What is left of the text, and every group closed, is no longer than
    [n]. *)
Definition within (st : mstate) : Prop :=
  length (m_rest st) <= n
  /\ forall i g, group i (m_groups st) = Some g -> length g <= n.

Lemma rmatch_within (r : regex) : passes A within x (rmatch r).
Proof.
  unfold passes.
  induction r as [|p|r1 IH1 r2 IH2|r1 IH1 r2 IH2|r1 IH1|j r1 IH1| |];
    intros st k; cbn [rmatch].
  - intros H HP. exists st. auto.
  - destruct (m_rest st) as [|c rest] eqn:E; [discriminate|].
    destruct (p c); [|discriminate]. intros H [HP1 HP2].
    exists (advance st rest). split; [|exact H].
    split; [|exact HP2]. cbn [advance m_rest]. rewrite E in HP1.
    simpl in HP1. lia.
  - intros H HP. destruct (IH1 _ _ H HP) as (st1 & HP1 & H').
    apply (IH2 _ _ H' HP1).
  - destruct (rmatch r1 st k) as [a|] eqn:E.
    + intros [= ->]. apply (IH1 _ _ E).
    + apply IH2.
  - apply star_loop_passes. unfold passes. apply IH1.
  - intros H HP. destruct (IH1 _ _ H HP) as (st1 & [HP1 HP2] & H').
    exists (close_group j st st1). split; [|exact H'].
    split; [exact HP1|]. intros i g. cbn [close_group m_groups group].
    destruct (i =? j); [|apply HP2]. intros [= <-].
    rewrite length_firstn. destruct HP as [HP _]. lia.
  - destruct (m_pos st =? 0); [|discriminate]. intros H HP.
    exists st. auto.
  - destruct (m_rest st) as [|c [|c' rest]]; try discriminate.
    + intros H HP. exists st. auto.
    + destruct (c =? 10)%N; [|discriminate]. intros H HP.
      exists st. auto.
Qed.

End GroupLength.

(** A group of a match is no longer than the text. *)
Lemma match_group_length (r : regex) (s : str) (st : mstate) (i : nat)
  (g : str) :
  re_match r s = Some st -> group i (m_groups st) = Some g ->
  length g <= length s.
Proof.
  unfold re_match, match_at. intros H Hg.
  pose proof (rmatch_within mstate st (length s) r) as Hpass.
  unfold passes in Hpass. apply Hpass in H.
  - destruct H as (st' & [_ HP] & [= ->]). apply (HP i g Hg).
  - split; [cbn; lia|]. intros j g'. discriminate.
Qed.

(** A pattern of the shape [Q(\d+)...], where nothing after the first
    group closes a group 1: a match has a first group, which is digits
    and not empty. *)
Lemma numbered_match {A : Type} (x : A) (q p : char -> bool) (tail : regex)
  (st0 : mstate) (k : mstate -> option A) :
  groups_ok (fun i => i <> 1) tail ->
  rmatch (Cat (Chr q) (Cat (Group 1 (Plus (Chr p))) tail)) st0 k = Some x ->
  exists st' ds,
    k st' = Some x /\ group 1 (m_groups st') = Some ds
    /\ ds <> [] /\ forallb p ds = true.
Proof.
  intros Hok. cbn [rmatch].
  destruct (m_rest st0) as [|c rest]; [discriminate|].
  destruct (q c); [|discriminate].
  set (st1 := advance st0 rest). intros H.
  apply plus_chr_reaches in H. destruct H as (n & Hn0 & Hn & Hp & H).
  set (ds := firstn n (m_rest st1)) in *.
  assert (Hclose : forall i sta stb,
             i <> 1 -> group 1 (m_groups stb) = Some ds ->
             group 1 (m_groups (close_group i sta stb)) = Some ds).
  { intros i sta stb Hi HP. cbn [close_group m_groups group].
    destruct (Nat.eqb_spec 1 i) as [E | E]; [congruence | exact HP]. }
  pose proof (rmatch_passes A (fun st => group 1 (m_groups st) = Some ds) x
                (fun st rest' HP => HP) (fun i => i <> 1) Hclose tail Hok)
    as Hpass.
  unfold passes in Hpass. apply Hpass in H.
  - destruct H as (st' & HP & Hk). exists st', ds.
    repeat split; try assumption.
    apply firstn_nonempty; assumption.
  - cbn [close_group m_groups group after m_pos Nat.eqb].
    replace (m_pos st1 + n - m_pos st1) with n by lia. reflexivity.
Qed.

Section Numbered.

Variable L : pylib.
Variable columns : list str.

(** An identifier [Q] with digits after it, which are no more than the
    code points of one of the columns. *)
Definition numbered (id : str) : Prop :=
  exists ds,
    id = py "Q" ++ ds /\ ds <> [] /\ forallb (isdecimal_char L) ds = true
    /\ exists col, In col columns /\ length ds <= length col.

Definition column_tail : regex :=
  Cat (Opt (Cat (C "_") (Group 2 (Plus (Dig L)))))
    (Cat (Opt (Cat (C "_") (Group 3 (Plus (Dig L)))))
       (Opt (Group 4 (Lit "_TEXT")))).

Definition other_tail : regex :=
  Cat (Opt (Cat (C "_") (Group 2 (Plus Dot)))) Eol.

Lemma column_id_shape :
  COLUMN_ID L
  = Cat (Chr (is_char 81))
      (Cat (Group 1 (Plus (Chr (isdecimal_char L)))) column_tail).
Proof. reflexivity. Qed.

Lemma column_id_other_shape :
  COLUMN_ID_OTHER L
  = Cat (Chr (is_char 81))
      (Cat (Group 1 (Plus (Chr (isdecimal_char L)))) other_tail).
Proof. reflexivity. Qed.

Lemma column_tail_ok : groups_ok (fun i => i <> 1) column_tail.
Proof.
  unfold column_tail, Opt, Plus, Dig. cbn.
  repeat split; discriminate.
Qed.

Lemma other_tail_ok : groups_ok (fun i => i <> 1) other_tail.
Proof.
  unfold other_tail, Opt, Plus, Dot. cbn.
  repeat split; discriminate.
Qed.

Lemma eol_some (st1 st : mstate) :
  rmatch Eol st1 (fun st => Some st) = Some st -> st1 = st.
Proof.
  cbn [rmatch]. destruct (m_rest st1) as [|c [|c' r]]; try discriminate.
  - intros [= ->]. reflexivity.
  - destruct (c =? 10)%N; [|discriminate]. intros [= ->]. reflexivity.
Qed.

Lemma base_number_numbered (col_id : str) (st : mstate) :
  In col_id columns ->
  re_match (COLUMN_ID L) col_id = Some st
  \/ re_match (Cat (COLUMN_ID L) Eol) col_id = Some st
  \/ re_match (COLUMN_ID_OTHER L) col_id = Some st ->
  numbered (py "Q" ++ group_or_empty 1 st).
Proof.
  intros Hcol H.
  assert (Hlen : forall g, group 1 (m_groups st) = Some g ->
                           exists col, In col columns
                                       /\ length g <= length col).
  { intros g Hg. exists col_id. split; [exact Hcol|].
    destruct H as [H | [H | H]]; eapply match_group_length; eassumption. }
  revert H. unfold re_match, match_at, group_or_empty.
  intros [H | [H | H]].
  - rewrite column_id_shape in H.
    apply numbered_match in H; [|exact column_tail_ok].
    destruct H as (st' & ds & [= ->] & Hg & Hne & Hd).
    rewrite Hg. exists ds. auto.
  - cbn [rmatch] in H. rewrite column_id_shape in H.
    change (rmatch (Cat (Chr (is_char 81))
                      (Cat (Group 1 (Plus (Chr (isdecimal_char L))))
                         column_tail)) (start_at 0 col_id)
              (fun st1 => rmatch Eol st1 (fun st => Some st)) = Some st)
      in H.
    apply numbered_match in H; [|exact column_tail_ok].
    destruct H as (st' & ds & Hk & Hg & Hne & Hd).
    apply eol_some in Hk. subst st'.
    rewrite Hg. exists ds. auto.
  - rewrite column_id_other_shape in H.
    apply numbered_match in H; [|exact other_tail_ok].
    destruct H as (st' & ds & [= ->] & Hg & Hne & Hd).
    rewrite Hg. exists ds. auto.
Qed.

End Numbered.

(** ** Reading the number *)

(** What the program takes for granted of the Unicode database: a
    decimal digit has one of the values 0 to 9 and is no white space. *)
Definition decimal_digits_ok (L : pylib) : Prop :=
  forall c d, uni_decimal L c = Some d -> (d <= 9)%N /\ isspace c = false.

Section Numbers_read.

Variable L : pylib.
Hypothesis L_ok : decimal_digits_ok L.

Lemma decimal_latin1 (c : char) :
  latin1 c = true -> isdecimal_char L c = true -> ascii_digit c = true.
Proof.
  unfold isdecimal_char, decimal. intros ->.
  destruct (ascii_digit c); [reflexivity | discriminate].
Qed.

Lemma to_ascii_digits (s : str) :
  forallb (isdecimal_char L) s = true ->
  forallb ascii_digit (to_ascii_number L s) = true.
Proof.
  intros H. unfold to_ascii_number.
  destruct (forallb (fun c => (c <? 128)%N) s) eqn:E.
  - rewrite forallb_forall in *. intros c Hc.
    apply decimal_latin1; [|apply H; exact Hc].
    specialize (E c Hc). apply N.ltb_lt in E. apply N.ltb_lt. lia.
  - clear E. rewrite forallb_forall in *. intros c' Hc'.
    apply in_map_iff in Hc'. destruct Hc' as (c & <- & Hc).
    specialize (H c Hc).
    destruct (c <? 127)%N eqn:E127.
    + apply decimal_latin1; [|exact H].
      apply N.ltb_lt in E127. apply N.ltb_lt. lia.
    + apply N.ltb_ge in E127.
      unfold isdecimal_char, decimal in *.
      destruct (latin1 c) eqn:El.
      * destruct (ascii_digit c) eqn:Ed; [|discriminate].
        unfold ascii_digit, between in Ed.
        apply andb_true_iff in Ed. destruct Ed as [_ Ed].
        apply N.leb_le in Ed. lia.
      * destruct (uni_decimal L c) as [d|] eqn:Eu; [|discriminate].
        destruct (L_ok c d Eu) as [Hd Hs]. rewrite Hs.
        unfold ascii_digit, between.
        apply andb_true_iff. split; apply N.leb_le; lia.
Qed.

Lemma to_ascii_length (s : str) :
  length (to_ascii_number L s) = length s.
Proof.
  unfold to_ascii_number.
  destruct (forallb (fun c => (c <? 128)%N) s); [reflexivity|].
  apply length_map.
Qed.

(** [int] reads every string of decimal digits that is not empty and
    not longer than the limit. *)
Lemma py_int_decimal (s : str) :
  s <> [] -> forallb (isdecimal_char L) s = true ->
  int_digits_ok L (length s) = true ->
  exists n, py_int L s = Some n.
Proof.
  intros Hne H Hlen. apply to_ascii_digits in H. unfold py_int.
  assert (Hne' : to_ascii_number L s <> []).
  { unfold to_ascii_number.
    destruct (forallb (fun c => (c <? 128)%N) s); [exact Hne|].
    destruct s; [contradiction | discriminate]. }
  rewrite <- to_ascii_length in Hlen.
  destruct (to_ascii_number L s) as [|d r]; [contradiction|].
  rewrite <- (filter_all_true ascii_digit (d :: r) H) in Hlen.
  simpl in H. apply andb_true_iff in H. destruct H as [Hd Hr].
  destruct (ascii_digit_plain d Hd) as (_ & Hsp & Hm & Hp & _).
  cbn [dropwhile]. rewrite Hsp, Hm, Hp, Hd.
  destruct (digits_us_all r (d - 48)%N Hr) as [n Hn]. rewrite Hn.
  rewrite Hlen. cbn [forallb andb]. eexists. reflexivity.
Qed.

(** The repetition of one code point of a class, followed by something
    that always matches, reads a whole text of the class. *)
Lemma star_chr_all {A : Type} (p : char -> bool)
  (body : mstate -> (mstate -> option A) -> option A)
  (k : mstate -> option A) (fuel : nat) (st : mstate) :
  (forall st k,
      body st k
      = match m_rest st with
        | c :: rest => if p c then k (advance st rest) else None
        | [] => None
        end) ->
  (forall st', k st' <> None) ->
  forallb p (m_rest st) = true ->
  length (m_rest st) < fuel ->
  star_loop body k fuel st
  = k {| m_pos := m_pos st + length (m_rest st); m_rest := [];
         m_groups := m_groups st |}.
Proof.
  intros Hbody Hk. revert st; induction fuel as [|fuel IH]; intros st Hp Hf;
    [lia|].
  cbn [star_loop]. rewrite Hbody. destruct st as [pos rest gs].
  cbn [m_rest m_pos m_groups] in *. destruct rest as [|c rest].
  - simpl. rewrite Nat.add_0_r. reflexivity.
  - simpl in Hp. apply andb_true_iff in Hp. destruct Hp as [Hc Hr].
    rewrite Hc. unfold advance. cbn [m_pos m_rest m_groups].
    assert (Hlt : (pos <? S pos) = true) by (apply Nat.ltb_lt; lia).
    rewrite Hlt. rewrite IH; [|exact Hr | simpl in *; lia].
    cbn [m_pos m_rest m_groups length].
    replace (S pos + length rest) with (pos + S (length rest)) by lia.
    destruct (k _) eqn:E; [reflexivity|]. apply Hk in E. destruct E.
Qed.

Lemma question_number_numbered (columns : list str) (id : str) :
  (forall col, In col columns -> int_digits_ok L (length col) = true) ->
  numbered L columns id -> exists n, question_number L id = Ok n.
Proof.
  intros Hcols (ds & -> & Hne & Hd & col & Hcol & Hlen).
  assert (Hok : int_digits_ok L (length ds) = true)
    by (apply (int_digits_ok_le L (length col)); auto).
  unfold question_number, re_search.
  assert (E : match_at (Seq [C "Q"; Group 1 (Plus (Dig L))]) 0
                (py "Q" ++ ds)
              = Some {| m_pos := 1 + length ds; m_rest := [];
                        m_groups := [(1, ds)] |}).
  { unfold match_at.
    change (Seq [C "Q"; Group 1 (Plus (Dig L))])
      with (Cat (Chr (is_char 81))
              (Group 1 (Cat (Chr (isdecimal_char L))
                          (Star (Chr (isdecimal_char L)))))).
    change (py "Q" ++ ds) with (81%N :: ds).
    destruct ds as [|d ds]; [contradiction|].
    simpl in Hd. apply andb_true_iff in Hd. destruct Hd as [Hd0 Hd].
    cbn [rmatch start_at m_rest m_pos m_groups advance is_char N.eqb
           Pos.eqb].
    rewrite Hd0. cbn [m_rest length].
    erewrite (star_chr_all (isdecimal_char L));
      [|intros; reflexivity | discriminate | exact Hd | simpl; lia].
    unfold close_group, advance, start_at. cbn [m_pos m_rest m_groups].
    match goal with
    | |- context [firstn ?n (d :: ds)] =>
        replace n with (S (length ds)) by lia
    end.
    cbn [firstn]. rewrite firstn_all.
    apply f_equal. apply (f_equal3 Build_mstate); [lia | | ]; reflexivity. }
  unfold search_from.
  destruct (py "Q" ++ ds) as [|c s] eqn:Es; rewrite E;
    unfold group_or_empty; cbn [m_groups group Nat.eqb];
    destruct (py_int_decimal ds Hne Hd Hok) as [n Hn]; rewrite Hn;
    exists n; reflexivity.
Qed.

End Numbers_read.

(** ** The questions of an export *)

Lemma in_keys_set_inv {V : Type} (d : dict V) (k id : str) (v : V) :
  In id (keys (dict_set d k v)) -> In id (keys d) \/ id = k.
Proof.
  rewrite keys_dict_set. destruct (dict_mem d k); [auto|].
  rewrite in_app_iff. simpl. intros [H | [<- | []]]; auto.
Qed.

Lemma mapM_total {A B : Type} (f : A -> result B) (l : list A) :
  (forall a, In a l -> exists b, f a = Ok b) -> exists bs, mapM f l = Ok bs.
Proof.
  induction l as [|a l IH]; intros H; simpl; [eexists; reflexivity|].
  destruct (H a (or_introl eq_refl)) as [b Hb]. rewrite Hb.
  destruct IH as [bs Hbs]; [intros x Hx; apply H; right; exact Hx|].
  rewrite Hbs. eexists. reflexivity.
Qed.

Section NumberedQuestions.

Variable L : pylib.
Variable columns : list str.

Definition all_numbered (questions : dict question) : Prop :=
  forall id, In id (keys questions) -> numbered L columns id.

Lemma keys_step (questions : dict question) (base_q : str)
  (q0 q' : question) :
  all_numbered questions -> numbered L columns base_q ->
  all_numbered (dict_set (if dict_mem questions base_q then questions
                          else dict_set questions base_q q0) base_q q').
Proof.
  intros Hall Hb id Hin. apply in_keys_set_inv in Hin.
  destruct Hin as [Hin | ->]; [|exact Hb].
  destruct (dict_mem questions base_q); [apply Hall; exact Hin|].
  apply in_keys_set_inv in Hin.
  destruct Hin as [Hin | ->]; [apply Hall; exact Hin | exact Hb].
Qed.

Lemma with_qsf_step_numbered (meta : dict qsf_question)
  (questions questions' : dict question) (column : str * value) :
  In (fst column) columns ->
  all_numbered questions ->
  with_qsf_step L meta questions column = Ok questions' ->
  all_numbered questions'.
Proof.
  intros Hcol Hall. unfold with_qsf_step.
  destruct column as [col_id col_text]. cbn [fst] in Hcol.
  destruct (skipped_column col_id); [intros [= <-]; exact Hall|].
  match goal with
  | |- match ?n with _ => _ end = _ -> _ =>
      assert (Hn : forall name,
                 n = Some name ->
                 numbered L columns (py "Q" ++ base_number name));
        [|destruct n as [name|]]
  end.
  { destruct (re_match (Cat (COLUMN_ID L) Eol) col_id) as [st|] eqn:E1.
    - intros name [= <-].
      apply (base_number_numbered L columns col_id _ Hcol).
      right; left; exact E1.
    - destruct (re_match (COLUMN_ID_OTHER L) col_id) as [st|] eqn:E2;
        simpl; [|discriminate].
      intros name [= <-].
      apply (base_number_numbered L columns col_id _ Hcol).
      right; right; exact E2. }
  2: intros [= <-]; exact Hall.
  specialize (Hn name eq_refl). cbv zeta.
  match goal with
  | |- (if ?b then _ else _) = _ -> _ => destruct b
  end; [intros [= <-]; exact Hall|].
  set (base_q := py "Q" ++ base_number name) in *.
  match goal with
  | |- context [dict_set questions base_q ?n] => set (q0 := n)
  end.
  destruct (dict_get (if dict_mem questions base_q then questions
                      else dict_set questions base_q q0) base_q)
    as [q|]; [|discriminate].
  match goal with
  | |- bind ?m _ = _ -> _ => destruct m as [q'|e]
  end; simpl; [|discriminate].
  intros [= <-]. apply keys_step; assumption.
Qed.

Lemma from_csv_step_numbered
  (questions questions' : dict question) (column : str * value) :
  In (fst column) columns ->
  all_numbered questions ->
  from_csv_step L questions column = Ok questions' ->
  all_numbered questions'.
Proof.
  intros Hcol Hall. unfold from_csv_step.
  destruct column as [col_id col_text]. cbn [fst] in Hcol.
  destruct (skipped_column col_id); [intros [= <-]; exact Hall|].
  destruct (re_match (COLUMN_ID L) col_id) as [st|] eqn:E;
    [|intros [= <-]; exact Hall].
  assert (Hn : numbered L columns (py "Q" ++ base_number (four_groups st))).
  { apply (base_number_numbered L columns col_id _ Hcol). left. exact E. }
  cbv zeta.
  match goal with
  | |- (if ?b then _ else _) = _ -> _ => destruct b
  end; [intros [= <-]; exact Hall|].
  destruct (extract_matrix_labels L col_text) as [[base_text row_lbl] col_lbl].
  set (base_q := py "Q" ++ base_number (four_groups st)) in *.
  set (q0 := new_question base_q [] (py "unknown") None).
  destruct (dict_get (if dict_mem questions base_q then questions
                      else dict_set questions base_q q0) base_q)
    as [q|]; [|discriminate].
  match goal with
  | |- bind ?m _ = _ -> _ => destruct m as [q'|e]
  end; simpl; [|discriminate].
  intros [= <-]. apply keys_step; assumption.
Qed.

End NumberedQuestions.

Lemma extraction_all_numbered
  (L : pylib) (columns : list str) (texts : list value)
  (qsf_metadata : dict qsf_question) (questions : dict question) :
  extract_questions_with_qsf L columns texts qsf_metadata = Ok questions
  \/ extract_questions_from_csv L columns texts = Ok questions ->
  all_numbered L columns questions.
Proof.
  assert (Hin : forall a, In a (combine columns texts) ->
                          In (fst a) columns).
  { intros [c t] Ha. apply in_combine_l in Ha. exact Ha. }
  intros [H | H].
  - eapply (foldM_invariant_in (all_numbered L columns)); [| |exact H].
    + intros s a s' Ha. apply with_qsf_step_numbered. apply Hin, Ha.
    + intros id [].
  - eapply (foldM_invariant_in (all_numbered L columns)); [| |exact H].
    + intros s a s' Ha. apply from_csv_step_numbered. apply Hin, Ha.
    + intros id [].
Qed.

(** X18.  Whichever way the columns are read, the identifier of every
    question of the result is [Q] with decimal digits after it, no more
    of them than one of the columns has code points.  Where the decimal
    digits of the library have the values 0 to 9 and are no white space,
    and no column identifier is longer than the digits that [int]
    reads, [generate_html] finds the number of every question and puts
    the questions in order: neither the search for the number nor
    [int] raises. *)
Theorem extracted_questions_can_be_ordered
  (L : pylib) (columns : list str) (texts : list value)
  (qsf_metadata : dict qsf_question) (questions : dict question) :
  extract_questions_with_qsf L columns texts qsf_metadata = Ok questions
  \/ extract_questions_from_csv L columns texts = Ok questions ->
  (forall id,
      In id (keys questions) ->
      exists ds,
        id = py "Q" ++ ds /\ ds <> []
        /\ forallb (isdecimal_char L) ds = true
        /\ exists col, In col columns /\ length ds <= length col)
  /\ (decimal_digits_ok L ->
      (forall col, In col columns ->
                   int_digits_ok L (length col) = true) ->
      exists l, sorted_questions L questions = Ok l).
Proof.
  intros H.
  pose proof (extraction_all_numbered L columns texts qsf_metadata
                questions H) as Hall.
  split; [exact Hall|]. intros Hok Hcols. unfold sorted_questions.
  destruct (mapM_total
              (fun x => n <- question_number L (fst x) ;; Ok (n, x))
              questions) as [ks Hks].
  - intros x Hx.
    destruct (question_number_numbered L Hok columns (fst x) Hcols)
      as [n Hn].
    + apply Hall. unfold keys. apply in_map. exact Hx.
    + rewrite Hn. eexists. reflexivity.
  - rewrite Hks. eexists. reflexivity.
Qed.

Lemma short_columns (L : pylib) (columns : list str) :
  (forall col, In col columns -> length col <= 640) ->
  forall col, In col columns -> int_digits_ok L (length col) = true.
Proof.
  intros H col Hcol. apply int_digits_ok_short. apply H. exact Hcol.
Qed.

Lemma extracted_questions_can_be_ordered_witness :
  exists questions l,
    extract_questions_from_csv latin1_library rate_columns rate_texts
    = Ok questions
    /\ sorted_questions latin1_library questions = Ok l.
Proof.
  eexists.
  match goal with
  | |- exists l, ?e = Ok ?qs /\ _ =>
      assert (E : e = Ok qs) by (vm_compute; reflexivity)
  end.
  destruct (extracted_questions_can_be_ordered latin1_library rate_columns
              rate_texts [] _ (or_intror E)) as [_ H].
  destruct H as [l Hl].
  - intros c d Hd. discriminate Hd.
  - apply short_columns. intros col Hcol. vm_compute in Hcol.
    repeat (destruct Hcol as [<- | Hcol]; [vm_compute; lia|]).
    destruct Hcol.
  - exists l. split; [exact E | exact Hl].
Defined.

(* ================================================================== *)
(** * When the report is generated *)
(* ================================================================== *)

(** ** The keys of the rows *)

Section GroupOfDigits.

Variable A : Type.
Variable x : A.
Variable p : char -> bool.
Variable i : nat.

(** If the group [i] was closed, it holds code points of the class. *)
Definition group_in_class (st : mstate) : Prop :=
  forall g, group i (m_groups st) = Some g -> forallb p g = true.

(** The group [i] is only ever closed over a repetition of the class. *)
Fixpoint closes_class (r : regex) : Prop :=
  match r with
  | Cat r1 r2 | Alt r1 r2 => closes_class r1 /\ closes_class r2
  | Star r1 => closes_class r1
  | Group j r1 =>
      (j <> i /\ closes_class r1) \/ (j = i /\ r1 = Plus (Chr p))
  | _ => True
  end.

Lemma rmatch_group_in_class (r : regex) :
  closes_class r -> passes A group_in_class x (rmatch r).
Proof.
  unfold passes.
  induction r as [|c|r1 IH1 r2 IH2|r1 IH1 r2 IH2|r1 IH1|j r1 IH1| |];
    intros Hok st k; cbn [rmatch].
  - intros H HP. exists st. auto.
  - destruct (m_rest st) as [|a rest]; [discriminate|].
    destruct (c a); [|discriminate]. intros H HP.
    exists (advance st rest). auto.
  - destruct Hok as [H1 H2]. intros H HP.
    destruct (IH1 H1 _ _ H HP) as (st1 & HP1 & H').
    apply (IH2 H2 _ _ H' HP1).
  - destruct Hok as [H1 H2].
    destruct (rmatch r1 st k) as [a|] eqn:E.
    + intros [= ->]. apply (IH1 H1 _ _ E).
    + apply (IH2 H2).
  - apply star_loop_passes. unfold passes. apply IH1. exact Hok.
  - destruct Hok as [[Hj H1] | [-> ->]]; intros H HP.
    + destruct (IH1 H1 _ _ H HP) as (st1 & HP1 & H').
      exists (close_group j st st1). split; [|exact H'].
      intros g. cbn [close_group m_groups group].
      destruct (Nat.eqb_spec i j) as [E | E]; [congruence|]. apply HP1.
    + apply plus_chr_reaches in H. destruct H as (n & _ & _ & Hp & H).
      exists (close_group i st (after st n)). split; [|exact H].
      intros g. cbn [close_group m_groups group after m_pos].
      rewrite Nat.eqb_refl. intros [= <-].
      replace (m_pos st + n - m_pos st) with n by lia. exact Hp.
  - destruct (m_pos st =? 0); [|discriminate]. intros H HP.
    exists st. auto.
  - destruct (m_rest st) as [|c [|c' rest]]; try discriminate.
    + intros H HP. exists st. auto.
    + destruct (c =? 10)%N; [|discriminate]. intros H HP.
      exists st. auto.
Qed.

End GroupOfDigits.

Lemma Ok_inj' {A : Type} (a b : A) : Some a = Some b -> a = b.
Proof. intros [= ->]. reflexivity. Qed.

Section RowKeys.

Variable L : pylib.
Variable columns : list str.

(** The first sub-index of a column identifier that [COLUMN_ID]
    matches is made of decimal digits. *)
Lemma sub1_decimal (col_id : str) (st : mstate) (g : str) :
  re_match (COLUMN_ID L) col_id = Some st ->
  sub1 (four_groups st) = Some g ->
  forallb (isdecimal_char L) g = true.
Proof.
  unfold re_match, match_at. intros H.
  assert (Hcc : closes_class (isdecimal_char L) 2 (COLUMN_ID L)).
  { unfold COLUMN_ID, Opt, Dig, C, Lit. cbn.
    repeat split; try exact I;
      repeat first [ left; split; [discriminate|]
                   | right; split; reflexivity
                   | split | exact I ]. }
  pose proof (rmatch_group_in_class mstate st (isdecimal_char L) 2
                (COLUMN_ID L) Hcc) as Hpass.
  unfold passes in Hpass.
  destruct (Hpass _ _ H) as (st' & HP & Hk); [intros g'; discriminate|].
  apply Ok_inj' in Hk. subst st'. exact (HP g).
Qed.

(** A key of a row that is made of decimal digits, no more of them
    than one of the columns has code points. *)
Definition decimal_key (k : str) : Prop :=
  forallb (isdecimal_char L) k = true
  /\ exists col, In col columns /\ length k <= length col.

Definition decimal_keys (q : question) : Prop :=
  forall k, In k (keys (q_rows q)) -> decimal_key k.

Definition all_decimal_keys (questions : dict question) : Prop :=
  forall id q, In (id, q) questions -> decimal_keys q.

Lemma set_cell_keys (rows rows' : dict row_info) (r label c : str)
  (x : cell) (k : str) :
  set_cell rows r label c x = Ok rows' ->
  In k (keys rows') -> In k (keys rows) \/ k = r.
Proof.
  unfold set_cell.
  set (rows1 := if dict_mem rows r then rows
                else dict_set rows r (RowCells label [])).
  assert (H1 : In k (keys rows1) -> In k (keys rows) \/ k = r).
  { unfold rows1. destruct (dict_mem rows r); [auto|].
    apply in_keys_set_inv. }
  destruct (dict_get rows1 r) as [[id l | l cells]|]; try discriminate.
  intros [= <-] Hin. apply in_keys_set_inv in Hin.
  destruct Hin as [Hin | ->]; auto.
Qed.

Lemma bind_item_keys (q : question) (r col_id label k : str) :
  In k (keys (q_rows (bind_item q r col_id label))) ->
  In k (keys (q_rows q)) \/ k = r.
Proof.
  unfold bind_item, add_item. cbn [q_rows set_rows].
  destruct (dict_mem (q_rows q) r); [auto|]. apply in_keys_set_inv.
Qed.

Lemma from_csv_step_decimal_keys
  (questions questions' : dict question) (column : str * value) :
  In (fst column) columns ->
  all_decimal_keys questions ->
  from_csv_step L questions column = Ok questions' ->
  all_decimal_keys questions'.
Proof.
  intros Hcol Hall. unfold from_csv_step.
  destruct column as [col_id col_text]. cbn [fst] in Hcol.
  destruct (skipped_column col_id); [intros [= <-]; exact Hall|].
  destruct (re_match (COLUMN_ID L) col_id) as [st|] eqn:Em;
    [|intros [= <-]; exact Hall].
  cbv zeta.
  match goal with
  | |- (if ?b then _ else _) = _ -> _ => destruct b
  end; [intros [= <-]; exact Hall|].
  destruct (extract_matrix_labels L col_text) as [[base_text row_lbl] col_lbl].
  set (name := four_groups st).
  set (base_q := py "Q" ++ base_number name).
  set (q0 := new_question base_q [] (py "unknown") None).
  set (questions1 := if dict_mem questions base_q then questions
                     else dict_set questions base_q q0).
  assert (H1 : all_decimal_keys questions1).
  { unfold questions1. destruct (dict_mem questions base_q); [exact Hall|].
    intros id q Hin. apply in_dict_set in Hin.
    destruct Hin as [[= -> ->] | Hin]; [|eapply Hall; exact Hin].
    intros k []. }
  destruct (dict_get questions1 base_q) as [q|] eqn:G; [|discriminate].
  apply dict_get_in in G. apply H1 in G.
  set (q2 := if length (q_text q) <? length base_text
             then set_text q base_text else q).
  assert (Hq2 : decimal_keys q2).
  { unfold q2. destruct (_ <? _); exact G. }
  set (q1 := set_columns q2 (append_new (q_columns q2) col_id)).
  assert (Hq1 : decimal_keys q1) by exact Hq2.
  clearbody q1. clear Hq2 G.
  match goal with
  | |- bind ?m _ = _ -> _ => destruct m as [q'|e] eqn:B
  end; simpl; [|discriminate].
  intros [= <-]. intros id q3 Hin. apply in_dict_set in Hin.
  destruct Hin as [[= -> ->] | Hin]; [|eapply H1; exact Hin].
  assert (Hs1 : truthy (sub1 name) = true ->
                decimal_key (the (sub1 name))).
  { destruct (sub1 name) as [g|] eqn:Eg; [|discriminate].
    intros _. split; [eapply sub1_decimal; eassumption|].
    exists col_id. split; [exact Hcol|].
    eapply match_group_length; [exact Em | exact Eg]. }
  destruct (truthy (sub1 name)) eqn:Et1; cbn [andb] in B.
  - specialize (Hs1 eq_refl).
    destruct (truthy (sub2 name)).
    + match type of B with
      | bind (set_cell ?rows _ _ _ _) _ = _ => set (rows2 := rows) in B
      end.
      assert (Hr2 : forall k, In k (keys rows2) -> decimal_key k).
      { unfold rows2. cbn [q_rows set_type].
        destruct (dict_get (q_rows q1) (the (sub1 name))) as [r|];
          [|exact Hq1].
        destruct (negb _); [|exact Hq1].
        intros k Hk. apply in_keys_set_inv in Hk.
        destruct Hk as [Hk | ->]; [apply Hq1; exact Hk | exact Hs1]. }
      clearbody rows2.
      destruct (set_cell rows2 _ _ _ _) as [rows'|e] eqn:Ec;
        unfold bind in B; [|discriminate].
      apply Ok_inj in B. subst q'.
      assert (Hfin : forall q4, q_rows q4 = rows' -> decimal_keys q4).
      { intros q4 E4 k Hk. rewrite E4 in Hk.
        destruct (set_cell_keys _ _ _ _ _ _ k Ec Hk) as [H | ->];
          [apply Hr2; exact H | exact Hs1]. }
      repeat match goal with
             | |- decimal_keys (if ?b then _ else _) => destruct b
             end;
        apply Hfin; try reflexivity; apply add_column_same.
    + apply Ok_inj in B. subst q'. intros k Hk.
      apply bind_item_keys in Hk.
      destruct Hk as [Hk | ->]; [apply Hq1; exact Hk | exact Hs1].
  - apply Ok_inj in B. subst q'. exact Hq1.
Qed.

End RowKeys.

(** ** Values and rows that can be rendered *)

Section Rendered.

Variable L : pylib.

(** A value in which every code point that [str.isdigit] accepts is an
    ASCII digit, and which, if it has the braces or brackets of JSON,
    is not nested deeper than [json.loads] follows. *)
Definition plain (v : value) : Prop :=
  (forall c, In c (safe_str v) -> isdigit_char L c = true ->
             ascii_digit c = true)
  /\ (is_json v = true -> json_pretty L (safe_str v) <> TooDeep).

Lemma detect_json (v : value) (question_text column_id : str) :
  detect_value_type L v question_text column_id = Ok t_json ->
  is_json v = true.
Proof.
  unfold detect_value_type.
  destruct (is_empty v); [discriminate|].
  destruct (is_timing_column column_id); [discriminate|].
  destruct (is_url L v); [destruct (is_file_path L v); discriminate|].
  destruct (is_file_path L v); [discriminate|].
  destruct (is_coordinate L v); [discriminate|].
  destruct (is_json v); [reflexivity|].
  destruct (is_hierarchical v); [discriminate|].
  destruct (is_multi_value L v (py "|")); [discriminate|].
  destruct (is_multi_value L v (py ";")); [discriminate|].
  destruct (is_multi_value L v (py ",")); [discriminate|].
  destruct (is_long_text v); [discriminate|].
  destruct (is_numeric_code L v question_text) as [[|]|e]; discriminate.
Qed.

Definition plain_row (r : row) : Prop := forall col, plain (row_get r col).

Lemma format_value_plain (v : value) (question_text column_id : str) :
  plain v -> exists h, format_value L v question_text column_id = Ok h.
Proof.
  intros [H Hj]. unfold format_value.
  destruct (detect_value_type L v question_text column_id) as [t|e] eqn:D.
  - cbn [bind]. apply format_as_returns.
    destruct t; try (left; discriminate).
    right. apply Hj. eapply detect_json. exact D.
  - exfalso.
    destruct (detect_raises_digits L v question_text column_id e D)
      as (_ & _ & Hl & Hd & Hn).
    assert (Hall : forallb ascii_digit (safe_str v) = true).
    { apply forallb_forall. intros c Hc. apply H; [exact Hc|].
      eapply isdigit_chars; eassumption. }
    destruct (py_int_digits L (safe_str v)) as [n Hi];
      [|exact Hall| |].
    + intros E. rewrite E in Hd. discriminate.
    + apply int_digits_ok_short. apply not_long_text. exact Hl.
    + rewrite Hi in Hn. discriminate.
Qed.

Lemma plain_stripped (v : value) : plain v -> plain (Some (safe_str v)).
Proof.
  intros H. unfold plain, is_json. rewrite safe_str_idem. exact H.
Qed.

Lemma collect_items_plain (rows_data : dict row_info) (r : row)
  (order : list str) (it : item) :
  plain_row r -> In it (collect_items rows_data r order) ->
  plain (Some (item_value it)).
Proof.
  intros Hr. unfold collect_items. rewrite in_flat_map.
  intros (k & _ & H).
  destruct (dict_get rows_data k) as [ri|]; [|destruct H].
  destruct (is_empty (row_get r (row_id ri))); [destruct H|].
  destruct H as [<- | []]. cbn [item_value new_item].
  apply plain_stripped. apply Hr.
Qed.

Lemma data_table_returns (items : list item) (q_text : str) :
  (forall it, In it items -> plain (Some (item_value it))) ->
  exists h, _format_as_data_table L items q_text = Ok h.
Proof.
  intros H. unfold _format_as_data_table.
  destruct (mapM_total (data_row L q_text) items) as [trs Ht].
  - intros it Hit. unfold data_row.
    destruct (format_value_plain (Some (item_value it)) q_text
                (item_col_id it) (H it Hit)) as [h Hh].
    rewrite Hh. eexists. reflexivity.
  - rewrite Ht. eexists. reflexivity.
Qed.

Hypothesis L_ok : decimal_digits_ok L.

Variable columns : list str.
Hypothesis columns_ok :
  forall col, In col columns -> int_digits_ok L (length col) = true.

Lemma sort_row_key_decimal (k : str) :
  decimal_key L columns k ->
  exists key, sort_row_key L k = Ok key.
Proof.
  intros [H (col & Hcol & Hlen)]. unfold sort_row_key.
  destruct (isdigit L k) eqn:E.
  - destruct (py_int_decimal L L_ok k) as [n Hn]; [|exact H| |].
    + intros ->. discriminate.
    + apply (int_digits_ok_le L (length col)); auto.
    + rewrite Hn. eexists. reflexivity.
  - eexists. reflexivity.
Qed.

Lemma sorted_rows_decimal (rows_data : dict row_info) :
  (forall k, In k (keys rows_data) -> decimal_key L columns k) ->
  exists order, sorted_rows L rows_data = Ok order.
Proof.
  intros H. unfold sorted_rows.
  destruct (mapM_total (fun k => key <- sort_row_key L k ;; Ok (key, k))
              (keys rows_data)) as [ks Hks].
  - intros k Hk. destruct (sort_row_key_decimal k (H k Hk)) as [key Hkey].
    rewrite Hkey. eexists. reflexivity.
  - rewrite Hks. eexists. reflexivity.
Qed.

End Rendered.

Section Renderers.

Variable L : pylib.

Lemma grouped_returns (q : question) (r : row) :
  (exists order, sorted_rows L (q_rows q) = Ok order) ->
  plain_row L r ->
  exists h, fst (format_grouped_response L r q) = Ok h.
Proof.
  intros [order Ho] Hr.
  unfold format_grouped_response, rbind, read, lift, ret.
  destruct (negb (nonempty (q_rows q)) && nonempty (q_columns q)).
  - set (values := flat_map _ (q_columns q)).
    assert (Hv : forall x, In x values -> plain L (Some (snd x))).
    { intros x Hx. unfold values in Hx. apply in_flat_map in Hx.
      destruct Hx as (col & _ & Hx).
      destruct (is_empty (row_get r col)); [destruct Hx|].
      destruct Hx as [<- | []]. cbn [snd].
      apply plain_stripped. apply Hr. }
    destruct values as [|[c v] [|y vs]].
    + eexists. reflexivity.
    + destruct (format_value_plain L (Some v) (q_text q) c) as [h Hh];
        [apply (Hv (c, v)); left; reflexivity|].
      cbn [fst]. rewrite Hh. eexists. reflexivity.
    + destruct (mapM_total (list_entry L (q_text q)) ((c, v) :: y :: vs))
        as [lis Hl].
      * intros [c' v'] Hx. unfold list_entry.
        destruct (format_value_plain L (Some v') (q_text q) c')
          as [h Hh]; [apply (Hv (c', v')); exact Hx|].
        rewrite Hh. eexists. reflexivity.
      * rewrite Hl. eexists. reflexivity.
  - rewrite Ho.
    pose proof (collect_items_plain L (q_rows q) r order) as Hi.
    destruct (collect_items (q_rows q) r order) as [|it items];
      [eexists; reflexivity|].
    specialize (fun x => Hi x Hr).
    destruct (data_table_returns L (it :: items) (q_text q) Hi) as [h Hh].
    destruct (values_are_numeric_data L _);
      [cbn [fst]; rewrite Hh; eexists; reflexivity|].
    destruct (values_are_unique_data L _);
      [cbn [fst]; rewrite Hh; eexists; reflexivity|].
    destruct (use_checkmark_table _ _); [eexists; reflexivity|].
    cbn [fst]. rewrite data_table_analyse, Hh. eexists. reflexivity.
Qed.

Lemma matrix_returns (q : question) (r : row) :
  (exists order, sorted_rows L (q_rows q) = Ok order) ->
  plain_row L r ->
  exists h, fst (format_matrix_response L r q) = Ok h.
Proof.
  intros Ho Hr.
  pose proof (grouped_returns q r Ho Hr) as Hg. destruct Ho as [order Ho].
  unfold format_matrix_response, rbind, read, lift, ret.
  destruct (existsb has_cells_key (values (q_rows q))); [|exact Hg].
  destruct (negb (has_data (q_rows q) r)); [eexists; reflexivity|].
  rewrite Ho.
  destruct (mapM_total
              (matrix_row L (q_text q) (q_rows q) (q_col_order q) r) order)
    as [trs Ht].
  - intros k _. unfold matrix_row.
    destruct (dict_get (q_rows q) k) as [[id l | l cells]|];
      try (eexists; reflexivity).
    destruct (mapM_total (matrix_cell L (q_text q) cells r) (q_col_order q))
      as [tds Hd].
    + intros c _. unfold matrix_cell.
      destruct (dict_get cells c) as [x|]; [|eexists; reflexivity].
      destruct (is_empty (row_get r (cell_id x))); [eexists; reflexivity|].
      destruct (format_value_plain L (row_get r (cell_id x)) (q_text q)
                  (cell_id x) (Hr _)) as [h Hh].
      rewrite Hh. eexists. reflexivity.
    + rewrite Hd. eexists. reflexivity.
  - rewrite Ht. eexists. reflexivity.
Qed.

Lemma form_returns (q : question) (r : row) :
  (exists order, sorted_rows L (q_rows q) = Ok order) ->
  plain_row L r ->
  exists h, fst (format_form_response L r q) = Ok h.
Proof.
  intros [order Ho] Hr.
  unfold format_form_response, rbind, read, lift, ret.
  assert (Hrows : forall items,
             (forall it, In it items -> plain L (Some (item_value it))) ->
             exists h,
               fst (match items with
                    | [] => fun q0 : question => (Ok format_empty, q0)
                    | _ :: _ =>
                        fun q0 : question =>
                          let (r0, q') :=
                            (mapM (form_row L (q_text q)) items, q0) in
                          match r0 with
                          | Ok a =>
                              (Ok (py "<table class='data-table'><tbody>"
                                   ++ concat a ++ py "</tbody></table>"), q')
                          | Raise e => (Raise e, q')
                          end
                    end q) = Ok h).
  { intros items Hi. destruct items as [|it items];
      [eexists; reflexivity|].
    destruct (mapM_total (form_row L (q_text q)) (it :: items))
      as [trs Ht].
    - intros x Hx. unfold form_row, data_row.
      destruct (format_value_plain L (Some (item_value x)) (q_text q)
                  (item_col_id x) (Hi x Hx)) as [h Hh].
      rewrite Hh. eexists. reflexivity.
    - rewrite Ht. eexists. reflexivity. }
  destruct (negb (nonempty (q_rows q)) && nonempty (q_columns q)).
  - apply Hrows. intros it Hit. apply in_flat_map in Hit.
    destruct Hit as (col & _ & Hit).
    destruct (is_empty (row_get r col)); [destruct Hit|].
    destruct Hit as [<- | []]. cbn [item_value new_item].
    apply plain_stripped. apply Hr.
  - rewrite Ho. apply Hrows. intros it Hit.
    eapply collect_items_plain; eassumption.
Qed.

Lemma single_returns (q : question) (r : row) :
  plain_row L r -> exists h, fst (format_single_response L r q) = Ok h.
Proof.
  intros Hr. unfold format_single_response, rbind, read, lift, ret.
  destruct (q_columns q) as [|col cols]; [eexists; reflexivity|].
  destruct (negb (nonempty col)); [eexists; reflexivity|].
  destruct (is_empty (row_get r col)); [eexists; reflexivity|].
  destruct (format_value_plain L (row_get r col) (q_text q) col (Hr _))
    as [h Hh].
  cbn [fst]. rewrite Hh. eexists. reflexivity.
Qed.

Lemma format_response_returns (q : question) (r : row) :
  (exists order, sorted_rows L (q_rows q) = Ok order) ->
  plain_row L r ->
  exists h, fst (format_response L r q) = Ok h.
Proof.
  intros Ho Hr. unfold format_response, rbind, read.
  destruct (q_type q);
    try (destruct (str_eqb (q_internal_type q) (py "form")));
    try (destruct (length (q_columns q) =? 1));
    first [ apply matrix_returns; assumption
          | apply form_returns; assumption
          | apply single_returns; assumption
          | apply grouped_returns; assumption ].
Qed.

End Renderers.

Section Generated.

Variable L : pylib.
Hypothesis L_ok : decimal_digits_ok L.
Variable columns : list str.
Hypothesis columns_ok :
  forall col, In col columns -> int_digits_ok L (length col) = true.

Lemma card_returns (respondents : list respondent) (debug_mode : bool)
  (x : str * question) :
  (exists order, sorted_rows L (q_rows (snd x)) = Ok order) ->
  (forall resp, In resp respondents -> plain_row L (resp_row resp)) ->
  exists parts, card L respondents debug_mode x = Ok parts.
Proof.
  intros Ho Hr. destruct x as [q_id q]. unfold card. cbn [fst snd] in *.
  unfold question_card, answered_by, question_meta, rbind, read, ret.
  cbv beta iota.
  set (answered := filter _ respondents).
  assert (Ha : forall resp, In resp answered ->
                            plain_row L (resp_row resp)).
  { intros resp Hin. apply Hr. unfold answered in Hin.
    apply filter_In in Hin. apply Hin. }
  clearbody answered.
  assert (Hrows : forall sc,
             exists rows,
               rmapM (fun (resp0 : respondent) (q1 : question) =>
                        let (r2, q'1) :=
                          format_response L (resp_row resp0) q1 in
                        match r2 with
                        | Ok a1 =>
                            (Ok (respondent_row sc
                                   (format_respondent_header
                                      (resp_info resp0)) a1), q'1)
                        | Raise e => (Raise e, q'1)
                        end) answered q
               = (Ok rows, q)).
  { intros sc. rewrite rmapM_alone.
    - match goal with
      | |- exists rows, (mapM ?f answered, q) = _ =>
          destruct (mapM_total f answered) as [rows Hm]
      end.
      + intros a Hin.
        destruct (format_response_returns L q (resp_row a) Ho (Ha a Hin))
          as [h Hh].
        pose proof (format_response_preserves L (resp_row a) q) as Hp.
        destruct (format_response L (resp_row a) q) as [[h'|e] q1];
          simpl in Hh, Hp; [|discriminate].
        eexists. reflexivity.
      + rewrite Hm. exists rows. reflexivity.
    - intros a q0.
      pose proof (format_response_preserves L (resp_row a) q0) as Hp.
      destruct (format_response L (resp_row a) q0) as [[h|e] q1];
        simpl in Hp; subst q1; reflexivity. }
  destruct answered as [|resp0 answered0];
    [destruct debug_mode; eexists; reflexivity|].
  destruct debug_mode;
    match goal with
    | |- context [rmapM ?f ?l q] =>
        match f with
        | context [respondent_row ?sc] =>
            destruct (Hrows sc) as [rows Hm]
        end
    end; rewrite Hm; eexists; reflexivity.
Qed.

Lemma generate_html_returns (questions : dict question)
  (respondents : list respondent) (debug_mode has_qsf : bool) :
  all_numbered L columns questions ->
  (forall id q, In (id, q) questions ->
                exists order, sorted_rows L (q_rows q) = Ok order) ->
  (forall resp, In resp respondents -> plain_row L (resp_row resp)) ->
  exists document,
    generate_html L questions respondents debug_mode has_qsf = Ok document.
Proof.
  intros Hn Ho Hr. unfold generate_html, generate_parts. cbv zeta.
  destruct (mapM_total
              (fun x => n <- question_number L (fst x) ;; Ok (n, x))
              questions) as [ks Hks].
  { intros x Hx.
    destruct (question_number_numbered L L_ok columns (fst x) columns_ok)
      as [n Hq].
    - apply Hn. unfold keys. apply in_map. exact Hx.
    - rewrite Hq. eexists. reflexivity. }
  assert (Hs : sorted_questions L questions
               = Ok (sorted_by_key Z.ltb ks)).
  { unfold sorted_questions. rewrite Hks. reflexivity. }
  rewrite Hs.
  pose proof (visit_cards L respondents debug_mode (sorted_by_key Z.ltb ks))
    as Hv.
  destruct (visit L respondents debug_mode (sorted_by_key Z.ltb ks))
    as [res after].
  cbn [fst] in *. subst res.
  destruct (mapM_total (card L respondents debug_mode)
              (sorted_by_key Z.ltb ks)) as [cards Hc].
  { intros [id q] Hx. apply card_returns; [|exact Hr].
    apply (Ho id). eapply Permutation_in; [|exact Hx].
    apply sorted_questions_perm with (L := L). exact Hs. }
  rewrite Hc. cbn [bind]. eexists. reflexivity.
Qed.

End Generated.

Lemma enumerate_in {A : Type} (n k : nat) (a : A) (l : list A) :
  In (k, a) (enumerate n l) -> In a l.
Proof.
  revert n; induction l as [|b l IH]; intros n; simpl; [auto|].
  intros [[= _ <-] | H]; [left; reflexivity|]. right. eapply IH. exact H.
Qed.

Lemma response_lines_incl (lines : list (list value)) (line : list value) :
  In line (response_lines lines) -> In line (tl lines).
Proof.
  unfold response_lines. destruct (tl lines) as [|first rest];
    [intros []|].
  destruct (is_import_row first); [right; assumption | auto].
Qed.

(** X19.  The report of an export is generated, with the number of its
    lines of responses and of its questions returned, whenever the
    questions can be read from the columns, no column identifier is
    longer than the digits that [int] reads, and no cell of a response
    holds a digit other than the ASCII digits or is nested deeper than
    [json.loads] follows; the decimal digits of the library are taken to
    have the values 0 to 9 and to be no white space.  Nothing raises
    then: not the order of the questions or of the rows, and no
    classifier or formatter. *)
Theorem report_is_generated
  (L : pylib) (columns : list str) (texts : list value)
  (lines : list (list value)) (debug_mode : bool)
  (questions : dict question) :
  decimal_digits_ok L ->
  (forall col, In col columns -> int_digits_ok L (length col) = true) ->
  extract_questions_from_csv L columns texts = Ok questions ->
  (forall line v, In line lines -> In v line -> plain L v) ->
  exists document,
    process_qualtrics L (Csv columns (texts :: lines)) NoQsfPath debug_mode
    = Ok (document,
          (length (response_lines (texts :: lines)), length questions)).
Proof.
  intros L_ok Hcols He Hp. unfold process_qualtrics.
  cbn [validate_csv bind header_texts]. rewrite He. cbn [bind].
  assert (Hin : forall a, In a (combine columns texts) ->
                          In (fst a) columns).
  { intros [c t] Ha. apply in_combine_l in Ha. exact Ha. }
  destruct (generate_html_returns L L_ok columns Hcols questions
              (read_respondents columns (texts :: lines)) debug_mode false)
    as [document Hd].
  - apply (extraction_all_numbered L columns texts []). right. exact He.
  - intros id q Hin'. apply (sorted_rows_decimal L L_ok columns Hcols).
    revert id q Hin'.
    apply (foldM_invariant_in (all_decimal_keys L columns) (from_csv_step L)
             (combine columns texts) [] questions); [| |exact He].
    + intros s a s' Ha. apply from_csv_step_decimal_keys. apply Hin, Ha.
    + intros id q [].
  - intros resp Hr. unfold read_respondents in Hr.
    apply in_map_iff in Hr. destruct Hr as ([idx r] & <- & Hr).
    cbn [resp_row].
    apply enumerate_in in Hr. apply in_map_iff in Hr.
    destruct Hr as (line & <- & Hline).
    apply response_lines_incl in Hline. cbn [tl] in Hline.
    intros col. unfold row_get.
    destruct (dict_get (combine columns line) col) as [v|] eqn:G.
    + apply dict_get_in in G. apply in_combine_r in G.
      eapply Hp; eassumption.
    + split; [intros c [] | discriminate].
  - rewrite Hd. cbn [bind]. exists document.
    unfold read_respondents.
    rewrite length_map, enumerate_length, length_map. reflexivity.
Qed.

Definition rate_lines : list (list value) :=
  [[Some (py "R_1"); Some (py "4"); None; Some (py "yes"); None]].

Lemma report_is_generated_witness :
  exists questions,
    extract_questions_from_csv latin1_library rate_columns rate_texts
    = Ok questions
    /\ exists document,
         process_qualtrics latin1_library
           (Csv rate_columns (rate_texts :: rate_lines)) NoQsfPath false
         = Ok (document, (1, length questions)).
Proof.
  eexists. split; [vm_compute; reflexivity|].
  match goal with
  | |- exists document, _ = Ok (document, (1, length ?qs)) =>
      assert (E : extract_questions_from_csv latin1_library rate_columns
                    rate_texts = Ok qs) by (vm_compute; reflexivity)
  end.
  assert (Hok : decimal_digits_ok latin1_library)
    by (intros c d Hd; discriminate Hd).
  assert (Hcols : forall col, In col rate_columns ->
                              int_digits_ok latin1_library (length col)
                              = true).
  { apply short_columns. intros col Hcol. vm_compute in Hcol.
    repeat (destruct Hcol as [<- | Hcol]; [vm_compute; lia|]).
    destruct Hcol. }
  assert (Hp : forall line v, In line rate_lines -> In v line ->
                              plain latin1_library v).
  { intros line v [<- | []] Hv. split; [|intros _; discriminate].
    intros c Hc Hd. simpl in Hv.
    repeat (destruct Hv as [<- | Hv];
            [vm_compute in Hc;
             repeat (destruct Hc as [<- | Hc];
                     [vm_compute in Hd |- *;
                      first [reflexivity | discriminate Hd]|]);
             destruct Hc|]).
    destruct Hv. }
  destruct (report_is_generated latin1_library rate_columns rate_texts
              rate_lines false _ Hok Hcols E Hp) as [document Hd].
  exists document. exact Hd.
Defined.

(* ================================================================== *)
(** * The text of a question read from the export *)
(* ================================================================== *)

(** A word: code points none of which is white space. *)
Definition no_ws (w : str) : Prop := forall c, In c w -> isspace c = false.

Lemma split_ws_go_words (s cur w : str) :
  no_ws cur -> In w (split_ws_go s cur) -> w <> [] /\ no_ws w.
Proof.
  revert cur; induction s as [|c s IH]; intros cur Hcur; simpl.
  - destruct cur as [|x cur]; [intros []|].
    intros [<- | []]. split.
    + intros E. apply (f_equal (@length char)) in E.
      rewrite length_rev in E. discriminate.
    + intros y Hy. apply in_rev in Hy. apply Hcur. exact Hy.
  - destruct (isspace c) eqn:E.
    + destruct cur as [|x cur]; [apply IH; intros y []|].
      intros [<- | H]; [|apply (IH []); [intros y [] | exact H]].
      split.
      * intros E'. apply (f_equal (@length char)) in E'.
        rewrite length_rev in E'. discriminate.
      * intros y Hy. apply in_rev in Hy. apply Hcur. exact Hy.
    + apply IH. intros y [<- | Hy]; [exact E | apply Hcur; exact Hy].
Qed.

Lemma tidy_word (b : bool) (w s : str) :
  no_ws w -> tidy false s -> w <> [] -> tidy b (w ++ s).
Proof.
  intros Hw Hs Hne. destruct w as [|c w]; [contradiction|]. clear Hne.
  revert b c Hw; induction w as [|d w IH]; intros b c Hw; simpl.
  - rewrite (Hw c) by (left; reflexivity). exact Hs.
  - rewrite (Hw c) by (left; reflexivity).
    apply (IH false d). intros y Hy. apply Hw. right. exact Hy.
Qed.

Lemma tidy_words (ws : list str) :
  (forall w, In w ws -> w <> [] /\ no_ws w) ->
  tidy false (join (py " ") ws)
  /\ (forall c r, join (py " ") ws = c :: r -> isspace c = false).
Proof.
  induction ws as [|w ws IH]; intros H.
  - split; [exact I | discriminate].
  - destruct (H w (or_introl eq_refl)) as [Hne Hw].
    assert (Hhead : forall s c r, w ++ s = c :: r -> isspace c = false).
    { intros s c r E. destruct w as [|x w']; [contradiction|].
      injection E as <- _. apply Hw. left. reflexivity. }
    destruct ws as [|w2 ws].
    + cbn [join]. split.
      * rewrite <- (app_nil_r w). apply tidy_word; [exact Hw | exact I|].
        exact Hne.
      * intros c r E. apply (Hhead [] c r). rewrite app_nil_r. exact E.
    + destruct IH as [IH1 IH2];
        [intros x Hx; apply H; right; exact Hx|].
      change (join (py " ") (w :: w2 :: ws))
        with (w ++ 32%N :: join (py " ") (w2 :: ws)).
      split.
      * apply tidy_word; [exact Hw | | exact Hne].
        cbn [tidy]. change (isspace 32) with true. cbv iota.
        split; [reflexivity|]. split; [reflexivity|].
        destruct (join (py " ") (w2 :: ws)) as [|c r] eqn:E; [exact I|].
        cbn [tidy] in *. rewrite (IH2 c r eq_refl) in *. exact IH1.
      * intros c r. apply Hhead.
Qed.

Lemma words_normalized (t : str) :
  let u := strip (join (py " ") (split_ws t)) in
  (forall c, In c u -> isspace c = true -> c = 32%N)
  /\ (forall x y a b, u = x ++ a :: b :: y -> isspace a = true ->
                      isspace b = false)
  /\ (forall c r, u = c :: r -> isspace c = false)
  /\ (forall c r, u = r ++ [c] -> isspace c = false).
Proof.
  cbv zeta.
  assert (H : tidy false (strip (join (py " ") (split_ws t)))).
  { eapply tidy_strip. apply tidy_words. intros w Hw.
    eapply split_ws_go_words; [|exact Hw]. intros y []. }
  split; [|split; [|split]].
  - intros c. apply (tidy_blank _ _ _ H).
  - intros x0 y a b E. eapply tidy_apart; eassumption.
  - intros c r. apply strip_first.
  - intros c r. apply strip_last.
Qed.

(** X20.  Whatever the text of a column, what [clean_question_text]
    makes of it is normalized: its only white space is the blank, no
    two blanks stand together, and it neither begins nor ends with
    one. *)
Theorem clean_question_text_is_normalized (L : pylib) (text : value) :
  let u := clean_question_text L text in
  (forall c, In c u -> isspace c = true -> c = 32%N)
  /\ (forall x y a b, u = x ++ a :: b :: y -> isspace a = true ->
                      isspace b = false)
  /\ (forall c r, u = c :: r -> isspace c = false)
  /\ (forall c r, u = r ++ [c] -> isspace c = false).
Proof.
  unfold clean_question_text. destruct text as [text|].
  - apply words_normalized.
  - cbv zeta. split; [|split; [|split]].
    + intros c [].
    + intros x y a b H. destruct x; discriminate.
    + discriminate.
    + intros c r H. destruct r; discriminate.
Qed.

(* ================================================================== *)
(** * The coordinates of a click *)
(* ================================================================== *)

Lemma after_after (st : mstate) (n m : nat) :
  after (after st n) m = after st (n + m).
Proof.
  unfold after. cbn [m_pos m_rest m_groups].
  rewrite skipn_skipn, Nat.add_assoc, (Nat.add_comm m n). reflexivity.
Qed.

Lemma forallb_firstn_add (p : char -> bool) (n m : nat) (s : str) :
  forallb p (firstn n s) = true ->
  forallb p (firstn m (skipn n s)) = true ->
  forallb p (firstn (n + m) s) = true.
Proof.
  revert s; induction n as [|n IH]; intros s; [intros _ H; exact H|].
  destruct s as [|c s]; [destruct m; intros _ H; exact H|].
  cbn [Nat.add firstn skipn forallb].
  destruct (p c); [apply IH | discriminate].
Qed.

Section GroupOfClass.

Variable A : Type.
Variable x : A.
Variable q : char -> bool.
Variable i : nat.

(** A pattern without groups that reads code points of the class [q]
    only. *)
Fixpoint reads_class (r : regex) : Prop :=
  match r with
  | Chr p => forall c, p c = true -> q c = true
  | Cat r1 r2 | Alt r1 r2 => reads_class r1 /\ reads_class r2
  | Star r1 => reads_class r1
  | Group _ _ => False
  | _ => True
  end.

(** Whenever [body] gives [x], what follows it was reached after some
    code points of the class. *)
Definition reaches (body : mstate -> (mstate -> option A) -> option A)
  : Prop :=
  forall st k, body st k = Some x ->
    exists n, n <= length (m_rest st)
              /\ forallb q (firstn n (m_rest st)) = true
              /\ k (after st n) = Some x.

Lemma reaches_here (st : mstate) (k : mstate -> option A) :
  k st = Some x ->
  exists n, n <= length (m_rest st)
            /\ forallb q (firstn n (m_rest st)) = true
            /\ k (after st n) = Some x.
Proof.
  intros H. exists 0. rewrite after_0. split; [lia|]. split; [reflexivity|].
  exact H.
Qed.

Lemma reaches_then (st : mstate) (k : mstate -> option A) (n : nat) :
  n <= length (m_rest st) ->
  forallb q (firstn n (m_rest st)) = true ->
  (exists m, m <= length (m_rest (after st n))
             /\ forallb q (firstn m (m_rest (after st n))) = true
             /\ k (after (after st n) m) = Some x) ->
  exists m, m <= length (m_rest st)
            /\ forallb q (firstn m (m_rest st)) = true
            /\ k (after st m) = Some x.
Proof.
  intros Hn Hq (m & Hm & Hqm & Hk). exists (n + m).
  cbn [after m_rest] in Hm, Hqm. rewrite length_skipn in Hm.
  rewrite after_after in Hk. split; [lia|]. split; [|exact Hk].
  apply forallb_firstn_add; assumption.
Qed.

Lemma star_loop_reaches
  (body : mstate -> (mstate -> option A) -> option A)
  (k : mstate -> option A) (fuel : nat) (st : mstate) :
  reaches body ->
  star_loop body k fuel st = Some x ->
  exists n, n <= length (m_rest st)
            /\ forallb q (firstn n (m_rest st)) = true
            /\ k (after st n) = Some x.
Proof.
  intros Hb. unfold reaches in Hb.
  revert st; induction fuel as [|fuel IH]; intros st; cbn [star_loop].
  - apply reaches_here.
  - destruct (body st _) as [a|] eqn:E.
    + intros [= ->]. apply Hb in E. destruct E as (n & Hn & Hq & H).
      apply (reaches_then st k n Hn Hq).
      destruct (m_pos st <? m_pos (after st n)); [|discriminate].
      apply IH. exact H.
    + apply reaches_here.
Qed.

Lemma rmatch_reaches (r : regex) : reads_class r -> reaches (rmatch r).
Proof.
  unfold reaches.
  induction r as [|p|r1 IH1 r2 IH2|r1 IH1 r2 IH2|r1 IH1|j r1 IH1| |];
    intros Hok st k; cbn [rmatch].
  - apply reaches_here.
  - destruct (m_rest st) as [|c rest] eqn:E; [discriminate|].
    destruct (p c) eqn:Ec; [|discriminate]. intros H.
    exists 1. cbn [length firstn forallb].
    rewrite (Hok c Ec). split; [lia|]. split; [reflexivity|].
    rewrite <- (after_advance st c rest 0 E), after_0. exact H.
  - destruct Hok as [H1 H2]. intros H.
    destruct (IH1 H1 _ _ H) as (n & Hn & Hq & H').
    apply (reaches_then st k n Hn Hq). apply (IH2 H2 _ _ H').
  - destruct Hok as [H1 H2].
    destruct (rmatch r1 st k) as [a|] eqn:E.
    + intros [= ->]. apply (IH1 H1 _ _ E).
    + apply (IH2 H2).
  - apply star_loop_reaches. unfold reaches. apply IH1. exact Hok.
  - destruct Hok.
  - destruct (m_pos st =? 0); [|discriminate]. apply reaches_here.
  - intros H. apply reaches_here.
    destruct (m_rest st) as [|c [|c' rest]]; try discriminate; [exact H|].
    destruct (c =? 10)%N; [exact H | discriminate].
Qed.

(** The group [i] is only ever closed over a pattern that reads the
    class. *)
Fixpoint closes_over (r : regex) : Prop :=
  match r with
  | Cat r1 r2 | Alt r1 r2 => closes_over r1 /\ closes_over r2
  | Star r1 => closes_over r1
  | Group j r1 =>
      (j <> i /\ closes_over r1) \/ (j = i /\ reads_class r1)
  | _ => True
  end.

Lemma rmatch_group_over (r : regex) :
  closes_over r -> passes A (group_in_class q i) x (rmatch r).
Proof.
  unfold passes.
  induction r as [|c|r1 IH1 r2 IH2|r1 IH1 r2 IH2|r1 IH1|j r1 IH1| |];
    intros Hok st k; cbn [rmatch].
  - intros H HP. exists st. auto.
  - destruct (m_rest st) as [|a rest]; [discriminate|].
    destruct (c a); [|discriminate]. intros H HP.
    exists (advance st rest). auto.
  - destruct Hok as [H1 H2]. intros H HP.
    destruct (IH1 H1 _ _ H HP) as (st1 & HP1 & H').
    apply (IH2 H2 _ _ H' HP1).
  - destruct Hok as [H1 H2].
    destruct (rmatch r1 st k) as [a|] eqn:E.
    + intros [= ->]. apply (IH1 H1 _ _ E).
    + apply (IH2 H2).
  - apply star_loop_passes. unfold passes. apply IH1. exact Hok.
  - destruct Hok as [[Hj H1] | [-> H1]]; intros H HP.
    + destruct (IH1 H1 _ _ H HP) as (st1 & HP1 & H').
      exists (close_group j st st1). split; [|exact H'].
      intros g. cbn [close_group m_groups group].
      destruct (Nat.eqb_spec i j) as [E | E]; [congruence|]. apply HP1.
    + apply (rmatch_reaches r1 H1) in H. destruct H as (n & _ & Hq & H).
      exists (close_group i st (after st n)). split; [|exact H].
      intros g. cbn [close_group m_groups group after m_pos].
      rewrite Nat.eqb_refl. intros [= <-].
      replace (m_pos st + n - m_pos st) with n by lia. exact Hq.
  - destruct (m_pos st =? 0); [|discriminate]. intros H HP.
    exists st. auto.
  - destruct (m_rest st) as [|c [|c' rest]]; try discriminate.
    + intros H HP. exists st. auto.
    + destruct (c =? 10)%N; [|discriminate]. intros H HP.
      exists st. auto.
Qed.

End GroupOfClass.

Lemma search_from_match (r : regex) (s : str) (pos p : nat) (st : mstate) :
  search_from r pos s = Some (p, st) ->
  exists pos' s', match_at r pos' s' = Some st.
Proof.
  revert pos; induction s as [|c s IH]; intros pos; cbn [search_from].
  - destruct (match_at r pos []) as [st'|] eqn:E; [|discriminate].
    intros [= _ <-]. exists pos, []. exact E.
  - destruct (match_at r pos (c :: s)) as [st'|] eqn:E.
    + intros [= _ <-]. exists pos, (c :: s). exact E.
    + apply IH.
Qed.

(** What a group of a match found by [re.search] holds. *)
Lemma search_group_over (q : char -> bool) (i : nat) (r : regex) (s : str)
  (p : nat) (st : mstate) :
  closes_over q i r -> re_search r s = Some (p, st) ->
  forallb q (group_or_empty i st) = true.
Proof.
  intros Hr H. apply search_from_match in H. destruct H as (pos & s' & H).
  unfold match_at in H.
  pose proof (rmatch_group_over mstate st q i r Hr) as Hpass.
  unfold passes in Hpass. apply Hpass in H; [|intros g; discriminate].
  destruct H as (st' & HP & E'). apply Ok_inj' in E'. subst st'.
  unfold group_or_empty.
  destruct (group i (m_groups st)) as [g|] eqn:E; [|reflexivity].
  apply HP. exact E.
Qed.

Section Coordinates.

Variable L : pylib.

(** The code points of a number of a coordinate: a decimal digit or
    the point. *)
Definition coordinate_char (c : char) : bool :=
  isdecimal_char L c || (c =? 46)%N.

Lemma num_reads : reads_class coordinate_char (num L).
Proof.
  assert (Hd : forall c, isdecimal_char L c = true ->
                         coordinate_char c = true)
    by (intros c H; unfold coordinate_char; rewrite H; reflexivity).
  assert (Hp : forall c, is_char 46 c = true -> coordinate_char c = true)
    by (intros c H; unfold coordinate_char, is_char in *; rewrite H;
        apply orb_true_r).
  repeat split; assumption.
Qed.

Lemma pair_closes (i : nat) :
  i = 1 \/ i = 2 -> closes_over coordinate_char i (COORDINATE_PAIR L).
Proof.
  assert (H0 : closes_over coordinate_char i (num L))
    by (repeat split).
  pose proof num_reads as H.
  intros [-> | ->].
  - split; [right; split; [reflexivity | exact H]|].
    split; [exact I|]. split; [exact I|]. split; [exact I|].
    left. split; [discriminate | exact H0].
  - split; [left; split; [discriminate | exact H0]|].
    split; [exact I|]. split; [exact I|]. split; [exact I|].
    right. split; [reflexivity | exact H].
Qed.

Lemma coordinate_char_plain (c : char) :
  coordinate_char c = true -> delimiter c = false.
Proof.
  unfold coordinate_char, isdecimal_char, decimal, latin1, ascii_digit,
    between, delimiter.
  destruct (N.eqb_spec c 46) as [-> | N46]; [reflexivity|].
  rewrite orb_false_r. intros H.
  assert (E : (48 <= c <= 57)%N \/ (256 <= c)%N).
  { destruct (c <? 256)%N eqn:E1.
    - destruct ((48 <=? c) && (c <=? 57))%N eqn:E2; [|discriminate].
      apply andb_prop in E2. destruct E2 as [E2 E3].
      apply N.leb_le in E2, E3. left. lia.
    - apply N.ltb_ge in E1. right. exact E1. }
  rewrite (proj2 (N.eqb_neq c 60)), (proj2 (N.eqb_neq c 62)),
    (proj2 (N.eqb_neq c 34)), (proj2 (N.eqb_neq c 39)) by lia.
  reflexivity.
Qed.

End Coordinates.

Lemma not_delimiter (c : char) :
  delimiter c = false -> (c <> 60 /\ c <> 62 /\ c <> 34 /\ c <> 39)%N.
Proof.
  unfold delimiter. intros Hc.
  repeat (apply orb_false_iff in Hc; destruct Hc as [Hc ?]).
  repeat split; apply N.eqb_neq; assumption.
Qed.

(** X21.  Whatever the value, what [format_coordinate] puts between the
    tags of its span holds no code point that opens or closes a tag or
    an attribute value: the two numbers that it takes out of the value
    unescaped hold decimal digits and points only. *)
Theorem coordinate_is_markup_free (L : pylib) (v : value) :
  exists body,
    format_coordinate L v
    = py "<span class='coordinate'>üìç " ++ body ++ py "</span>"
    /\ forall c, In c body ->
                 (c <> 60 /\ c <> 62 /\ c <> 34 /\ c <> 39)%N.
Proof.
  unfold format_coordinate. cbv zeta.
  destruct (re_search (COORDINATE_PAIR L) (safe_str v)) as [[p st]|] eqn:E.
  - pose proof (search_group_over _ 1 _ _ _ _
                  (pair_closes L 1 (or_introl eq_refl)) E) as H1.
    pose proof (search_group_over _ 2 _ _ _ _
                  (pair_closes L 2 (or_intror eq_refl)) E) as H2.
    rewrite forallb_forall in H1, H2.
    exists (py "X: " ++ group_or_empty 1 st ++ py ", Y: "
            ++ group_or_empty 2 st).
    split.
    + assert (El : py "<span class='coordinate'>üìç X: "
                   = py "<span class='coordinate'>üìç " ++ py "X: ")
        by (vm_compute; reflexivity).
      rewrite El, <- !app_assoc. reflexivity.
    + intros c Hc. apply not_delimiter.
      rewrite !in_app_iff in Hc.
      destruct Hc as [Hc | [Hc | [Hc | Hc]]].
      * vm_compute in Hc.
        repeat (destruct Hc as [<- | Hc]; [reflexivity|]). contradiction.
      * apply (coordinate_char_plain L). apply H1. exact Hc.
      * vm_compute in Hc.
        repeat (destruct Hc as [<- | Hc]; [reflexivity|]). contradiction.
      * apply (coordinate_char_plain L). apply H2. exact Hc.
  - exists (safe_html (Some (safe_str v))). split; [reflexivity|].
    intros c Hc. apply not_delimiter.
    apply (escape_delimiters _ _ Hc).
Qed.
